(** * Interview assistant: screenshot pipeline and configuration store

    A shallow embedding of [electron/ProcessingHelper.ts] and
    [electron/ConfigHelper.ts], with the pure parts of the renderer's
    [LocalPages.tsx] and [SettingsDialog.tsx].  The JavaScript run time the
    files lean on (strings, regular-expression search, [JSON.parse],
    [JSON.stringify], [Math.min]/[Math.max]) is modelled first, the classes
    afterwards, and the properties last: those of the specification, then
    whole runs, the stored state and the renderer. *)

From Stdlib Require Import List NArith ZArith Bool String Ascii Lia.
Import ListNotations.

Set Implicit Arguments.

(* ================================================================== *)
(** ** JavaScript strings *)
(* ================================================================== *)

Module JS.

(** A JavaScript string is a sequence of UTF-16 code units. *)
Definition char := N.
Definition jsstring := list char.

(** Source literals are ASCII; [js "..."] is the string they denote. *)
Definition js (s : string) : jsstring :=
  map N_of_ascii (list_ascii_of_string s).

Definition LF : char := 10%N.
Definition COMMA : char := 44%N.
Definition COLON : char := 58%N.

(** [\s] of a regular expression and the characters [trim] removes:
    WhiteSpace and LineTerminator of ECMA-262. *)
Definition is_space (c : char) : bool :=
  ((9 <=? c) && (c <=? 13) || (c =? 32) || (c =? 160) || (c =? 5760)
   || (8192 <=? c) && (c <=? 8202) || (c =? 8232) || (c =? 8233)
   || (c =? 8239) || (c =? 8287) || (c =? 12288) || (c =? 65279))%N.

(** [\w] is [A-Za-z0-9_]. *)
Definition is_upper (c : char) : bool := ((65 <=? c) && (c <=? 90))%N.
Definition is_lower (c : char) : bool := ((97 <=? c) && (c <=? 122))%N.
Definition is_digit (c : char) : bool := ((48 <=? c) && (c <=? 57))%N.
Definition is_alpha (c : char) : bool := is_upper c || is_lower c.
Definition is_word (c : char) : bool :=
  is_alpha c || is_digit c || (c =? 95)%N.

Definition not_LF (c : char) : bool := negb (c =? LF)%N.

(** Case folding of the [i] flag: without the [u] flag a character outside
    ASCII never folds onto an ASCII one, so only the letters move. *)
Definition fold_case (c : char) : char :=
  if is_lower c then (c - 32)%N else c.

Fixpoint eqb (a b : jsstring) : bool :=
  match a, b with
  | [], [] => true
  | x :: a', y :: b' => (x =? y)%N && eqb a' b'
  | _, _ => false
  end.

(** [s.startsWith(p)]. *)
Fixpoint starts_with (p s : jsstring) : bool :=
  match p, s with
  | [], _ => true
  | x :: p', y :: s' => (x =? y)%N && starts_with p' s'
  | _ :: _, [] => false
  end.

(** The same, under the [i] flag. *)
Fixpoint starts_with_ci (p s : jsstring) : bool :=
  match p, s with
  | [], _ => true
  | x :: p', y :: s' => (fold_case x =? fold_case y)%N && starts_with_ci p' s'
  | _ :: _, [] => false
  end.

Fixpoint drop_while (f : char -> bool) (s : jsstring) : jsstring :=
  match s with
  | [] => []
  | c :: s' => if f c then drop_while f s' else s
  end.

Fixpoint take_while (f : char -> bool) (s : jsstring) : jsstring :=
  match s with
  | [] => []
  | c :: s' => if f c then c :: take_while f s' else []
  end.

(** [String.prototype.trim]. *)
Definition trimStart (s : jsstring) : jsstring := drop_while is_space s.
Definition trimEnd (s : jsstring) : jsstring :=
  rev (drop_while is_space (rev s)).
Definition trim (s : jsstring) : jsstring := trimEnd (trimStart s).

(** [s.includes(p)]. *)
Fixpoint includes (p s : jsstring) : bool :=
  starts_with p s ||
  match s with
  | [] => false
  | _ :: s' => includes p s'
  end.

(** A value is truthy as a string exactly when it is not empty. *)
Definition nonempty (s : jsstring) : bool :=
  match s with [] => false | _ :: _ => true end.

(** [a || b] on strings. *)
Definition or_else (a b : jsstring) : jsstring :=
  if nonempty a then a else b.

(** [Array.prototype.join]. *)
Fixpoint join (sep : jsstring) (l : list jsstring) : jsstring :=
  match l with
  | [] => []
  | [x] => x
  | x :: l' => x ++ sep ++ join sep l'
  end.

(** *** Regular-expression search

    [s.match(re)] without the [g] flag tries every start position from the
    left and, at each one, the alternatives of [re] in backtracking order.
    An expression is written as the function that matches it at the start of
    its argument and returns the first capture group. *)

Fixpoint search (A : Type) (m : jsstring -> option A) (s : jsstring)
  : option A :=
  match m s with
  | Some r => Some r
  | None =>
      match s with
      | [] => None
      | _ :: s' => search m s'
      end
  end.

(** [([\s\S]*?)d]: the shortest text up to an occurrence of [d]. *)
Fixpoint lazy_until (d s : jsstring) : option jsstring :=
  if starts_with d s then Some []
  else
    match s with
    | [] => None
    | c :: s' => option_map (cons c) (lazy_until d s')
    end.

(** [cls*k]: as many characters of [cls] as possible, giving them back
    one by one while the rest [k] of the expression fails. *)
Fixpoint greedy_star (A : Type) (cls : char -> bool)
    (k : jsstring -> option A) (s : jsstring) : option A :=
  match s with
  | [] => k []
  | c :: s' =>
      if cls c then
        match greedy_star cls k s' with
        | Some r => Some r
        | None => k s
        end
      else k s
  end.

(** [(?:cls+)?k]: the group if it matches and [k] follows, else [k] alone. *)
Definition opt_plus (A : Type) (cls : char -> bool)
    (k : jsstring -> option A) (s : jsstring) : option A :=
  match s with
  | c :: s' =>
      if cls c then
        match greedy_star cls k s' with
        | Some r => Some r
        | None => k s
        end
      else k s
  | [] => k []
  end.

(** [p k]: the literal [p], then [k]. *)
Definition lit (A : Type) (p : jsstring) (k : jsstring -> option A)
    (s : jsstring) : option A :=
  if starts_with p s then k (skipn (List.length p) s) else None.

Definition lit_ci (A : Type) (p : jsstring) (k : jsstring -> option A)
    (s : jsstring) : option A :=
  if starts_with_ci p s then k (skipn (List.length p) s) else None.

(** [([^\n]+)] at the end of an expression: the rest of the line, which
    must not be empty. *)
Definition rest_of_line (s : jsstring) : option jsstring :=
  match take_while not_LF s with
  | [] => None
  | l => Some l
  end.

(** [/d([\s\S]*?)d/] for a literal delimiter [d]. *)
Definition match_section (d text : jsstring) : option jsstring :=
  search (lit d (lazy_until d)) text.

Definition FENCE : jsstring := js "```".

(** [/```(?:\w+)?\s*([\s\S]*?)```/] *)
Definition match_fence (s : jsstring) : option jsstring :=
  search (lit FENCE (opt_plus is_word
            (greedy_star is_space (lazy_until FENCE)))) s.

(** [/```(?:[a-zA-Z]+)?([\s\S]*?)```/] *)
Definition match_debug_fence (s : jsstring) : option jsstring :=
  search (lit FENCE (opt_plus is_alpha (lazy_until FENCE))) s.

(** [/label:?\s*([^\n]+)/i] *)
Definition match_labelled_line (label s : jsstring) : option jsstring :=
  search (lit_ci label (fun r =>
            match
              match r with
              | c :: r' =>
                  if (c =? COLON)%N then greedy_star is_space rest_of_line r'
                  else None
              | [] => None
              end
            with
            | Some l => Some l
            | None => greedy_star is_space rest_of_line r
            end)) s.

End JS.

(* ================================================================== *)
(** ** Numbers *)
(* ================================================================== *)

Module Num.
Import JS.

(** A Number value.  [Finite m e] stands for [m * 10^e], the decimal the
    run time prints for a finite double (17 significant digits at most);
    comparison, zero test and printing are exact on such decimals.  The two
    zeros are not told apart. *)
Inductive number : Type :=
| NaN
| Infinity (negative : bool)
| Finite (m e : Z).

(** [m * 10^e] and [m' * 10^e'] on a common exponent. *)
Definition scaled (m e e' : Z) : Z := (m * 10 ^ (e - Z.min e e'))%Z.

(** [a < b]; false when either is [NaN]. *)
Definition ltb (a b : number) : bool :=
  match a, b with
  | NaN, _ | _, NaN => false
  | Infinity true, Infinity true => false
  | Infinity true, _ => true
  | _, Infinity true => false
  | Infinity false, _ => false
  | _, Infinity false => true
  | Finite m e, Finite m' e' => (scaled m e e' <? scaled m' e' e)%Z
  end.

(** [a <= b]; false when either is [NaN]. *)
Definition leb (a b : number) : bool :=
  match a, b with
  | NaN, _ | _, NaN => false
  | _, _ => negb (ltb b a)
  end.

Definition is_NaN (a : number) : bool :=
  match a with NaN => true | _ => false end.

(** [Math.max(a, b)] and [Math.min(a, b)]: [NaN] if either argument is,
    else the larger (smaller) argument. *)
Definition Math_max (a b : number) : number :=
  if is_NaN a || is_NaN b then NaN else if ltb a b then b else a.

Definition Math_min (a b : number) : number :=
  if is_NaN a || is_NaN b then NaN else if ltb b a then b else a.

(** Truthiness: every number but zero and [NaN]. *)
Definition truthy (a : number) : bool :=
  match a with
  | NaN => false
  | Infinity _ => true
  | Finite m _ => negb (m =? 0)%Z
  end.

(** *** Printing, after Number::toString of ECMA-262 *)

Fixpoint uint_digits (u : Decimal.uint) : jsstring :=
  match u with
  | Decimal.Nil => []
  | Decimal.D0 u' => 48%N :: uint_digits u'
  | Decimal.D1 u' => 49%N :: uint_digits u'
  | Decimal.D2 u' => 50%N :: uint_digits u'
  | Decimal.D3 u' => 51%N :: uint_digits u'
  | Decimal.D4 u' => 52%N :: uint_digits u'
  | Decimal.D5 u' => 53%N :: uint_digits u'
  | Decimal.D6 u' => 54%N :: uint_digits u'
  | Decimal.D7 u' => 55%N :: uint_digits u'
  | Decimal.D8 u' => 56%N :: uint_digits u'
  | Decimal.D9 u' => 57%N :: uint_digits u'
  end.

(** The decimal digits of a natural number, most significant first. *)
Definition digits (n : N) : jsstring := uint_digits (N.to_uint n).

Definition zeros (n : Z) : jsstring := repeat 48%N (Z.to_nat n).

Definition is_zero_digit (c : char) : bool := (c =? 48)%N.

(** The significant digits [s] of [|m|] without trailing zeros, and the
    exponent [n] for which the value is [0.s * 10^n]. *)
Definition significand (m e : Z) : jsstring * Z :=
  let all := digits (Z.to_N (Z.abs m)) in
  let s := rev (drop_while is_zero_digit (rev all)) in
  (s, (Z.of_nat (List.length all) + e)%Z).

Definition Number_toString (a : number) : jsstring :=
  match a with
  | NaN => js "NaN"
  | Infinity false => js "Infinity"
  | Infinity true => js "-Infinity"
  | Finite m e =>
      if (m =? 0)%Z then js "0"
      else
        let sign := if (m <? 0)%Z then js "-" else [] in
        let (s, n) := significand m e in
        let k := Z.of_nat (List.length s) in
        sign ++
        (if (k <=? n)%Z && (n <=? 21)%Z then s ++ zeros (n - k)
         else if (0 <? n)%Z && (n <=? 21)%Z then
           firstn (Z.to_nat n) s ++ js "." ++ skipn (Z.to_nat n) s
         else if (-6 <? n)%Z && (n <=? 0)%Z then
           js "0." ++ zeros (- n) ++ s
         else
           let ex := (if (n - 1 <? 0)%Z then js "-" else js "+")
                     ++ digits (Z.to_N (Z.abs (n - 1))) in
           match s with
           | [d] => d :: js "e" ++ ex
           | d :: ds => d :: js "." ++ ds ++ js "e" ++ ex
           | [] => []
           end)
  end.

(** The value of a run of decimal digits. *)
Definition digit_value (c : char) : Z := Z.of_N (c - 48).

Definition digits_value (s : jsstring) : Z :=
  fold_left (fun acc c => (acc * 10 + digit_value c)%Z) s 0%Z.

End Num.

(* ================================================================== *)
(** ** JSON values, [JSON.parse] and [JSON.stringify] *)
(* ================================================================== *)

Module Json.
Import JS Num.

#[local] Set Warnings "-register-all".

(** The values [JSON.parse] returns.  An object lists its own properties in
    creation order, each key once. *)
Inductive json : Type :=
| JNull
| JBool (b : bool)
| JNum (x : number)
| JStr (s : jsstring)
| JArr (l : list json)
| JObj (members : list (jsstring * json)).

Definition object := list (jsstring * json).

(** [o[k]]; [None] is [undefined]. *)
Fixpoint obj_get (k : jsstring) (o : object) : option json :=
  match o with
  | [] => None
  | (k', v) :: o' => if JS.eqb k k' then Some v else obj_get k o'
  end.

(** An array index is the canonical decimal of an integer below [2^32 - 1];
    the run time lists such keys first, in ascending order. *)
Definition array_index (k : jsstring) : option Z :=
  match k with
  | [] => None
  | c :: r =>
      if forallb is_digit k && (negb (c =? 48)%N || negb (nonempty r))
         && (digits_value k <? 4294967295)%Z
      then Some (digits_value k) else None
  end.

(** Whether a new key [k] goes before the existing key [k']. *)
Definition goes_before (k k' : jsstring) : bool :=
  match array_index k, array_index k' with
  | Some i, Some i' => (i <? i')%Z
  | Some _, None => true
  | None, _ => false
  end.

Fixpoint obj_insert (k : jsstring) (v : json) (o : object) : object :=
  match o with
  | [] => [(k, v)]
  | (k', v') :: o' =>
      if goes_before k k' then (k, v) :: o else (k', v') :: obj_insert k v o'
  end.

Fixpoint obj_update (k : jsstring) (v : json) (o : object) : object :=
  match o with
  | [] => []
  | (k', v') :: o' =>
      if JS.eqb k k' then (k', v) :: o' else (k', v') :: obj_update k v o'
  end.

Definition obj_has (k : jsstring) (o : object) : bool :=
  match obj_get k o with Some _ => true | None => false end.

(** [o[k] = v]: an existing property keeps its place, a new one goes after
    the others of its kind. *)
Definition obj_set (k : jsstring) (v : json) (o : object) : object :=
  if obj_has k o then obj_update k v o else obj_insert k v o.

(** [{...a, ...b}] for objects [a] and [b]. *)
Definition obj_spread (a b : object) : object :=
  fold_left (fun acc kv => obj_set (fst kv) (snd kv) acc) b a.

(** [v.k] for a value that came out of [JSON.parse] and is not [null]. *)
Definition get (k : jsstring) (v : json) : option json :=
  match v with
  | JObj o => obj_get k o
  | _ => None
  end.

(** Truthiness, [undefined] included. *)
Definition truthy (v : option json) : bool :=
  match v with
  | None | Some JNull => false
  | Some (JBool b) => b
  | Some (JNum x) => Num.truthy x
  | Some (JStr s) => nonempty s
  | Some (JArr _) | Some (JObj _) => true
  end.

(** The string a value becomes inside a template literal. *)
Fixpoint ToString (v : json) : jsstring :=
  match v with
  | JNull => js "null"
  | JBool true => js "true"
  | JBool false => js "false"
  | JNum x => Number_toString x
  | JStr s => s
  | JArr l =>
      join [COMMA]
        (map (fun x => match x with JNull => [] | _ => ToString x end) l)
  | JObj _ => js "[object Object]"
  end.

(** *** [JSON.parse] *)

Definition is_json_ws (c : char) : bool :=
  ((c =? 9) || (c =? 10) || (c =? 13) || (c =? 32))%N.

Definition skip_ws (s : jsstring) : jsstring := drop_while is_json_ws s.

Definition hex_value (c : char) : option N :=
  if is_digit c then Some (c - 48)%N
  else if ((97 <=? c) && (c <=? 102))%N then Some (c - 87)%N
  else if ((65 <=? c) && (c <=? 70))%N then Some (c - 55)%N
  else None.

Definition hex4 (s : jsstring) : option (char * jsstring) :=
  match s with
  | a :: b :: c :: d :: r =>
      match hex_value a, hex_value b, hex_value c, hex_value d with
      | Some a, Some b, Some c, Some d =>
          Some (((a * 16 + b) * 16 + c) * 16 + d, r)%N
      | _, _, _, _ => None
      end
  | _ => None
  end.

(** The characters of a string literal after its opening quote. *)
Fixpoint string_body (fuel : nat) (s : jsstring)
  : option (jsstring * jsstring) :=
  match fuel with
  | O => None
  | S fuel' =>
      let more c r :=
        match string_body fuel' r with
        | Some (t, r') => Some (c :: t, r')
        | None => None
        end in
      match s with
      | [] => None
      | 34%N :: r => Some ([], r)
      | 92%N :: e :: r =>
          match e with
          | 34%N => more 34%N r
          | 92%N => more 92%N r
          | 47%N => more 47%N r
          | 98%N => more 8%N r
          | 102%N => more 12%N r
          | 110%N => more 10%N r
          | 114%N => more 13%N r
          | 116%N => more 9%N r
          | 117%N =>
              match hex4 r with
              | Some (c, r') => more c r'
              | None => None
              end
          | _ => None
          end
      | c :: r => if (c <? 32)%N || (c =? 92)%N then None else more c r
      end
  end.

(** A number literal: an optional minus sign, then [0] or a run of digits
    that does not start with [0], then an optional fraction (a dot and at
    least one digit) and an optional exponent ([e] or [E], an optional sign
    and at least one digit).  The value is kept as written; the run time
    rounds a literal of more than 17 significant digits, or one out of the
    range of a double, to the nearest double. *)
Definition number_literal (s : jsstring) : option (number * jsstring) :=
  let (neg, s1) :=
    match s with
    | 45%N :: r => (true, r)
    | _ => (false, s)
    end in
  let int_part :=
    match s1 with
    | 48%N :: r => Some ([48%N], r)
    | c :: _ =>
        if is_digit c then Some (take_while is_digit s1, drop_while is_digit s1)
        else None
    | [] => None
    end in
  match int_part with
  | None => None
  | Some (ip, s2) =>
      let frac :=
        match s2 with
        | 46%N :: c :: r =>
            if is_digit c then
              Some (take_while is_digit (c :: r), drop_while is_digit (c :: r))
            else None
        | 46%N :: [] => None
        | _ => Some ([], s2)
        end in
      match frac with
      | None => None
      | Some (fp, s3) =>
          let expo :=
            match s3 with
            | c :: r =>
                if (c =? 101)%N || (c =? 69)%N then
                  let (eneg, r1) :=
                    match r with
                    | 45%N :: r' => (true, r')
                    | 43%N :: r' => (false, r')
                    | _ => (false, r)
                    end in
                  match r1 with
                  | d :: _ =>
                      if is_digit d then
                        let v := digits_value (take_while is_digit r1) in
                        Some (if eneg then (- v)%Z else v,
                              drop_while is_digit r1)
                      else None
                  | [] => None
                  end
                else Some (0%Z, s3)
            | [] => Some (0%Z, s3)
            end in
          match expo with
          | None => None
          | Some (ex, s4) =>
              let m := digits_value (ip ++ fp) in
              Some (Finite (if neg then (- m)%Z else m)
                           (ex - Z.of_nat (List.length fp)), s4)
          end
      end
  end.

(** One value, with the white space before it; [elements] and [members]
    read what follows the first item of an array and of an object. *)
Fixpoint value (fuel : nat) (s : jsstring) {struct fuel}
  : option (json * jsstring) :=
  match fuel with
  | O => None
  | S fuel' =>
      match skip_ws s with
      | 34%N :: r =>
          match string_body (S (List.length r)) r with
          | Some (t, r') => Some (JStr t, r')
          | None => None
          end
      | 91%N :: r =>
          match skip_ws r with
          | 93%N :: r' => Some (JArr [], r')
          | _ =>
              match elements fuel' r with
              | Some (l, r') => Some (JArr l, r')
              | None => None
              end
          end
      | 123%N :: r =>
          match skip_ws r with
          | 125%N :: r' => Some (JObj [], r')
          | _ =>
              match members fuel' [] r with
              | Some (o, r') => Some (JObj o, r')
              | None => None
              end
          end
      | 116%N :: 114%N :: 117%N :: 101%N :: r => Some (JBool true, r)
      | 102%N :: 97%N :: 108%N :: 115%N :: 101%N :: r => Some (JBool false, r)
      | 110%N :: 117%N :: 108%N :: 108%N :: r => Some (JNull, r)
      | s' =>
          match number_literal s' with
          | Some (x, r) => Some (JNum x, r)
          | None => None
          end
      end
  end
with elements (fuel : nat) (s : jsstring) {struct fuel}
  : option (list json * jsstring) :=
  match fuel with
  | O => None
  | S fuel' =>
      match value fuel' s with
      | None => None
      | Some (v, r) =>
          match skip_ws r with
          | 93%N :: r' => Some ([v], r')
          | 44%N :: r' =>
              match elements fuel' r' with
              | Some (l, r'') => Some (v :: l, r'')
              | None => None
              end
          | _ => None
          end
      end
  end
with members (fuel : nat) (acc : list (jsstring * json)) (s : jsstring)
    {struct fuel} : option (list (jsstring * json) * jsstring) :=
  match fuel with
  | O => None
  | S fuel' =>
      match skip_ws s with
      | 34%N :: r =>
          match string_body (S (List.length r)) r with
          | None => None
          | Some (k, r1) =>
              match skip_ws r1 with
              | 58%N :: r2 =>
                  match value fuel' r2 with
                  | None => None
                  | Some (v, r3) =>
                      let acc' := obj_set k v acc in
                      match skip_ws r3 with
                      | 125%N :: r4 => Some (acc', r4)
                      | 44%N :: r4 => members fuel' acc' r4
                      | _ => None
                      end
                  end
              | _ => None
              end
          end
      | _ => None
      end
  end.

(** [JSON.parse(text)]; [None] when it throws a SyntaxError. *)
Definition JSON_parse (text : jsstring) : option json :=
  match value (2 * List.length text + 2) text with
  | Some (v, r) =>
      match skip_ws r with
      | [] => Some v
      | _ :: _ => None
      end
  | None => None
  end.

(** *** [JSON.stringify] *)

Definition hex_digit (n : N) : char :=
  if (n <? 10)%N then (48 + n)%N else (87 + n)%N.

(** [\uXXXX], in lower case. *)
Definition unicode_escape (c : char) : jsstring :=
  [92; 117; hex_digit (c / 4096 mod 16); hex_digit (c / 256 mod 16);
   hex_digit (c / 16 mod 16); hex_digit (c mod 16)]%N.

Definition is_high_surrogate (c : char) : bool :=
  ((55296 <=? c) && (c <=? 56319))%N.
Definition is_low_surrogate (c : char) : bool :=
  ((56320 <=? c) && (c <=? 57343))%N.

Fixpoint quote_body (s : jsstring) : jsstring :=
  match s with
  | [] => []
  | c :: r =>
      if (c =? 8)%N then [92; 98]%N ++ quote_body r
      else if (c =? 9)%N then [92; 116]%N ++ quote_body r
      else if (c =? 10)%N then [92; 110]%N ++ quote_body r
      else if (c =? 12)%N then [92; 102]%N ++ quote_body r
      else if (c =? 13)%N then [92; 114]%N ++ quote_body r
      else if (c =? 34)%N then [92; 34]%N ++ quote_body r
      else if (c =? 92)%N then [92; 92]%N ++ quote_body r
      else if (c <? 32)%N then unicode_escape c ++ quote_body r
      else if is_high_surrogate c then
        match r with
        | d :: r' =>
            if is_low_surrogate d then c :: d :: quote_body r'
            else unicode_escape c ++ quote_body r
        | [] => unicode_escape c
        end
      else if is_low_surrogate c then unicode_escape c ++ quote_body r
      else c :: quote_body r
  end.

(** QuoteJSONString. *)
Definition quote (s : jsstring) : jsstring :=
  34%N :: quote_body s ++ [34%N].

(** SerializeJSONProperty with the gap [gap], at indentation [indent]. *)
Fixpoint serialize (gap indent : jsstring) (v : json) : jsstring :=
  let inner := indent ++ gap in
  let sep := if nonempty gap then COMMA :: LF :: inner else [COMMA] in
  let wrap (open close : char) (items : list jsstring) :=
    match items with
    | [] => [open; close]
    | _ :: _ =>
        if nonempty gap then
          open :: LF :: inner ++ join sep items ++ LF :: indent ++ [close]
        else open :: join sep items ++ [close]
    end in
  match v with
  | JNull => js "null"
  | JBool true => js "true"
  | JBool false => js "false"
  | JNum (Finite m e) => Number_toString (Finite m e)
  | JNum _ => js "null"
  | JStr s => quote s
  | JArr l => wrap 91%N 93%N (map (serialize gap inner) l)
  | JObj o =>
      wrap 123%N 125%N
        (map (fun kv =>
                match kv with
                | (k, x) =>
                    quote k ++ (if nonempty gap then [COLON; 32%N]
                                else [COLON]) ++ serialize gap inner x
                end) o)
  end.

(** [JSON.stringify(v, null, 2)]. *)
Definition JSON_stringify_2 (v : json) : jsstring :=
  serialize (js "  ") [] v.

End Json.

(* ================================================================== *)
(** ** The application state *)
(* ================================================================== *)

Module World.
Import JS Num Json.

(** [new OpenAI({ apiKey, baseURL, timeout: 60000, maxRetries: 2 })] *)
Record Client : Type := {
  apiKey : json;
  baseURL : json
}.

(** The main [BrowserWindow] and the two globals of its page that the
    helper reads through [executeJavaScript]. *)
Record Window : Type := {
  isDestroyed : bool;
  IS_INITIALIZED : bool;
  LANGUAGE : option jsstring
}.

Inductive View : Type := queue | solutions.

(** The problem record kept by the main process (ProblemStatementData). *)
Record ProblemInfo : Type := {
  problem_statement : jsstring;
  constraints : option jsstring;
  example_input : option jsstring;
  example_output : option jsstring;
  solution_stub : option jsstring;
  notes : option jsstring
}.

(** An entry of the debug state kept by the revision with follow-ups. *)
Record DebugStateEntry : Type := {
  entry_problemInfo : ProblemInfo;
  entry_code : jsstring;
  timestamp : Z
}.

(** The record sent with [SOLUTION_SUCCESS]. *)
Record SolutionData : Type := {
  code : jsstring;
  thoughts : list jsstring;
  time_complexity : jsstring;
  space_complexity : jsstring
}.

(** The record sent with [DEBUG_SUCCESS]. *)
Record DebugData : Type := {
  debug_code : jsstring;
  debug_analysis : jsstring;
  debug_thoughts : list jsstring;
  debug_time_complexity : jsstring;
  debug_space_complexity : jsstring
}.

(** An exception as the handlers look at it: [axios.isCancel(error)],
    [error.response.status] and [error.message]. *)
Record Error : Type := {
  isCancel : bool;
  response_status : option Z;
  message : jsstring
}.

Definition new_Error (msg : jsstring) : Error :=
  {| isCancel := false; response_status := None; message := msg |}.

(** What is sent along with an error event: the exception itself or a
    text. *)
Inductive ErrorPayload : Type :=
| Thrown (e : Error)
| Text (s : jsstring).

(** [mainWindow.webContents.send(channel, payload)], by channel. *)
Inductive Event : Type :=
| API_KEY_INVALID
| INITIAL_START
| NO_SCREENSHOTS
| SOLUTION_SUCCESS (data : SolutionData)
| INITIAL_SOLUTION_ERROR (payload : ErrorPayload)
| DEBUG_START
| DEBUG_SUCCESS (data : DebugData)
| DEBUG_ERROR (payload : jsstring)
| processing_status (message : jsstring) (progress : N).

Inductive Mode : Type :=
| InitialSolve
| Debug (info : ProblemInfo)
| DebugInContext (isFollowUp : bool) (contextSections : jsstring).

(** The argument of [chat.completions.create] (temperature 0.2), with the
    fixed prompts reduced to what is substituted into them: the mode with
    the problem record or the context sections, the language and one
    [image_url] part per screenshot. *)
Record Request : Type := {
  model : json;
  mode : Mode;
  language : jsstring;
  image_urls : list jsstring
}.

(** [new AbortController()] *)
Record AbortController : Type := { aborted : bool }.

Definition new_AbortController : AbortController := {| aborted := false |}.

Inductive Controller : Type := ProcessingController | ExtraProcessingController.

(** What the program does to the outside, in the order it does it. *)
Inductive Effect : Type :=
| Send (e : Event)
| ApiCall (r : Request)
| Abort (c : Controller)
| Unlink (path : jsstring).

(** The completion the endpoint gives: a reply, whose content may be null,
    or an exception. *)
Inductive ApiOutcome : Type :=
| Replied (content : option jsstring)
| Failed (e : Error).

Record State : Type := {
  (** the disk: [config.json]; the entries of [debugState.json], which only
      the revision with follow-ups writes ([None] when the file is absent
      or unreadable); and for every existing screenshot path the base64
      text of its bytes, or [None] if it cannot be read *)
  configFile : option jsstring;
  debugState : option (list DebugStateEntry);
  files : list (jsstring * option jsstring);
  (** ProcessingHelper *)
  aiClient : option Client;
  currentProcessingAbortController : option AbortController;
  currentExtraProcessingAbortController : option AbortController;
  (** main process (IProcessingHelperDeps) *)
  mainWindow : option Window;
  view : View;
  problemInfo : option ProblemInfo;
  hasDebugged : bool;
  (** ScreenshotHelper *)
  screenshotQueue : list jsstring;
  extraScreenshotQueue : list jsstring;
  (** effects so far, oldest first *)
  trace : list Effect
}.

Definition set_configFile (x : option jsstring)
    (s : State) : State :=
  {| configFile := x;
     debugState := debugState s;
     files := files s;
     aiClient := aiClient s;
     currentProcessingAbortController := currentProcessingAbortController s;
     currentExtraProcessingAbortController := currentExtraProcessingAbortController s;
     mainWindow := mainWindow s;
     view := view s;
     problemInfo := problemInfo s;
     hasDebugged := hasDebugged s;
     screenshotQueue := screenshotQueue s;
     extraScreenshotQueue := extraScreenshotQueue s;
     trace := trace s |}.

Definition set_debugState (x : option (list DebugStateEntry))
    (s : State) : State :=
  {| configFile := configFile s;
     debugState := x;
     files := files s;
     aiClient := aiClient s;
     currentProcessingAbortController := currentProcessingAbortController s;
     currentExtraProcessingAbortController := currentExtraProcessingAbortController s;
     mainWindow := mainWindow s;
     view := view s;
     problemInfo := problemInfo s;
     hasDebugged := hasDebugged s;
     screenshotQueue := screenshotQueue s;
     extraScreenshotQueue := extraScreenshotQueue s;
     trace := trace s |}.

Definition set_files (x : list (jsstring * option jsstring))
    (s : State) : State :=
  {| configFile := configFile s;
     debugState := debugState s;
     files := x;
     aiClient := aiClient s;
     currentProcessingAbortController := currentProcessingAbortController s;
     currentExtraProcessingAbortController := currentExtraProcessingAbortController s;
     mainWindow := mainWindow s;
     view := view s;
     problemInfo := problemInfo s;
     hasDebugged := hasDebugged s;
     screenshotQueue := screenshotQueue s;
     extraScreenshotQueue := extraScreenshotQueue s;
     trace := trace s |}.

Definition set_aiClient (x : option Client)
    (s : State) : State :=
  {| configFile := configFile s;
     debugState := debugState s;
     files := files s;
     aiClient := x;
     currentProcessingAbortController := currentProcessingAbortController s;
     currentExtraProcessingAbortController := currentExtraProcessingAbortController s;
     mainWindow := mainWindow s;
     view := view s;
     problemInfo := problemInfo s;
     hasDebugged := hasDebugged s;
     screenshotQueue := screenshotQueue s;
     extraScreenshotQueue := extraScreenshotQueue s;
     trace := trace s |}.

Definition set_currentProcessingAbortController (x : option AbortController)
    (s : State) : State :=
  {| configFile := configFile s;
     debugState := debugState s;
     files := files s;
     aiClient := aiClient s;
     currentProcessingAbortController := x;
     currentExtraProcessingAbortController := currentExtraProcessingAbortController s;
     mainWindow := mainWindow s;
     view := view s;
     problemInfo := problemInfo s;
     hasDebugged := hasDebugged s;
     screenshotQueue := screenshotQueue s;
     extraScreenshotQueue := extraScreenshotQueue s;
     trace := trace s |}.

Definition set_currentExtraProcessingAbortController (x : option AbortController)
    (s : State) : State :=
  {| configFile := configFile s;
     debugState := debugState s;
     files := files s;
     aiClient := aiClient s;
     currentProcessingAbortController := currentProcessingAbortController s;
     currentExtraProcessingAbortController := x;
     mainWindow := mainWindow s;
     view := view s;
     problemInfo := problemInfo s;
     hasDebugged := hasDebugged s;
     screenshotQueue := screenshotQueue s;
     extraScreenshotQueue := extraScreenshotQueue s;
     trace := trace s |}.

Definition setView (x : View)
    (s : State) : State :=
  {| configFile := configFile s;
     debugState := debugState s;
     files := files s;
     aiClient := aiClient s;
     currentProcessingAbortController := currentProcessingAbortController s;
     currentExtraProcessingAbortController := currentExtraProcessingAbortController s;
     mainWindow := mainWindow s;
     view := x;
     problemInfo := problemInfo s;
     hasDebugged := hasDebugged s;
     screenshotQueue := screenshotQueue s;
     extraScreenshotQueue := extraScreenshotQueue s;
     trace := trace s |}.

Definition setProblemInfo (x : option ProblemInfo)
    (s : State) : State :=
  {| configFile := configFile s;
     debugState := debugState s;
     files := files s;
     aiClient := aiClient s;
     currentProcessingAbortController := currentProcessingAbortController s;
     currentExtraProcessingAbortController := currentExtraProcessingAbortController s;
     mainWindow := mainWindow s;
     view := view s;
     problemInfo := x;
     hasDebugged := hasDebugged s;
     screenshotQueue := screenshotQueue s;
     extraScreenshotQueue := extraScreenshotQueue s;
     trace := trace s |}.

Definition setHasDebugged (x : bool)
    (s : State) : State :=
  {| configFile := configFile s;
     debugState := debugState s;
     files := files s;
     aiClient := aiClient s;
     currentProcessingAbortController := currentProcessingAbortController s;
     currentExtraProcessingAbortController := currentExtraProcessingAbortController s;
     mainWindow := mainWindow s;
     view := view s;
     problemInfo := problemInfo s;
     hasDebugged := x;
     screenshotQueue := screenshotQueue s;
     extraScreenshotQueue := extraScreenshotQueue s;
     trace := trace s |}.

Definition set_extraScreenshotQueue (x : list jsstring)
    (s : State) : State :=
  {| configFile := configFile s;
     debugState := debugState s;
     files := files s;
     aiClient := aiClient s;
     currentProcessingAbortController := currentProcessingAbortController s;
     currentExtraProcessingAbortController := currentExtraProcessingAbortController s;
     mainWindow := mainWindow s;
     view := view s;
     problemInfo := problemInfo s;
     hasDebugged := hasDebugged s;
     screenshotQueue := screenshotQueue s;
     extraScreenshotQueue := x;
     trace := trace s |}.

Definition set_trace (x : list Effect)
    (s : State) : State :=
  {| configFile := configFile s;
     debugState := debugState s;
     files := files s;
     aiClient := aiClient s;
     currentProcessingAbortController := currentProcessingAbortController s;
     currentExtraProcessingAbortController := currentExtraProcessingAbortController s;
     mainWindow := mainWindow s;
     view := view s;
     problemInfo := problemInfo s;
     hasDebugged := hasDebugged s;
     screenshotQueue := screenshotQueue s;
     extraScreenshotQueue := extraScreenshotQueue s;
     trace := x |}.

(** *** Computations

    A method runs on the state and either completes with a value or throws;
    [await] is transparent, a call runs to its end before anything else
    touches the state. *)

Inductive Completion (A : Type) : Type :=
| Normal (a : A)
| Throw (e : Error).
Arguments Throw {A} e.

Definition M (A : Type) : Type := State -> Completion A * State.

Definition ret (A : Type) (a : A) : M A := fun s => (Normal a, s).

Definition throw (A : Type) (e : Error) : M A := fun s => (Throw e, s).
Arguments throw {A} e.

Definition bind (A B : Type) (m : M A) (k : A -> M B) : M B :=
  fun s =>
    match m s with
    | (Normal a, s') => k a s'
    | (Throw e, s') => (Throw e, s')
    end.

(** [try { m } catch (e) { h e }] *)
Definition try_catch (A : Type) (m : M A) (h : Error -> M A) : M A :=
  fun s =>
    match m s with
    | (Normal a, s') => (Normal a, s')
    | (Throw e, s') => h e s'
    end.

(** [try { m } finally { f }], for an [f] that does not throw. *)
Definition finally (A : Type) (m : M A) (f : State -> State) : M A :=
  fun s => let (r, s') := m s in (r, f s').

(** A step that only changes the state. *)
Definition modify (f : State -> State) : M unit :=
  fun s => (Normal tt, f s).

Definition gets (A : Type) (f : State -> A) : M A :=
  fun s => (Normal (f s), s).

Definition when (b : bool) (m : M unit) : M unit :=
  if b then m else ret tt.

Declare Scope js_scope.
Delimit Scope js_scope with js.
Notation "x <- m ;; k" := (bind m (fun x => k))
  (at level 61, m at next level, right associativity) : js_scope.
Notation "m ;; k" := (bind m (fun _ => k))
  (at level 61, right associativity) : js_scope.

(** One more effect. *)
Definition emit (e : Effect) (s : State) : State :=
  set_trace (trace s ++ [e]) s.

(** [w.webContents.send(...)]; a destroyed window throws. *)
Definition send (w : Window) (e : Event) : M unit :=
  if isDestroyed w then throw (new_Error (js "Object has been destroyed"))
  else modify (emit (Send e)).

(** [fs.existsSync(path)] *)
Fixpoint lookup_file (path : jsstring) (fs : list (jsstring * option jsstring))
  : option (option jsstring) :=
  match fs with
  | [] => None
  | (p, d) :: fs' => if JS.eqb path p then Some d else lookup_file path fs'
  end.

Definition existsSync (s : State) (path : jsstring) : bool :=
  match lookup_file path (files s) with
  | Some _ => true
  | None => false
  end.

(** [fs.readFileSync(path).toString('base64')], together with the preview
    read of the same file; [None] when either throws. *)
Definition readScreenshot (s : State) (path : jsstring) : option jsstring :=
  match lookup_file path (files s) with
  | Some (Some d) => Some d
  | _ => None
  end.

End World.

(* ================================================================== *)
(** ** ConfigHelper.ts *)
(* ================================================================== *)

Module ConfigHelper.
Import JS Num Json World.
Local Open Scope js_scope.

(** A configuration is the object [loadConfig] returns: the five fields of
    [Config], with whatever values the file gave them. *)
Definition Config := object.

Definition defaultConfig : Config :=
  [ (js "aiApiKey", JStr []);
    (js "aiEndpoint", JStr (js "https://api.openai.com/v1"));
    (js "aiModel", JStr (js "gpt-4o"));
    (js "language", JStr (js "python"));
    (js "opacity", JNum (Finite 1 0)) ].

(** The five field names of [Config]. *)
Definition fields : list jsstring :=
  [js "aiApiKey"; js "aiEndpoint"; js "aiModel"; js "language"; js "opacity"].

Fixpoint indexed (i : N) (l : list json) : object :=
  match l with
  | [] => []
  | v :: l' => (digits i, v) :: indexed (N.succ i) l'
  end.

(** The own enumerable properties a spread [...v] copies: the members of an
    object, the elements of an array and the code units of a string under
    their indices, nothing for the other values. *)
Definition own_properties (v : json) : object :=
  match v with
  | JObj o => o
  | JArr l => indexed 0 l
  | JStr s => indexed 0 (map (fun c => JStr [c]) s)
  | JNull | JBool _ | JNum _ => []
  end.

(** Writes the file; failures of the disk are not modelled, so the [catch]
    that only logs is never entered. *)
Definition saveConfig (config : Config) : M unit :=
  modify (set_configFile (Some (JSON_stringify_2 (JObj config)))).

Definition loadConfig : M Config :=
  file <- gets configFile ;;
  match file with
  | Some configData =>
      match JSON_parse configData with
      | Some config => ret (obj_spread defaultConfig (own_properties config))
      | None => ret defaultConfig
      end
  | None =>
      saveConfig defaultConfig ;;
      ret defaultConfig
  end.

(** [!!(config.aiApiKey && config.aiApiKey.trim().length > 0)]: the file
    may hold any value for the key, and a truthy one that is not a string
    has no [trim], so the call throws a TypeError. *)
Definition hasApiKey : M bool :=
  config <- loadConfig ;;
  match obj_get (js "aiApiKey") config with
  | Some (JStr aiApiKey) =>
      ret (nonempty aiApiKey && (0 <? List.length (trim aiApiKey))%nat)
  | Some v =>
      if truthy (Some v) then
        throw (new_Error (js "config.aiApiKey.trim is not a function"))
      else ret false
  | None => ret false
  end.

(** [/^sk-[a-zA-Z0-9]{32,}$/.test(apiKey.trim())] *)
Definition is_alnum (c : char) : bool := is_alpha c || is_digit c.

Definition isValidApiKeyFormat (apiKey : jsstring) : bool :=
  let key := trim apiKey in
  starts_with (js "sk-") key
  && forallb is_alnum (skipn 3 key)
  && (32 <=? List.length (skipn 3 key))%nat.

(** [config.language || "python"] *)
Definition getLanguage : M json :=
  config <- loadConfig ;;
  ret (match obj_get (js "language") config with
       | Some language =>
           if truthy (Some language) then language else JStr (js "python")
       | None => JStr (js "python")
       end).

Section Emitter.

(** The listeners of ['config-updated'], in registration order. *)
Variable listeners : list (Config -> M unit).

Fixpoint call_all (l : list (Config -> M unit)) (c : Config) : M unit :=
  match l with
  | [] => ret tt
  | f :: l' => f c ;; call_all l' c
  end.

Definition updateConfig (updates : object) : M Config :=
  try_catch
    (currentConfig <- loadConfig ;;
     let newConfig := obj_spread currentConfig updates in
     saveConfig newConfig ;;
     call_all listeners newConfig ;;
     ret newConfig)
    (fun _ => ret defaultConfig).

(** [config.opacity !== undefined ? config.opacity : 1.0] *)
Definition getOpacity : M json :=
  config <- loadConfig ;;
  ret (match obj_get (js "opacity") config with
       | Some v => v
       | None => JNum (Finite 1 0)
       end).

(** The value [setOpacity] hands on: [Math.min(1.0, Math.max(0.1, opacity))]. *)
Definition validOpacity (opacity : number) : number :=
  Math_min (Finite 1 0) (Math_max (Finite 1 (-1)) opacity).

Definition setOpacity (opacity : number) : M unit :=
  updateConfig [(js "opacity", JNum (validOpacity opacity))] ;;
  ret tt.

Definition setLanguage (language : jsstring) : M unit :=
  updateConfig [(js "language", JStr language)] ;;
  ret tt.

End Emitter.

End ConfigHelper.

(* ================================================================== *)
(** ** ProcessingHelper.ts *)
(* ================================================================== *)

Module ProcessingHelper.
Import JS Num Json World.
Local Open Scope js_scope.

(** What a helper returns: [{ success: true, data }] or
    [{ success: false, error }]. *)
Inductive Result (D : Type) : Type :=
| Success (data : D)
| Failure (error : jsstring).
Arguments Failure {D} error.

Definition success (D : Type) (r : Result D) : bool :=
  match r with Success _ => true | Failure _ => false end.

(** *** Reading the reply of an initial solve *)

Definition CODE : jsstring := js "---CODE---".
Definition THOUGHTS : jsstring := js "---THOUGHTS---".
Definition COMPLEXITY : jsstring := js "---COMPLEXITY---".

(** [code]: the first fenced block of the CODE section, or the whole
    section when it has no fence, trimmed; empty without a section. *)
Definition code_of (responseText : jsstring) : jsstring :=
  match match_section CODE responseText with
  | Some codeMatch1 =>
      match match_fence codeMatch1 with
      | Some innerCodeMatch1 => trim innerCodeMatch1
      | None => trim codeMatch1
      end
  | None => []
  end.

Definition tagged (tag : string) (v : json) : jsstring :=
  js tag ++ ToString v.

(** The entries an array-valued field adds; nothing when the field is
    missing or is not an array. *)
Definition each_tagged (tag : string) (field : option json) : list jsstring :=
  match field with
  | Some (JArr l) => map (tagged tag) l
  | _ => []
  end.

(** [thoughts], before the default is put in. *)
Definition thoughts_of (responseText : jsstring) : list jsstring :=
  match match_section THOUGHTS responseText with
  | Some thoughtsMatch1 =>
      let thoughtsContent := trim thoughtsMatch1 in
      match JSON_parse thoughtsContent with
      | Some JNull | None =>
          (* [JSON.parse] threw, or reading a property of [null] did *)
          [js "[SOLUTION APPROACHES] " ++ thoughtsContent]
      | Some thoughtsJson =>
          each_tagged "[QUESTIONS TO ASK] "
            (get (js "questions_to_ask") thoughtsJson)
          ++ each_tagged "[SOLUTION APPROACHES] "
               (get (js "solution_approaches") thoughtsJson)
          ++ (if truthy (get (js "walkthrough") thoughtsJson) then
                match get (js "walkthrough") thoughtsJson with
                | Some w => [tagged "[WALKTHROUGH] " w]
                | None => []
                end
              else [])
          ++ each_tagged "[EDGE CASES] "
               (get (js "edge_cases") thoughtsJson)
      end
  | None => []
  end.

(** [timeComplexity] and [spaceComplexity] read the same way. *)
Definition complexity_of (label : string) (default : string)
    (responseText : jsstring) : jsstring :=
  let found :=
    match match_section COMPLEXITY responseText with
    | Some complexityMatch1 =>
        match match_labelled_line (js label) complexityMatch1 with
        | Some m1 => trim m1
        | None => []
        end
    | None => []
    end in
  or_else found (js default).

Definition solutionData_of (responseText : jsstring) : SolutionData :=
  let thoughts := thoughts_of responseText in
  {| code := code_of responseText;
     thoughts :=
       if (0 <? List.length thoughts)%nat then thoughts
       else [js "Solution approach based on efficiency and readability"];
     time_complexity :=
       complexity_of "Time complexity" "O(n) - Linear time complexity"
         responseText;
     space_complexity :=
       complexity_of "Space complexity" "O(n) - Linear space complexity"
         responseText |}.

(** *** Reading the reply of a debug request *)

Definition is_blank (c : char) : bool := (c =? 32)%N.
Definition is_bullet (c : char) : bool :=
  ((c =? 45) || (c =? 42) || (c =? 8226))%N.

(** [cls+k] *)
Definition greedy_plus (A : Type) (cls : char -> bool)
    (k : jsstring -> option A) (s : jsstring) : option A :=
  match s with
  | c :: s' => if cls c then greedy_star cls k s' else None
  | [] => None
  end.

(** [(?:[-*\u2022]|\d+\.)k] *)
Definition bullet_mark (A : Type) (k : jsstring -> option A) (s : jsstring)
  : option A :=
  match
    match s with
    | c :: s' => if is_bullet c then k s' else None
    | [] => None
    end
  with
  | Some r => Some r
  | None =>
      greedy_plus is_digit
        (fun r =>
           match r with
           | 46%N :: r' => k r'
           | _ => None
           end) s
  end.

(** [s.replace(re, by)] for an expression [re] that is a list of literal
    alternatives under the [i] flag: the leftmost match, at each position
    the first alternative that fits. *)
Fixpoint replace_first_ci (alts : list jsstring) (by_ s : jsstring)
  : jsstring :=
  match find (fun a => starts_with_ci a s) alts with
  | Some a => by_ ++ skipn (List.length a) s
  | None =>
      match s with
      | [] => []
      | c :: s' => c :: replace_first_ci alts by_ s'
      end
  end.

(** The text after a match of [[ ]*(?:[-*\u2022]|\d+\.)[ ]+([^\n]+)]
    at the start of [s]. *)
Definition bullet_item (s : jsstring) : option jsstring :=
  greedy_star is_blank
    (bullet_mark
       (greedy_plus is_blank
          (greedy_plus not_LF (fun r => Some r)))) s.

(** The same behind [(?:^|\n)]; [at_start] tells whether [s] is the whole
    text. *)
Definition bullet_line (at_start : bool) (s : jsstring) : option jsstring :=
  match (if at_start then bullet_item s else None) with
  | Some r => Some r
  | None =>
      match s with
      | 10%N :: s' => bullet_item s'
      | _ => None
      end
  end.

(** [s.match(re)] with the [g] flag: every match, each search starting
    where the last match ended. *)
Fixpoint bullet_matches (fuel : nat) (at_start : bool) (s : jsstring)
  : list jsstring :=
  match fuel with
  | O => []
  | S fuel' =>
      match bullet_line at_start s with
      | Some r =>
          firstn (List.length s - List.length r) s
          :: bullet_matches fuel' false r
      | None =>
          match s with
          | [] => []
          | _ :: s' => bullet_matches fuel' false s'
          end
      end
  end.

(** [point.replace(/^[ ]*(?:[-*\u2022]|\d+\.)[ ]+/, '').trim()] *)
Definition strip_bullet (point : jsstring) : jsstring :=
  trim
    (match
       greedy_star is_blank
         (bullet_mark (greedy_plus is_blank (fun r => Some r))) point
     with
     | Some r => r
     | None => point
     end).

(** [formattedDebugContent]: headings are put in when the reply has
    none. *)
Definition formatted (debugContent : jsstring) : jsstring :=
  if negb (includes (js "# ") debugContent)
     && negb (includes (js "## ") debugContent)
  then
    replace_first_ci [js "explanation"; js "detailed analysis"]
      (js "## Explanation")
      (replace_first_ci [js "optimizations"; js "performance improvements"]
         (js "## Optimizations")
         (replace_first_ci
            [js "code improvements"; js "improvements";
             js "suggested changes"]
            (js "## Code Improvements")
            (replace_first_ci
               [js "issues identified"; js "problems found";
                js "bugs found"]
               (js "## Issues Identified") debugContent)))
  else debugContent.

(** [thoughts] of a debug reply: its first five bullet points, or the one
    default entry. *)
Definition bullet_thoughts (default : string)
    (formattedDebugContent : jsstring) : list jsstring :=
  match
    bullet_matches (S (List.length formattedDebugContent)) true
      formattedDebugContent
  with
  | [] => [js default]
  | bulletPoints => firstn 5 (map strip_bullet bulletPoints)
  end.

Definition debugData_of (debugContent : jsstring) : DebugData :=
  let extractedCode :=
    match match_debug_fence debugContent with
    | Some codeMatch1 =>
        if nonempty codeMatch1 then trim codeMatch1
        else js "// Debug mode - see analysis below"
    | None => js "// Debug mode - see analysis below"
    end in
  let formattedDebugContent := formatted debugContent in
  {| debug_code := extractedCode;
     debug_analysis := formattedDebugContent;
     debug_thoughts :=
       bullet_thoughts "Debug analysis based on your screenshots"
         formattedDebugContent;
     debug_time_complexity := js "N/A - Debug mode";
     debug_space_complexity := js "N/A - Debug mode" |}.

(** *** The methods *)

Definition is_some (A : Type) (o : option A) : bool :=
  match o with Some _ => true | None => false end.

Definition initializeAIClients : M unit :=
  config <- ConfigHelper.loadConfig ;;
  match obj_get (js "aiApiKey") config, obj_get (js "aiEndpoint") config with
  | Some key, Some endpoint =>
      if truthy (Some key) && truthy (Some endpoint) then
        modify (set_aiClient (Some {| apiKey := key; baseURL := endpoint |}))
      else modify (set_aiClient None)
  | _, _ => modify (set_aiClient None)
  end.

(** [if (!this.aiClient) { this.initializeAIClients(); ... }]: whether a
    client is there afterwards. *)
Definition ensure_client : M bool :=
  client <- gets aiClient ;;
  match client with
  | Some _ => ret true
  | None =>
      initializeAIClients ;;
      client' <- gets aiClient ;;
      ret (is_some client')
  end.

(** Polls [window.__IS_INITIALIZED__] fifty times; the page does not change
    while a call runs, so it returns at once or gives up. *)
Definition waitForInitialization (mainWindow : Window) : M unit :=
  if isDestroyed mainWindow then
    throw (new_Error (js "Object has been destroyed"))
  else if IS_INITIALIZED mainWindow then ret tt
  else throw (new_Error (js "App failed to initialize after 5 seconds")).

Definition getLanguage : M json :=
  config <- ConfigHelper.loadConfig ;;
  match obj_get (js "language") config with
  | Some language =>
      if truthy (Some language) then ret language
      else
        mainWindow <- gets mainWindow ;;
        match mainWindow with
        | Some w =>
            try_catch
              (waitForInitialization w ;;
               match LANGUAGE w with
               | Some language => ret (JStr language)
               | None => ret (JStr (js "python"))
               end)
              (fun _ => ret (JStr (js "python")))
        | None => ret (JStr (js "python"))
        end
  | None => ret (JStr (js "python"))
  end.

(** [config.aiModel || "gpt-4o"] *)
Definition model_of (config : ConfigHelper.Config) : json :=
  match obj_get (js "aiModel") config with
  | Some m => if truthy (Some m) then m else JStr (js "gpt-4o")
  | None => JStr (js "gpt-4o")
  end.

Definition image_url (data : jsstring) : jsstring :=
  js "data:image/png;base64," ++ data.

(** [await this.aiClient.chat.completions.create(...)] and
    [response.choices[0].message.content || ""]: the call goes out, and the
    completion decides how it ends. *)
Definition create (r : Request) (completion : ApiOutcome) : M jsstring :=
  modify (emit (ApiCall r)) ;;
  match completion with
  | Replied (Some content) => ret content
  | Replied None => ret []
  | Failed e => throw e
  end.

(** Modelled from the spec: [ScreenshotHelper.clearExtraScreenshotQueue]
    is not among the sources; the spec has it remove all entries of the
    queue and their backing files. *)
Fixpoint delete_file (path : jsstring)
    (fs : list (jsstring * option jsstring))
  : list (jsstring * option jsstring) :=
  match fs with
  | [] => []
  | (p, d) :: fs' =>
      if JS.eqb path p then delete_file path fs'
      else (p, d) :: delete_file path fs'
  end.

Definition unlink (path : jsstring) (s : State) : State :=
  emit (Unlink path) (set_files (delete_file path (files s)) s).

Definition clearExtraScreenshotQueue : M unit :=
  modify (fun s =>
            set_extraScreenshotQueue []
              (fold_left (fun s' path => unlink path s')
                 (extraScreenshotQueue s) s)).

Definition when_window (mainWindow : option Window) (e : Event) : M unit :=
  match mainWindow with
  | Some w => send w e
  | None => ret tt
  end.

(** The [catch] of [processScreenshotsHelper]. *)
Definition solve_error (error : Error) : jsstring :=
  if isCancel error then js "Processing was canceled by the user."
  else
    match response_status error with
    | Some 401%Z => js "Invalid API key. Please check your settings."
    | Some 429%Z =>
        js "API rate limit exceeded or insufficient credits. Please try again later."
    | Some 500%Z => js "Server error. Please try again later."
    | _ =>
        or_else (message error)
          (js "Failed to process screenshots. Please try again.")
    end.

Definition processScreenshotsHelper
    (screenshots : list (jsstring * jsstring)) (completion : ApiOutcome)
  : M (Result SolutionData) :=
  try_catch
    (config <- ConfigHelper.loadConfig ;;
     language <- getLanguage ;;
     mainWindow <- gets mainWindow ;;
     let imageDataList := map snd screenshots in
     when_window mainWindow
       (processing_status
          (js "Analyzing screenshots and generating solution...") 20) ;;
     ready <- ensure_client ;;
     if negb ready then
       ret (Failure
              (js "AI API key not configured or invalid. Please check your settings."))
     else
       responseText <-
         create {| model := model_of config; mode := InitialSolve;
                   language := ToString language;
                   image_urls := map image_url imageDataList |}
                completion ;;
       let solutionData := solutionData_of responseText in
       modify (setProblemInfo None) ;;
       match mainWindow with
       | Some w =>
           send w (processing_status (js "Solution generated successfully")
                     100) ;;
           clearExtraScreenshotQueue ;;
           send w (SOLUTION_SUCCESS solutionData) ;;
           ret (Success solutionData)
       | None => ret (Failure (js "Failed to process screenshots"))
       end)
    (fun error => ret (Failure (solve_error error))).

Definition processExtraScreenshotsHelper
    (screenshots : list (jsstring * jsstring)) (completion : ApiOutcome)
  : M (Result DebugData) :=
  try_catch
    (problemInfo <- gets problemInfo ;;
     language <- getLanguage ;;
     config <- ConfigHelper.loadConfig ;;
     mainWindow <- gets mainWindow ;;
     match problemInfo with
     | None => throw (new_Error (js "No problem info available"))
     | Some info =>
         when_window mainWindow
           (processing_status (js "Processing debug screenshots...") 30) ;;
         let imageDataList := map snd screenshots in
         ready <- ensure_client ;;
         if negb ready then
           ret (Failure
                  (js "AI API key not configured. Please check your settings."))
         else
           when_window mainWindow
             (processing_status
                (js "Analyzing code and generating debug feedback...") 60) ;;
           debugContent <-
             create {| model := model_of config; mode := Debug info;
                       language := ToString language;
                       image_urls := map image_url imageDataList |}
                    completion ;;
           when_window mainWindow
             (processing_status (js "Debug analysis complete") 100) ;;
           ret (Success (debugData_of debugContent))
     end)
    (fun error =>
       ret (Failure (or_else (message error)
                       (js "Failed to process debug request")))).

(** The screenshots that could be read, each with its data. *)
Definition load_screenshots (s : State) (paths : list jsstring)
  : list (jsstring * jsstring) :=
  flat_map (fun path =>
              match readScreenshot s path with
              | Some data => [(path, data)]
              | None => []
              end) paths.

Definition is_nil (A : Type) (l : list A) : bool :=
  match l with [] => true | _ :: _ => false end.

Definition processScreenshots (completion : ApiOutcome) : M unit :=
  mainWindow <- gets mainWindow ;;
  match mainWindow with
  | None => ret tt
  | Some mainWindow =>
      config <- ConfigHelper.loadConfig ;;
      client <- gets aiClient ;;
      ready <-
        (if negb (truthy (obj_get (js "aiApiKey") config))
            || negb (is_some client)
         then
           initializeAIClients ;;
           client' <- gets aiClient ;;
           ret (is_some client')
         else ret true) ;;
      if negb ready then send mainWindow API_KEY_INVALID
      else
        view <- gets view ;;
        match view with
        | queue =>
            send mainWindow INITIAL_START ;;
            screenshotQueue <- gets screenshotQueue ;;
            if is_nil screenshotQueue then send mainWindow NO_SCREENSHOTS
            else
              existingScreenshots <-
                gets (fun s => filter (existsSync s) screenshotQueue) ;;
              if is_nil existingScreenshots then
                send mainWindow NO_SCREENSHOTS
              else
                finally
                  (try_catch
                     (modify (set_currentProcessingAbortController
                                (Some new_AbortController)) ;;
                      validScreenshots <-
                        gets (fun s => load_screenshots s existingScreenshots) ;;
                      if is_nil validScreenshots then
                        throw (new_Error (js "Failed to load screenshot data"))
                      else
                        result <-
                          processScreenshotsHelper validScreenshots
                            completion ;;
                        match result with
                        | Failure error =>
                            (if includes (js "API Key") error
                                || includes (js "OpenAI") error
                             then send mainWindow API_KEY_INVALID
                             else
                               send mainWindow
                                 (INITIAL_SOLUTION_ERROR (Text error))) ;;
                            modify (setView queue)
                        | Success data =>
                            send mainWindow (SOLUTION_SUCCESS data) ;;
                            modify (setView solutions)
                        end)
                     (fun error =>
                        send mainWindow
                          (INITIAL_SOLUTION_ERROR (Thrown error)) ;;
                        (if isCancel error then
                           send mainWindow
                             (INITIAL_SOLUTION_ERROR
                                (Text (js "Processing was canceled by the user.")))
                         else
                           send mainWindow
                             (INITIAL_SOLUTION_ERROR
                                (Text (or_else (message error)
                                         (js "Server error. Please try again."))))) ;;
                        modify (setView queue)))
                  (set_currentProcessingAbortController None)
        | solutions =>
            extraScreenshotQueue <- gets extraScreenshotQueue ;;
            if is_nil extraScreenshotQueue then send mainWindow NO_SCREENSHOTS
            else
              existingExtraScreenshots <-
                gets (fun s => filter (existsSync s) extraScreenshotQueue) ;;
              if is_nil existingExtraScreenshots then
                send mainWindow NO_SCREENSHOTS
              else
                send mainWindow DEBUG_START ;;
                modify (set_currentExtraProcessingAbortController
                          (Some new_AbortController)) ;;
                finally
                  (try_catch
                     (screenshotQueue <- gets screenshotQueue ;;
                      let allPaths :=
                        screenshotQueue ++ existingExtraScreenshots in
                      validScreenshots <-
                        gets (fun s => load_screenshots s allPaths) ;;
                      if is_nil validScreenshots then
                        throw (new_Error
                                 (js "Failed to load screenshot data for debugging"))
                      else
                        result <-
                          processExtraScreenshotsHelper validScreenshots
                            completion ;;
                        match result with
                        | Success data =>
                            modify (setHasDebugged true) ;;
                            send mainWindow (DEBUG_SUCCESS data)
                        | Failure error =>
                            send mainWindow (DEBUG_ERROR error)
                        end)
                     (fun error =>
                        if isCancel error then
                          send mainWindow
                            (DEBUG_ERROR
                               (js "Extra processing was canceled by the user."))
                        else send mainWindow (DEBUG_ERROR (message error))))
                  (set_currentExtraProcessingAbortController None)
        end
  end.

Definition cancelOngoingRequests : M unit :=
  processing <- gets currentProcessingAbortController ;;
  wasCancelled1 <-
    match processing with
    | Some _ =>
        modify (emit (Abort ProcessingController)) ;;
        modify (set_currentProcessingAbortController None) ;;
        ret true
    | None => ret false
    end ;;
  extra <- gets currentExtraProcessingAbortController ;;
  wasCancelled <-
    match extra with
    | Some _ =>
        modify (emit (Abort ExtraProcessingController)) ;;
        modify (set_currentExtraProcessingAbortController None) ;;
        ret true
    | None => ret wasCancelled1
    end ;;
  modify (setHasDebugged false) ;;
  modify (setProblemInfo None) ;;
  mainWindow <- gets mainWindow ;;
  match mainWindow with
  | Some w =>
      if wasCancelled && negb (isDestroyed w) then send w NO_SCREENSHOTS
      else ret tt
  | None => ret tt
  end.

End ProcessingHelper.

(* ================================================================== *)
(** ** ProcessingHelper.ts, the revision with follow-up context *)
(* ================================================================== *)

(** The later revision of the class keeps the problem and the code of every
    solution in [debugState.json] and replays them as context.  The file is
    written by these methods only and is modelled by the entries it holds.
    [processScreenshots] of this revision differs from the one above only
    in sending every failure as [INITIAL_SOLUTION_ERROR]; it and
    [processFollowUp] call the two helpers below. *)

Module FollowUp.
Import JS Num Json World.
Local Open Scope js_scope.

Definition Result := ProcessingHelper.Result.

(** The record a debug or follow-up request returns. *)
Record Response : Type := {
  code : jsstring;
  debug_analysis : jsstring;
  thoughts : list jsstring;
  time_complexity : jsstring;
  space_complexity : jsstring;
  isFollowUp : bool
}.

Definition is_colon_or_space (c : char) : bool :=
  (c =? COLON)%N || is_space c.

(** [/problem[:\s]+([^\n]{20,500})/i]; [None] is [null]. *)
Definition extractProblemStatement (responseText : jsstring)
  : option jsstring :=
  match
    search
      (lit_ci (js "problem")
         (ProcessingHelper.greedy_plus is_colon_or_space
            (fun r =>
               let line := take_while not_LF r in
               if (20 <=? List.length line)%nat then Some (firstn 500 line)
               else None)))
      responseText
  with
  | Some problemMatch1 => Some (trim problemMatch1)
  | None => None
  end.

(** The entries become the new one alone. *)
Definition saveDebugState (entry : DebugStateEntry) : M unit :=
  modify (set_debugState (Some [entry])).

Definition appendDebugState (entry : DebugStateEntry) : M unit :=
  modify (fun s =>
            set_debugState
              (Some (match debugState s with
                     | Some entries => entries ++ [entry]
                     | None => [entry]
                     end)) s).

Definition loadDebugState : M (option (list DebugStateEntry)) :=
  gets debugState.

Definition clearDebugState : M unit := modify (set_debugState None).

Definition hasPreviousSolution : M bool :=
  existingState <- loadDebugState ;;
  ret (match existingState with
       | Some (_ :: _) => true
       | _ => false
       end).

(** [thoughts] of an initial solve; this revision asks for no edge
    cases. *)
Definition thoughts_of (responseText : jsstring) : list jsstring :=
  match match_section ProcessingHelper.THOUGHTS responseText with
  | Some thoughtsMatch1 =>
      let thoughtsContent := trim thoughtsMatch1 in
      match JSON_parse thoughtsContent with
      | Some JNull | None =>
          [js "[SOLUTION APPROACHES] " ++ thoughtsContent]
      | Some thoughtsJson =>
          ProcessingHelper.each_tagged "[QUESTIONS TO ASK] "
            (get (js "questions_to_ask") thoughtsJson)
          ++ ProcessingHelper.each_tagged "[SOLUTION APPROACHES] "
               (get (js "solution_approaches") thoughtsJson)
          ++ (if truthy (get (js "walkthrough") thoughtsJson) then
                match get (js "walkthrough") thoughtsJson with
                | Some w => [ProcessingHelper.tagged "[WALKTHROUGH] " w]
                | None => []
                end
              else [])
      end
  | None => []
  end.

Definition solutionData_of (responseText : jsstring) : SolutionData :=
  let thoughts := thoughts_of responseText in
  {| World.code := ProcessingHelper.code_of responseText;
     World.thoughts :=
       if (0 <? List.length thoughts)%nat then thoughts
       else [js "Solution approach based on efficiency and readability"];
     World.time_complexity :=
       ProcessingHelper.complexity_of "Time complexity"
         "O(n) - Linear time complexity" responseText;
     World.space_complexity :=
       ProcessingHelper.complexity_of "Space complexity"
         "O(n) - Linear space complexity" responseText |}.

(** [now] is what [Date.now()] gives. *)
Definition processScreenshotsHelper (now : Z)
    (screenshots : list (jsstring * jsstring)) (completion : ApiOutcome)
  : M (Result SolutionData) :=
  try_catch
    (config <- ConfigHelper.loadConfig ;;
     language <- ProcessingHelper.getLanguage ;;
     mainWindow <- gets mainWindow ;;
     let imageDataList := map snd screenshots in
     ready <- ProcessingHelper.ensure_client ;;
     if negb ready then
       ret (ProcessingHelper.Failure
              (js "AI API key not configured or invalid. Please check your settings."))
     else
       responseText <-
         ProcessingHelper.create
           {| model := ProcessingHelper.model_of config;
              mode := InitialSolve;
              language := ToString language;
              image_urls := map ProcessingHelper.image_url imageDataList |}
           completion ;;
       let solutionData := solutionData_of responseText in
       let extractedProblemInfo :=
         {| problem_statement :=
              or_else
                (match extractProblemStatement responseText with
                 | Some statement => statement
                 | None => []
                 end)
                (js "Problem statement not available");
            constraints := None; example_input := None;
            example_output := None; solution_stub := None;
            notes := None |} in
       saveDebugState
         {| entry_problemInfo := extractedProblemInfo;
            entry_code := World.code solutionData;
            timestamp := now |} ;;
       modify (setProblemInfo (Some extractedProblemInfo)) ;;
       ProcessingHelper.clearExtraScreenshotQueue ;;
       ProcessingHelper.when_window mainWindow
         (SOLUTION_SUCCESS solutionData) ;;
       ret (ProcessingHelper.Success solutionData))
    (fun error =>
       ret (ProcessingHelper.Failure (ProcessingHelper.solve_error error))).

Definition statement_of (info : ProblemInfo) : jsstring :=
  or_else (problem_statement info) (js "Problem statement not available").

Definition fenced (language code : jsstring) : jsstring :=
  FENCE ++ language ++ [LF] ++ code ++ [LF] ++ FENCE ++ [LF].

Fixpoint previous_entries (language : jsstring) (index : N)
    (entries : list DebugStateEntry) : list jsstring :=
  match entries with
  | [] => []
  | entry :: entries' =>
      ([LF] ++ js "### PREVIOUS PROBLEM INFO " ++ digits (index + 1) ++ [LF]
       ++ statement_of (entry_problemInfo entry) ++ [LF; LF]
       ++ js "### PREVIOUS CODE " ++ digits (index + 1) ++ [LF]
       ++ fenced language (entry_code entry))
      :: previous_entries language (index + 1) entries'
  end.

(** The context put into the prompt. *)
Definition contextSections_of (isFollowUp : bool) (language : jsstring)
    (debugState : option (list DebugStateEntry)) (problemInfo : ProblemInfo)
  : jsstring :=
  match debugState with
  | Some (first :: rest) =>
      if isFollowUp then
        join [LF] (previous_entries language 0 (first :: rest))
      else
        let latestEntry := last rest first in
        [LF] ++ js "### PREVIOUS SOLUTION" ++ [LF]
        ++ fenced language (entry_code latestEntry) ++ [LF]
        ++ js "### PROBLEM INFO" ++ [LF]
        ++ statement_of (entry_problemInfo latestEntry) ++ [LF]
  | _ =>
      [LF] ++ js "### PROBLEM INFO" ++ [LF] ++ statement_of problemInfo
      ++ [LF]
  end.

(** [([\s\S]*?)d], with the text after the match. *)
Fixpoint lazy_until_rest (d s : jsstring) : option (jsstring * jsstring) :=
  if starts_with d s then Some ([], skipn (List.length d) s)
  else
    match s with
    | [] => None
    | c :: s' =>
        match lazy_until_rest d s' with
        | Some (m, r) => Some (c :: m, r)
        | None => None
        end
    end.

(** [debugContent.match(/```(?:[a-zA-Z]+)?[\s\S]*?```/g)]: every block, each
    search starting where the last block ended. *)
Fixpoint code_blocks (fuel : nat) (s : jsstring) : list jsstring :=
  match fuel with
  | O => []
  | S fuel' =>
      match lit FENCE (opt_plus is_alpha (lazy_until_rest FENCE)) s with
      | Some (_, r) =>
          firstn (List.length s - List.length r) s :: code_blocks fuel' r
      | None =>
          match s with
          | [] => []
          | _ :: s' => code_blocks fuel' s'
          end
      end
  end.

(** [extractedCode]: the content of the last block. *)
Definition extractedCode_of (isFollowUp : bool) (debugContent : jsstring)
  : jsstring :=
  let initial :=
    if isFollowUp then [] else js "// Debug mode - see analysis below" in
  match match_debug_fence debugContent with
  | Some codeMatch1 =>
      if nonempty codeMatch1 then
        match code_blocks (S (List.length debugContent)) debugContent with
        | [] => trim codeMatch1
        | first :: rest =>
            let lastBlock := last rest first in
            match match_debug_fence lastBlock with
            | Some lastCodeMatch1 => trim lastCodeMatch1
            | None => initial
            end
        end
      else initial
  | None => initial
  end.

Definition processExtraScreenshotsHelper (now : Z)
    (screenshots : list (jsstring * jsstring)) (completion : ApiOutcome)
    (isFollowUp : bool) : M (Result Response) :=
  try_catch
    (debugState <- loadDebugState ;;
     language <- ProcessingHelper.getLanguage ;;
     config <- ConfigHelper.loadConfig ;;
     fromDeps <- gets problemInfo ;;
     let problemInfo :=
       match debugState with
       | Some (first :: rest) => Some (entry_problemInfo (last rest first))
       | _ => fromDeps
       end in
     match problemInfo with
     | None =>
         throw (new_Error
                  (js "No problem info available. Please process the initial problem first."))
     | Some problemInfo =>
         let imageDataList := map snd screenshots in
         ready <- ProcessingHelper.ensure_client ;;
         if negb ready then
           ret (ProcessingHelper.Failure
                  (js "AI API key not configured. Please check your settings."))
         else
           let contextSections :=
             contextSections_of isFollowUp (ToString language) debugState
               problemInfo in
           debugContent <-
             ProcessingHelper.create
               {| model := ProcessingHelper.model_of config;
                  mode := DebugInContext isFollowUp contextSections;
                  language := ToString language;
                  image_urls :=
                    map ProcessingHelper.image_url imageDataList |}
               completion ;;
           let extractedCode := extractedCode_of isFollowUp debugContent in
           let formattedDebugContent :=
             ProcessingHelper.formatted debugContent in
           let thoughts :=
             ProcessingHelper.bullet_thoughts
               (if isFollowUp
                then "Follow-up analysis based on your screenshots"
                else "Debug analysis based on your screenshots")
               formattedDebugContent in
           when (isFollowUp && nonempty extractedCode)
             (appendDebugState
                {| entry_problemInfo := problemInfo;
                   entry_code := extractedCode;
                   timestamp := now |}) ;;
           ret (ProcessingHelper.Success
                  {| code :=
                       or_else extractedCode
                         (js "// No code changes needed - see analysis below");
                     debug_analysis := formattedDebugContent;
                     thoughts := thoughts;
                     time_complexity :=
                       if isFollowUp then js "See updated solution"
                       else js "N/A - Debug mode";
                     space_complexity :=
                       if isFollowUp then js "See updated solution"
                       else js "N/A - Debug mode";
                     isFollowUp := isFollowUp |})
     end)
    (fun error =>
       ret (ProcessingHelper.Failure
              (or_else (message error)
                 (js "Failed to process debug request")))).

Definition cancelOngoingRequests : M unit :=
  processing <- gets currentProcessingAbortController ;;
  wasCancelled1 <-
    match processing with
    | Some _ =>
        modify (emit (Abort ProcessingController)) ;;
        modify (set_currentProcessingAbortController None) ;;
        ret true
    | None => ret false
    end ;;
  extra <- gets currentExtraProcessingAbortController ;;
  wasCancelled <-
    match extra with
    | Some _ =>
        modify (emit (Abort ExtraProcessingController)) ;;
        modify (set_currentExtraProcessingAbortController None) ;;
        ret true
    | None => ret wasCancelled1
    end ;;
  modify (setHasDebugged false) ;;
  modify (setProblemInfo None) ;;
  clearDebugState ;;
  mainWindow <- gets mainWindow ;;
  match mainWindow with
  | Some w =>
      if wasCancelled && negb (World.isDestroyed w) then send w NO_SCREENSHOTS
      else ret tt
  | None => ret tt
  end.

End FollowUp.

(* ================================================================== *)
(** ** The renderer: LocalPages.tsx and SettingsDialog.tsx *)
(* ================================================================== *)

Module LocalPages.
Import JS.

Inductive Direction : Type := prev | next.

(** The two updates of [currentPageIndex], from the keyboard and from the
    buttons alike: [Math.max(0, prev - 1)] and
    [Math.min(pages.length - 1, prev + 1)], for [length] pages. *)
Definition navigate (length : Z) (direction : Direction)
    (currentPageIndex : Z) : Z :=
  match direction with
  | prev => Z.max 0 (currentPageIndex - 1)
  | next => Z.min (length - 1) (currentPageIndex + 1)
  end.

(** [l.toUpperCase()] of one character of [\w]. *)
Definition toUpperCase (c : char) : char :=
  if is_lower c then (c - 32)%N else c.

(** [.replace(/\b\w/g, l => l.toUpperCase())]: a word character is at a
    boundary when no word character stands before it. *)
Fixpoint capitalize (boundary : bool) (s : jsstring) : jsstring :=
  match s with
  | [] => []
  | c :: s' =>
      (if boundary && is_word c then toUpperCase c else c)
      :: capitalize (negb (is_word c)) s'
  end.

Definition HYPHEN : char := 45%N.
Definition SPACE : char := 32%N.

(** [name.replace(/-/g, " ").replace(/\b\w/g, l => l.toUpperCase())] *)
Definition title (name : jsstring) : jsstring :=
  capitalize true (map (fun c => if (c =? HYPHEN)%N then SPACE else c) name).

End LocalPages.

Module SettingsDialog.
Import JS.

(** [if (!key || key.length < 10) return ""] and then the first and the
    last four characters around three dots. *)
Definition maskApiKey (key : jsstring) : jsstring :=
  if negb (nonempty key) || (List.length key <? 10)%nat then []
  else firstn 4 key ++ js "..." ++ skipn (List.length key - 4) key.

End SettingsDialog.

(* ================================================================== *)
(** ** Vocabulary of the properties *)
(* ================================================================== *)

Module Shape.
Import JS.

(** [d] does not begin inside [s], whatever follows [s]'s copy of [d]. *)
Definition free (d s : jsstring) : bool :=
  negb (includes d (s ++ removelast d)).

(** [s] does not start with a character of the class. *)
Definition head_not (cls : char -> bool) (s : jsstring) : Prop :=
  match s with
  | [] => True
  | c :: _ => cls c = false
  end.

End Shape.

Module Meaning.
Import JS Num Json World.

(** The configuration a given content of [config.json] stands for. *)
Definition config_of (file : option jsstring) : ConfigHelper.Config :=
  match file with
  | Some configData =>
      match JSON_parse configData with
      | Some config =>
          obj_spread ConfigHelper.defaultConfig
            (ConfigHelper.own_properties config)
      | None => ConfigHelper.defaultConfig
      end
  | None => ConfigHelper.defaultConfig
  end.

(** The state once [config.json] has been looked for: a missing file has
    been written with the defaults. *)
Definition settled (s : State) : State :=
  match configFile s with
  | Some _ => s
  | None =>
      set_configFile
        (Some (JSON_stringify_2 (JObj ConfigHelper.defaultConfig))) s
  end.

(** The client a configuration gives. *)
Definition client_of (config : ConfigHelper.Config) : option Client :=
  match obj_get (js "aiApiKey") config, obj_get (js "aiEndpoint") config with
  | Some key, Some endpoint =>
      if truthy (Some key) && truthy (Some endpoint)
      then Some {| apiKey := key; baseURL := endpoint |}
      else None
  | _, _ => None
  end.

(** The API key is absent: the loaded configuration has none, or an empty
    one. *)
Definition key_absent (s : State) : Prop :=
  truthy (obj_get (js "aiApiKey") (config_of (configFile s))) = false.

(** The language [getLanguage] answers in a state. *)
Definition language_of (s : State) : json :=
  match obj_get (js "language") (config_of (configFile s)) with
  | Some language =>
      if truthy (Some language) then language
      else
        match mainWindow s with
        | Some w =>
            if negb (isDestroyed w) && IS_INITIALIZED w then
              match LANGUAGE w with
              | Some language => JStr language
              | None => JStr (js "python")
              end
            else JStr (js "python")
        | None => JStr (js "python")
        end
  | None => JStr (js "python")
  end.

(** The state [clearExtraScreenshotQueue] leaves. *)
Definition cleared (s : State) : State :=
  set_extraScreenshotQueue []
    (set_files
       (fold_left (fun fs path => ProcessingHelper.delete_file path fs)
          (extraScreenshotQueue s) (files s))
       (set_trace (trace s ++ map Unlink (extraScreenshotQueue s)) s)).

(** The request an initial solve sends from a state. *)
Definition solve_request (shots : list (jsstring * jsstring)) (s : State)
  : Request :=
  {| model := ProcessingHelper.model_of (config_of (configFile s));
     mode := InitialSolve;
     language := ToString (language_of s);
     image_urls :=
       map ProcessingHelper.image_url (map snd shots) |}.

(** The configuration has an API key and an endpoint. *)
Definition configured (s : State) : Prop :=
  client_of (config_of (configFile s)) <> None.

(** A request is in flight. *)
Definition in_flight (s : State) : bool :=
  ProcessingHelper.is_some (currentProcessingAbortController s)
  || ProcessingHelper.is_some (currentExtraProcessingAbortController s).

(** The queue [processScreenshots] works on in the current view. *)
Definition active_queue (s : State) : list jsstring :=
  match view s with
  | queue => screenshotQueue s
  | solutions => extraScreenshotQueue s
  end.

(** The [abort()] calls a cancellation makes. *)
Definition aborts (s : State) : list Effect :=
  (if ProcessingHelper.is_some (currentProcessingAbortController s)
   then [Abort ProcessingController] else [])
  ++ (if ProcessingHelper.is_some (currentExtraProcessingAbortController s)
      then [Abort ExtraProcessingController] else []).

(** [response.choices[0].message.content || ""] *)
Definition reply_text (content : option jsstring) : jsstring :=
  match content with Some c => c | None => [] end.

(** The message of a failure that has no tag of its own. *)
Definition fallback (e : Error) : jsstring :=
  or_else (message e) (js "Failed to process screenshots. Please try again.").

(** The record a run of the solve helper returned, if it reported
    success. *)
Definition returned
    (r : Completion (ProcessingHelper.Result SolutionData))
  : option SolutionData :=
  match r with
  | Normal (ProcessingHelper.Success data) => Some data
  | _ => None
  end.

(** The bounds of the opacity, [0.1] and [1.0]. *)
Definition opacity_min : number := Finite 1 (-1).
Definition opacity_max : number := Finite 1 0.

(** The requests among the effects of a trace. *)
Definition network_calls (t : list Effect) : list Request :=
  flat_map (fun e => match e with ApiCall r => [r] | _ => [] end) t.

(** The screenshots of a queue that exist and can be read, each with its
    data. *)
Definition readable (s : State) (q : list jsstring)
  : list (jsstring * jsstring) :=
  ProcessingHelper.load_screenshots s (filter (existsSync s) q).

(** A [processing-status] message to the window. *)
Definition status (message : string) (progress : N) : Effect :=
  Send (processing_status (js message) progress).

(** The event that passes a failure of the solve helper on. *)
Definition failure_event (error : jsstring) : Event :=
  if includes (js "API Key") error || includes (js "OpenAI") error
  then API_KEY_INVALID
  else INITIAL_SOLUTION_ERROR (Text error).

(** The screenshots a debug run reads: the main queue, then the extra
    screenshots that exist. *)
Definition debug_shots (s : State) : list (jsstring * jsstring) :=
  ProcessingHelper.load_screenshots s
    (screenshotQueue s ++ filter (existsSync s) (extraScreenshotQueue s)).

(** The request a debug run sends from a state. *)
Definition debug_request (info : ProblemInfo) (s : State) : Request :=
  {| model := ProcessingHelper.model_of (config_of (configFile s));
     mode := Debug info;
     language := ToString (language_of s);
     image_urls :=
       map ProcessingHelper.image_url (map snd (debug_shots s)) |}.

(** The statement a solve of the follow-up revision stores:
    [extractProblemStatement(responseText) || "Problem statement not
    available"]. *)
Definition stored_statement (responseText : jsstring) : jsstring :=
  or_else
    (match FollowUp.extractProblemStatement responseText with
     | Some statement => statement
     | None => []
     end)
    (js "Problem statement not available").

(** What a helper may do to the controllers and the network: it leaves
    the window and both controllers alone and sends at most one request,
    which carries an image. *)
Definition quiet (s s' : State) : Prop :=
  currentProcessingAbortController s' = currentProcessingAbortController s
  /\ currentExtraProcessingAbortController s'
     = currentExtraProcessingAbortController s
  /\ mainWindow s' = mainWindow s
  /\ exists l,
       network_calls (trace s') = network_calls (trace s) ++ l
       /\ (List.length l <= 1)%nat
       /\ Forall (fun r => image_urls r <> []) l.

(** What a whole run may do to them: a controller is cleared or left as it
    was, and at most one request goes out, which carries an image. *)
Definition contained (s s' : State) : Prop :=
  (currentProcessingAbortController s' = None
   \/ currentProcessingAbortController s'
      = currentProcessingAbortController s)
  /\ (currentExtraProcessingAbortController s' = None
      \/ currentExtraProcessingAbortController s'
         = currentExtraProcessingAbortController s)
  /\ exists l,
       network_calls (trace s') = network_calls (trace s) ++ l
       /\ (List.length l <= 1)%nat
       /\ Forall (fun r => image_urls r <> []) l.

End Meaning.

(** Replies written the way the prompt asks for. *)
Module Reply.
Import JS Num Json World Shape ProcessingHelper.

(** [text] has a CODE section that holds a fenced block with content
    [body]: an opening fence, a language tag of word characters, white
    space, the content, a closing fence. *)
Definition fenced_code (text body : jsstring) : Prop :=
  exists before head lang sp tail after,
    text = before ++ CODE ++ head ++ FENCE ++ lang ++ sp ++ body ++ FENCE
           ++ tail ++ CODE ++ after
    /\ free CODE before = true
    /\ free CODE (head ++ FENCE ++ lang ++ sp ++ body ++ FENCE ++ tail) = true
    /\ free FENCE head = true
    /\ forallb is_word lang = true
    /\ sp <> [] /\ forallb is_space sp = true
    /\ free FENCE body = true.

(** [text] has a THOUGHTS section that is the JSON text of an object whose
    four fields are the arrays of strings [q], [a], [wk] and [e]. *)
Definition json_thoughts (text : jsstring) (q a wk e : list jsstring) : Prop :=
  exists before block after o,
    text = before ++ THOUGHTS ++ block ++ THOUGHTS ++ after
    /\ free THOUGHTS before = true
    /\ free THOUGHTS block = true
    /\ JSON_parse (trim block) = Some (JObj o)
    /\ obj_get (js "questions_to_ask") o = Some (JArr (map JStr q))
    /\ obj_get (js "solution_approaches") o = Some (JArr (map JStr a))
    /\ obj_get (js "walkthrough") o = Some (JArr (map JStr wk))
    /\ obj_get (js "edge_cases") o = Some (JArr (map JStr e)).

(** The entries of [thoughts] for four such arrays: every question, every
    approach and every edge case under its tag, the walkthrough as one
    entry with its steps joined by commas. *)
Definition tagged_thoughts (q a wk e : list jsstring) : list jsstring :=
  map (app (js "[QUESTIONS TO ASK] ")) q
  ++ map (app (js "[SOLUTION APPROACHES] ")) a
  ++ [js "[WALKTHROUGH] " ++ join [COMMA] wk]
  ++ map (app (js "[EDGE CASES] ")) e.

End Reply.

(** Concrete states and replies, for the examples. *)
Module Sample.
Import JS Num Json World.

(** A text with double quotes, written with apostrophes in their place. *)
Definition dq (s : string) : jsstring :=
  map (fun c => if (c =? 39)%N then 34%N else c) (js s).

Definition window : Window :=
  {| isDestroyed := false; IS_INITIALIZED := true; LANGUAGE := None |}.

Definition closed_window : Window :=
  {| isDestroyed := true; IS_INITIALIZED := true; LANGUAGE := None |}.

(** A fresh installation: no configuration file, nothing captured. *)
Definition fresh : State :=
  {| configFile := None; debugState := None; files := [];
             aiClient := None;
     currentProcessingAbortController := None;
     currentExtraProcessingAbortController := None;
     mainWindow := Some window; view := queue; problemInfo := None;
     hasDebugged := false; screenshotQueue := [];
     extraScreenshotQueue := []; trace := [] |}.

(** A configured installation with one screenshot in each queue. *)
Definition ready : State :=
  set_extraScreenshotQueue [js "extra.png"]
    (set_files [(js "shot.png", Some (js "QUJD"));
                (js "extra.png", Some (js "REVG"))]
       (set_aiClient
          (Some {| apiKey := JStr (js "sk-test");
                   baseURL := JStr (js "https://api.openai.com/v1") |})
          (set_configFile (Some (dq "{ 'aiApiKey': 'sk-test' }"))
             {| configFile := None; debugState := None; files := [];
             aiClient := None;
                currentProcessingAbortController := None;
                currentExtraProcessingAbortController := None;
                mainWindow := Some window; view := queue;
                problemInfo := None; hasDebugged := false;
                screenshotQueue := [js "shot.png"];
                extraScreenshotQueue := []; trace := [] |}))).

Definition shots : list (jsstring * jsstring) := [(js "shot.png", js "QUJD")].

(** A reply in the format of the prompt; the first line of its code is
    indented. *)
Definition body : jsstring :=
  js "    def f(x):" ++ [LF] ++ js "        return x" ++ [LF].

Definition thoughts_block : jsstring :=
  [LF]
  ++ dq "{ 'questions_to_ask': ['q1'], 'solution_approaches': ['a1'],"
  ++ dq "  'walkthrough': ['s1', 's2'], 'edge_cases': ['e1'] }"
  ++ [LF].

Definition reply : jsstring :=
  ProcessingHelper.CODE ++ [LF] ++ FENCE ++ js "python" ++ [LF] ++ body
  ++ FENCE ++ [LF] ++ ProcessingHelper.CODE ++ [LF; LF]
  ++ ProcessingHelper.THOUGHTS ++ thoughts_block
  ++ ProcessingHelper.THOUGHTS ++ [LF].

(** Two replies without a fence: one has no CODE section, the other has
    bare code in it. *)
Definition reply_without_code : jsstring := js "I cannot read the screenshot.".

Definition reply_with_bare_code : jsstring :=
  ProcessingHelper.CODE ++ [LF] ++ js "x = 1" ++ [LF] ++ ProcessingHelper.CODE.

(** An upstream failure with status 503. *)
Definition unavailable : Error :=
  {| isCancel := false; response_status := Some 503%Z;
     message := js "503 Service Unavailable" |}.

(** A problem record, and the configured installation holding it in the
    solutions view. *)
Definition two_sum : ProblemInfo :=
  {| problem_statement := js "Two Sum"; constraints := None;
     example_input := None; example_output := None;
     solution_stub := None; notes := None |}.

Definition debugging : State :=
  setView solutions (setProblemInfo (Some two_sum) ready).

(** The configured installation with a screenshot that exists but cannot
    be read. *)
Definition damaged : State :=
  set_files [(js "shot.png", None)] ready.

(** The configured installation in the solutions view without a problem
    record, as a solve leaves it, with a new extra screenshot. *)
Definition solved : State :=
  setView solutions ready.

(** The configured installation after a solve, and after a further
    screenshot has been captured then. *)
Definition after_solve : State :=
  snd (ProcessingHelper.processScreenshots (Replied (Some reply)) ready).

Definition next_capture : State :=
  set_extraScreenshotQueue [js "next.png"]
    (set_files ((js "next.png", Some (js "R0hJ")) :: files after_solve)
       after_solve).

(** The listener the ProcessingHelper constructor registers. *)
Definition listeners : list (ConfigHelper.Config -> M unit) :=
  [fun _ => ProcessingHelper.initializeAIClients].

End Sample.

(* ================================================================== *)
(** ** Facts about strings and searches *)
(* ================================================================== *)

Module StringFacts.
Import JS Shape.

Lemma eqb_eq (a b : jsstring) : JS.eqb a b = true <-> a = b.
Proof.
  revert b; induction a as [|x a IH]; intros [|y b]; simpl;
    try (split; [discriminate | congruence]); try tauto.
  rewrite andb_true_iff, N.eqb_eq, IH. split.
  - intros [-> ->]; reflexivity.
  - intros [= -> ->]; auto.
Qed.

Lemma eqb_refl (a : jsstring) : JS.eqb a a = true.
Proof. apply eqb_eq; reflexivity. Qed.

Lemma eqb_neq (a b : jsstring) : JS.eqb a b = false <-> a <> b.
Proof.
  rewrite <- eqb_eq. destruct (JS.eqb a b); split; congruence.
Qed.

Lemma starts_with_app (p s : jsstring) : starts_with p (p ++ s) = true.
Proof.
  induction p as [|x p IH]; simpl; [reflexivity|].
  now rewrite N.eqb_refl.
Qed.

Lemma starts_with_split (p s : jsstring) :
  starts_with p s = true -> s = p ++ skipn (List.length p) s.
Proof.
  revert s; induction p as [|x p IH]; intros [|y s]; simpl;
    try discriminate; try reflexivity.
  rewrite andb_true_iff, N.eqb_eq. intros [-> H]. f_equal. auto.
Qed.

Lemma starts_with_mono (p s t : jsstring) :
  starts_with p s = true -> starts_with p (s ++ t) = true.
Proof.
  revert s; induction p as [|x p IH]; intros [|y s]; simpl;
    try discriminate; try reflexivity.
  rewrite !andb_true_iff. intros [-> H]. auto.
Qed.

(** Only the first [length p] characters matter. *)
Lemma starts_with_long (p s t u : jsstring) :
  (List.length p <= List.length s)%nat ->
  starts_with p (s ++ t) = starts_with p (s ++ u).
Proof.
  revert s; induction p as [|x p IH]; intros [|y s]; simpl;
    try reflexivity; try lia.
  intros H. f_equal. apply IH. lia.
Qed.

Lemma skipn_length_app (A : Type) (p s : list A) :
  skipn (List.length p) (p ++ s) = s.
Proof. induction p; simpl; auto. Qed.

Lemma includes_cons (p : jsstring) (c : char) (s : jsstring) :
  includes p (c :: s) = starts_with p (c :: s) || includes p s.
Proof. reflexivity. Qed.

Lemma free_cons (d : jsstring) (c : char) (s : jsstring) :
  free d (c :: s) = true ->
  free d s = true /\ forall t, starts_with d (c :: s ++ d ++ t) = false.
Proof.
  unfold free. rewrite negb_true_iff. simpl app. rewrite includes_cons.
  rewrite orb_false_iff. intros [H1 H2]. split.
  - now rewrite H2.
  - intros t. destruct d as [|x d]; [discriminate|].
    rewrite <- H1.
    change (c :: s ++ (x :: d) ++ t) with ((c :: s) ++ (x :: d) ++ t).
    rewrite (app_removelast_last x (l := x :: d)) at 2 by discriminate.
    rewrite <- !app_assoc, (app_assoc (c :: s)).
    change (c :: s ++ removelast (x :: d))
      with ((c :: s) ++ removelast (x :: d)).
    rewrite <- (app_nil_r ((c :: s) ++ removelast (x :: d))) at 2.
    apply starts_with_long.
    rewrite length_app.
    assert (List.length (x :: d) = S (List.length (removelast (x :: d)))).
    { rewrite (app_removelast_last x (l := x :: d)) at 1 by discriminate.
      rewrite length_app. simpl. lia. }
    simpl List.length in *. lia.
Qed.

Lemma lazy_until_free (d s t : jsstring) :
  free d s = true -> lazy_until d (s ++ d ++ t) = Some s.
Proof.
  induction s as [|c s IH]; intros H.
  - simpl app. destruct (d ++ t) eqn:E; simpl.
    + destruct d; [reflexivity | discriminate].
    + rewrite <- E, starts_with_app. reflexivity.
  - apply free_cons in H as [H1 H2].
    simpl app. simpl. rewrite H2, IH by assumption. reflexivity.
Qed.

Lemma lit_fail (A : Type) (d : jsstring) (k : jsstring -> option A)
    (s : jsstring) :
  starts_with d s = false -> lit d k s = None.
Proof. unfold lit. now intros ->. Qed.

Lemma lit_app (A : Type) (d : jsstring) (k : jsstring -> option A)
    (s : jsstring) :
  lit d k (d ++ s) = k s.
Proof. unfold lit. now rewrite starts_with_app, skipn_length_app. Qed.

Lemma search_hit (A : Type) (m : jsstring -> option A) (s : jsstring) (r : A) :
  m s = Some r -> search m s = Some r.
Proof. destruct s; simpl; now intros ->. Qed.

Lemma search_lit_free (A : Type) (d : jsstring) (k : jsstring -> option A)
    (s t : jsstring) (r : A) :
  free d s = true -> k t = Some r ->
  search (lit d k) (s ++ d ++ t) = Some r.
Proof.
  intros H K. induction s as [|c s IH].
  - apply search_hit. simpl app. now rewrite lit_app.
  - apply free_cons in H as [H1 H2].
    simpl app. simpl. rewrite lit_fail by apply H2. auto.
Qed.

Lemma match_section_spec (d pre inner post : jsstring) :
  free d pre = true -> free d inner = true ->
  match_section d (pre ++ d ++ inner ++ d ++ post) = Some inner.
Proof.
  intros H1 H2. unfold match_section.
  apply search_lit_free; [assumption|]. now apply lazy_until_free.
Qed.


(** A space is not a word character, and a backquote is neither. *)
Lemma space_not_word (c : char) : is_space c = true -> is_word c = false.
Proof.
  unfold is_space, is_word, is_alpha, is_upper, is_lower, is_digit.
  rewrite !orb_true_iff, !andb_true_iff, !N.leb_le, !N.eqb_eq.
  intros H.
  rewrite !orb_false_iff, !andb_false_iff, !N.leb_gt, N.eqb_neq. lia.
Qed.

(** A greedy run that is followed by something the rest of the expression
    accepts is taken whole. *)
Lemma greedy_star_run (A : Type) (cls : char -> bool)
    (k : jsstring -> option A) (run rest : jsstring) (r : A) :
  forallb cls run = true -> head_not cls rest -> k rest = Some r ->
  greedy_star cls k (run ++ rest) = Some r.
Proof.
  intros Hrun Hrest K. induction run as [|c run IH]; simpl in *.
  - destruct rest as [|c rest]; simpl in *; [assumption|].
    now rewrite Hrest.
  - apply andb_true_iff in Hrun as [-> Hrun]. now rewrite IH.
Qed.

Lemma opt_plus_run (A : Type) (cls : char -> bool)
    (k : jsstring -> option A) (run rest : jsstring) (r : A) :
  forallb cls run = true -> head_not cls rest -> k rest = Some r ->
  opt_plus cls k (run ++ rest) = Some r.
Proof.
  intros Hrun Hrest K. destruct run as [|c run]; simpl in *.
  - destruct rest as [|c rest]; simpl in *; [assumption|].
    now rewrite Hrest.
  - apply andb_true_iff in Hrun as [-> Hrun].
    now rewrite (greedy_star_run cls k run rest Hrun Hrest K).
Qed.

Lemma take_drop_while (f : char -> bool) (s : jsstring) :
  s = take_while f s ++ drop_while f s.
Proof.
  induction s as [|c s IH]; simpl; [reflexivity|].
  destruct (f c); simpl; congruence.
Qed.

Lemma take_while_all (f : char -> bool) (s : jsstring) :
  forallb f (take_while f s) = true.
Proof.
  induction s as [|c s IH]; simpl; [reflexivity|].
  destruct (f c) eqn:E; simpl; [now rewrite E|reflexivity].
Qed.

Lemma drop_while_head (f : char -> bool) (s : jsstring) :
  head_not f (drop_while f s).
Proof.
  induction s as [|c s IH]; simpl; [exact I|].
  destruct (f c) eqn:E; simpl; assumption.
Qed.

Lemma drop_while_idem (f : char -> bool) (s : jsstring) :
  drop_while f (drop_while f s) = drop_while f s.
Proof.
  induction s as [|c s IH]; simpl; [reflexivity|].
  destruct (f c) eqn:E; simpl; [assumption|now rewrite E].
Qed.

Lemma trim_trimStart (s : jsstring) : trim (drop_while is_space s) = trim s.
Proof. unfold trim, trimStart. now rewrite drop_while_idem. Qed.

(** What is free of [d] stays so when characters are taken off its
    front. *)
Lemma free_app_r (d a s : jsstring) : free d (a ++ s) = true -> free d s = true.
Proof.
  induction a as [|c a IH]; simpl; [auto|].
  intros H. apply IH. unfold free in *.
  rewrite negb_true_iff in *. simpl app in H. rewrite includes_cons in H.
  now apply orb_false_iff in H.
Qed.

Lemma free_drop_while (d : jsstring) (f : char -> bool) (s : jsstring) :
  free d s = true -> free d (drop_while f s) = true.
Proof.
  intros H. rewrite (take_drop_while f s) in H. now apply free_app_r in H.
Qed.

Lemma backquote_head (cls : char -> bool) (t : jsstring) :
  cls 96%N = false -> head_not cls (FENCE ++ t).
Proof. intros H. exact H. Qed.

Lemma head_not_app (cls : char -> bool) (s t : jsstring) :
  head_not cls s -> head_not cls t -> head_not cls (s ++ t).
Proof. destruct s; simpl; auto. Qed.

(** The fence expression on a block written the customary way. *)
Lemma match_fence_spec (head lang sp body tail : jsstring) :
  free FENCE head = true ->
  forallb is_word lang = true ->
  sp <> [] -> forallb is_space sp = true ->
  free FENCE body = true ->
  match_fence (head ++ FENCE ++ lang ++ sp ++ body ++ FENCE ++ tail)
  = Some (drop_while is_space body).
Proof.
  intros Hhead Hlang Hne Hsp Hbody. unfold match_fence.
  apply search_lit_free; [assumption|].
  apply opt_plus_run; [assumption | |].
  - destruct sp as [|c sp]; [congruence|]. simpl in *.
    apply andb_true_iff in Hsp as [Hc _]. now apply space_not_word.
  - rewrite (take_drop_while is_space body) at 1.
    rewrite <- (app_assoc (take_while _ _)), (app_assoc sp).
    apply greedy_star_run.
    + rewrite forallb_app, Hsp. apply take_while_all.
    + apply head_not_app; [apply drop_while_head | reflexivity].
    + apply lazy_until_free. now apply free_drop_while.
Qed.

Lemma includes_app_l (p a s : jsstring) :
  includes p (a ++ s) = false -> includes p s = false.
Proof.
  induction a as [|c a IH]; simpl app; [auto|].
  rewrite includes_cons. intros H. apply orb_false_iff in H as [_ H]. auto.
Qed.

Lemma includes_app_r (p s b : jsstring) :
  includes p (s ++ b) = false -> includes p s = false.
Proof.
  induction s as [|c s IH].
  - simpl app. intros H. destruct p as [|x p]; [|reflexivity].
    destruct b; discriminate.
  - simpl app. rewrite !includes_cons, !orb_false_iff. intros [H1 H2].
    split; [|auto].
    destruct (starts_with p (c :: s)) eqn:E; [|reflexivity].
    apply (starts_with_mono _ _ b) in E. simpl app in E. congruence.
Qed.

Lemma search_lit_none (A : Type) (d : jsstring) (k : jsstring -> option A)
    (s : jsstring) :
  includes d s = false -> search (lit d k) s = None.
Proof.
  induction s as [|c s IH].
  - simpl. intros H. apply orb_false_iff in H as [H _].
    now rewrite lit_fail.
  - rewrite includes_cons, orb_false_iff. intros [H1 H2].
    simpl. rewrite lit_fail by assumption. auto.
Qed.

Lemma lazy_until_inv (d s r : jsstring) :
  lazy_until d s = Some r -> exists t, s = r ++ t.
Proof.
  revert r; induction s as [|c s IH]; intros r; simpl.
  - destruct (starts_with d []); [intros [= <-]; now exists []|discriminate].
  - destruct (starts_with d (c :: s)); [intros [= <-]; now exists (c :: s)|].
    destruct (lazy_until d s) as [r'|]; [|discriminate].
    intros [= <-]. destruct (IH r' eq_refl) as [t ->]. now exists t.
Qed.

(** A section is a piece of the text it is found in. *)
Lemma match_section_inv (d text inner : jsstring) :
  match_section d text = Some inner -> exists a b, text = a ++ inner ++ b.
Proof.
  unfold match_section. induction text as [|c text IH]; simpl.
  - unfold lit. destruct (starts_with d []) eqn:E; [|discriminate].
    destruct (lazy_until d (skipn (List.length d) [])) eqn:L; [|discriminate].
    intros [= <-]. apply lazy_until_inv in L as [t L].
    rewrite skipn_nil in L. destruct j; [|discriminate]. now exists [], [].
  - destruct (lit d (lazy_until d) (c :: text)) eqn:L.
    + intros [= <-]. unfold lit in L.
      destruct (starts_with d (c :: text)) eqn:E; [|discriminate].
      apply lazy_until_inv in L as [t L].
      exists d, t. rewrite <- L. now apply starts_with_split.
    + intros H. destruct (IH H) as (a & b & ->). now exists (c :: a), b.
Qed.

Lemma match_fence_none (s : jsstring) :
  includes FENCE s = false -> match_fence s = None.
Proof. apply search_lit_none. Qed.

End StringFacts.

(* ================================================================== *)
(** ** Facts about the methods *)
(* ================================================================== *)

Module MethodFacts.
Import JS Num Json World Meaning ProcessingHelper.

Lemma default_file_round_trip :
  config_of (Some (JSON_stringify_2 (JObj ConfigHelper.defaultConfig)))
  = ConfigHelper.defaultConfig.
Proof. vm_compute. reflexivity. Qed.

Lemma config_of_settled (s : State) :
  config_of (configFile (settled s)) = config_of (configFile s).
Proof.
  unfold settled. destruct (configFile s) eqn:E; simpl.
  - now rewrite E.
  - apply default_file_round_trip.
Qed.

Lemma settled_idem (s : State) : settled (settled s) = settled s.
Proof.
  unfold settled at 1. destruct (configFile (settled s)) eqn:E; [reflexivity|].
  unfold settled in E. destruct (configFile s) eqn:F; [congruence|].
  simpl in E. discriminate.
Qed.

Lemma settled_fields (s : State) :
  files (settled s) = files s /\ aiClient (settled s) = aiClient s
  /\ currentProcessingAbortController (settled s)
     = currentProcessingAbortController s
  /\ currentExtraProcessingAbortController (settled s)
     = currentExtraProcessingAbortController s
  /\ mainWindow (settled s) = mainWindow s /\ view (settled s) = view s
  /\ problemInfo (settled s) = problemInfo s
  /\ hasDebugged (settled s) = hasDebugged s
  /\ screenshotQueue (settled s) = screenshotQueue s
  /\ extraScreenshotQueue (settled s) = extraScreenshotQueue s
  /\ trace (settled s) = trace s.
Proof. unfold settled. destruct (configFile s); repeat split. Qed.

Lemma loadConfig_eq (s : State) :
  ConfigHelper.loadConfig s = (Normal (config_of (configFile s)), settled s).
Proof.
  unfold ConfigHelper.loadConfig, bind, gets, settled, config_of.
  destruct (configFile s) as [d|]; [|reflexivity].
  destruct (JSON_parse d); reflexivity.
Qed.

Lemma initializeAIClients_eq (s : State) :
  initializeAIClients s
  = (Normal tt, set_aiClient (client_of (config_of (configFile s))) (settled s)).
Proof.
  unfold initializeAIClients, bind. rewrite loadConfig_eq.
  unfold client_of.
  destruct (obj_get (js "aiApiKey") _) as [k|]; [|reflexivity].
  destruct (obj_get (js "aiEndpoint") _) as [e|]; [|reflexivity].
  destruct (truthy (Some k) && truthy (Some e)); reflexivity.
Qed.

Lemma getLanguage_eq (s : State) :
  getLanguage s = (Normal (language_of s), settled s).
Proof.
  unfold getLanguage, bind. rewrite loadConfig_eq. unfold language_of.
  destruct (obj_get (js "language") _) as [l|]; [|reflexivity].
  destruct (truthy (Some l)); [reflexivity|].
  unfold gets. destruct (settled_fields s) as (_ & _ & _ & _ & -> & _).
  destruct (mainWindow s) as [w|]; [|reflexivity].
  unfold try_catch, waitForInitialization, bind, throw, ret.
  destruct (isDestroyed w); [reflexivity|].
  destruct (IS_INITIALIZED w); [|reflexivity].
  destruct (LANGUAGE w); reflexivity.
Qed.

Lemma unlink_all (q : list jsstring) (s : State) :
  fold_left (fun s' path => unlink path s') q s
  = set_files (fold_left (fun fs path => delete_file path fs) q (files s))
      (set_trace (trace s ++ map Unlink q) s).
Proof.
  revert s; induction q as [|p q IH]; intros s.
  - destruct s; simpl. now rewrite app_nil_r.
  - simpl fold_left. rewrite IH. destruct s; unfold unlink, emit; simpl.
    now rewrite <- app_assoc.
Qed.

Lemma clearExtraScreenshotQueue_eq (s : State) :
  clearExtraScreenshotQueue s = (Normal tt, cleared s).
Proof.
  unfold clearExtraScreenshotQueue, modify, cleared.
  rewrite unlink_all. destruct s; reflexivity.
Qed.

#[local] Opaque ConfigHelper.loadConfig getLanguage initializeAIClients
  clearExtraScreenshotQueue.

Lemma ensure_client_eq (s : State) :
  ensure_client s
  = match aiClient s with
    | Some _ => (Normal true, s)
    | None =>
        (Normal (is_some (client_of (config_of (configFile s)))),
         set_aiClient (client_of (config_of (configFile s))) (settled s))
    end.
Proof.
  unfold ensure_client, bind, gets. destruct (aiClient s); [reflexivity|].
  now rewrite initializeAIClients_eq.
Qed.

#[local] Opaque ensure_client.

Lemma settled_proj (s : State) :
  forall A (f : State -> A),
    (forall x t, f (set_configFile x t) = f t) -> f (settled s) = f s.
Proof.
  intros A f H. unfold settled. destruct (configFile s); [reflexivity|apply H].
Qed.

Lemma mainWindow_settled (s : State) : mainWindow (settled s) = mainWindow s.
Proof. now apply settled_proj. Qed.

Lemma aiClient_settled (s : State) : aiClient (settled s) = aiClient s.
Proof. now apply settled_proj. Qed.

Lemma extraScreenshotQueue_settled (s : State) :
  extraScreenshotQueue (settled s) = extraScreenshotQueue s.
Proof. now apply settled_proj. Qed.

Lemma screenshotQueue_settled (s : State) :
  screenshotQueue (settled s) = screenshotQueue s.
Proof. now apply settled_proj. Qed.

Lemma trace_settled (s : State) : trace (settled s) = trace s.
Proof. now apply settled_proj. Qed.

Lemma view_settled (s : State) : view (settled s) = view s.
Proof. now apply settled_proj. Qed.

Lemma files_settled (s : State) : files (settled s) = files s.
Proof. now apply settled_proj. Qed.

Lemma problemInfo_settled (s : State) : problemInfo (settled s) = problemInfo s.
Proof. now apply settled_proj. Qed.

Lemma hasDebugged_settled (s : State) : hasDebugged (settled s) = hasDebugged s.
Proof. now apply settled_proj. Qed.

Lemma debugState_settled (s : State) : debugState (settled s) = debugState s.
Proof. now apply settled_proj. Qed.

Lemma processing_settled (s : State) :
  currentProcessingAbortController (settled s)
  = currentProcessingAbortController s.
Proof. now apply settled_proj. Qed.

Lemma extra_processing_settled (s : State) :
  currentExtraProcessingAbortController (settled s)
  = currentExtraProcessingAbortController s.
Proof. now apply settled_proj. Qed.

(** Looking for the file commutes with whatever leaves it alone. *)
Lemma settled_comm (f : State -> State) (s : State) :
  (forall t, configFile (f t) = configFile t) ->
  (forall x t, f (set_configFile x t) = set_configFile x (f t)) ->
  settled (f s) = f (settled s).
Proof.
  intros H1 H2. unfold settled. rewrite H1.
  destruct (configFile s); [reflexivity|]. now rewrite H2.
Qed.

Lemma settled_emit (e : Effect) (s : State) :
  settled (emit e s) = emit e (settled s).
Proof. now apply settled_comm. Qed.

Lemma settled_set_aiClient (c : option Client) (s : State) :
  settled (set_aiClient c s) = set_aiClient c (settled s).
Proof. now apply settled_comm. Qed.

Lemma settled_set_processing (c : option AbortController) (s : State) :
  settled (set_currentProcessingAbortController c s)
  = set_currentProcessingAbortController c (settled s).
Proof. now apply settled_comm. Qed.

Lemma settled_set_extra_processing (c : option AbortController) (s : State) :
  settled (set_currentExtraProcessingAbortController c s)
  = set_currentExtraProcessingAbortController c (settled s).
Proof. now apply settled_comm. Qed.

Lemma settled_set_debugState (d : option (list DebugStateEntry)) (s : State) :
  settled (set_debugState d s) = set_debugState d (settled s).
Proof. now apply settled_comm. Qed.

Lemma settled_setProblemInfo (p : option ProblemInfo) (s : State) :
  settled (setProblemInfo p s) = setProblemInfo p (settled s).
Proof. now apply settled_comm. Qed.

Lemma language_of_settled (s : State) : language_of (settled s) = language_of s.
Proof.
  unfold language_of. now rewrite config_of_settled, mainWindow_settled.
Qed.

Create Rewrite HintDb state.
#[export] Hint Rewrite settled_idem settled_emit settled_set_aiClient
  settled_set_processing settled_set_extra_processing
  settled_set_debugState settled_setProblemInfo
  config_of_settled language_of_settled
  mainWindow_settled aiClient_settled extraScreenshotQueue_settled
  screenshotQueue_settled trace_settled view_settled files_settled
  problemInfo_settled hasDebugged_settled debugState_settled
  processing_settled
  extra_processing_settled : state.

(** Unfolds the plumbing of a computation. *)
Ltac crunch :=
  unfold create, bind, modify, ret, throw, when_window, send, gets,
    try_catch, finally;
  cbn [negb is_some]; cbv beta iota.

(** Brings the state expressions of the goal to normal form. *)
Ltac tidy :=
  cbn [configFile debugState files aiClient currentProcessingAbortController
       currentExtraProcessingAbortController mainWindow view problemInfo
       hasDebugged screenshotQueue extraScreenshotQueue trace
       emit set_trace set_aiClient set_configFile set_debugState set_files
       set_currentProcessingAbortController
       set_currentExtraProcessingAbortController setView setProblemInfo
       setHasDebugged set_extraScreenshotQueue cleared];
  autorewrite with state.

End MethodFacts.

(* ================================================================== *)
(** ** The configuration store *)
(* ================================================================== *)

Module ConfigFacts.
Import JS Num Json World Meaning StringFacts MethodFacts.

Lemma obj_get_update (k k' : jsstring) (v : json) (o : object) :
  obj_get k (obj_update k' v o)
  = if JS.eqb k k' then
      match obj_get k' o with Some _ => Some v | None => None end
    else obj_get k o.
Proof.
  induction o as [|[k0 v0] o IH]; simpl.
  - now destruct (JS.eqb k k').
  - destruct (JS.eqb k' k0) eqn:E0; simpl.
    + apply eqb_eq in E0 as <-. now destruct (JS.eqb k k').
    + rewrite IH. destruct (JS.eqb k k') eqn:E; [|reflexivity].
      apply eqb_eq in E as ->. now rewrite E0.
Qed.

Lemma obj_get_insert (k k' : jsstring) (v : json) (o : object) :
  obj_get k' o = None ->
  obj_get k (obj_insert k' v o)
  = if JS.eqb k k' then Some v else obj_get k o.
Proof.
  induction o as [|[k0 v0] o IH]; simpl; [reflexivity|].
  destruct (JS.eqb k' k0) eqn:E0; [discriminate|]. intros H.
  destruct (goes_before k' k0); simpl.
  - destruct (JS.eqb k k'); reflexivity.
  - rewrite IH by assumption.
    destruct (JS.eqb k k') eqn:E; [|reflexivity].
    apply eqb_eq in E as ->. now rewrite E0.
Qed.

(** Reading a property after a write. *)
Lemma obj_get_set (k k' : jsstring) (v : json) (o : object) :
  obj_get k (obj_set k' v o) = if JS.eqb k k' then Some v else obj_get k o.
Proof.
  unfold obj_set, obj_has. destruct (obj_get k' o) eqn:E.
  - rewrite obj_get_update, E. reflexivity.
  - now apply obj_get_insert.
Qed.

(** In a spread the later object wins, and within it the later member. *)
Lemma obj_get_spread (k : jsstring) (a b : object) :
  obj_get k (obj_spread a b)
  = match obj_get k (rev b) with
    | Some v => Some v
    | None => obj_get k a
    end.
Proof.
  unfold obj_spread. induction b as [|[k' v'] b IH] using rev_ind.
  - reflexivity.
  - rewrite fold_left_app, rev_app_distr. simpl.
    rewrite obj_get_set, IH. now destruct (JS.eqb k k').
Qed.

Lemma obj_get_app (k : jsstring) (a b : object) :
  obj_get k (a ++ b)
  = match obj_get k a with Some v => Some v | None => obj_get k b end.
Proof.
  induction a as [|[k' v'] a IH]; simpl; [reflexivity|].
  destruct (JS.eqb k k'); auto.
Qed.

Lemma obj_get_rev_none (k : jsstring) (o : object) :
  obj_get k o = None -> obj_get k (rev o) = None.
Proof.
  induction o as [|[k' v'] o IH]; simpl; [reflexivity|].
  destruct (JS.eqb k k') eqn:E; [discriminate|]. intros H.
  rewrite obj_get_app, IH by assumption. simpl. now rewrite E.
Qed.

(** A field the file does not mention keeps its default. *)
Lemma spread_missing (k : jsstring) (a b : object) :
  obj_get k b = None -> obj_get k (obj_spread a b) = obj_get k a.
Proof.
  intros H. rewrite obj_get_spread, obj_get_rev_none by assumption.
  reflexivity.
Qed.

(** A field one of the two objects has is there after the spread. *)
Lemma spread_has (k : jsstring) (a b : object) :
  obj_get k a <> None -> obj_get k (obj_spread a b) <> None.
Proof.
  intros H. rewrite obj_get_spread.
  destruct (obj_get k (rev b)); [discriminate|assumption].
Qed.

Lemma default_has_fields (f : jsstring) :
  In f ConfigHelper.fields -> obj_get f ConfigHelper.defaultConfig <> None.
Proof.
  unfold ConfigHelper.fields. simpl.
  intros [<-|[<-|[<-|[<-|[<-|[]]]]]]; vm_compute; discriminate.
Qed.

(** C8.  [loadConfig] always returns a configuration.  It is exactly the
    default one when [config.json] is absent or is not JSON; when the file
    holds a JSON value, every field of the five is present in the result,
    a field the value does not have is equal to its documented default,
    and a field it has carries the value of the file. *)
Theorem loadConfig_defaults (s : State) :
  exists c,
    fst (ConfigHelper.loadConfig s) = Normal c /\
    match configFile s with
    | None => c = ConfigHelper.defaultConfig
    | Some text =>
        match JSON_parse text with
        | None => c = ConfigHelper.defaultConfig
        | Some v =>
            forall f, In f ConfigHelper.fields ->
              obj_get f c <> None
              /\ (obj_get f (ConfigHelper.own_properties v) = None ->
                  obj_get f c = obj_get f ConfigHelper.defaultConfig)
              /\ (forall x,
                    obj_get f (rev (ConfigHelper.own_properties v)) = Some x ->
                    obj_get f c = Some x)
        end
    end.
Proof.
  rewrite loadConfig_eq. exists (config_of (configFile s)).
  split; [reflexivity|].
  unfold config_of. destruct (configFile s) as [text|]; [|reflexivity].
  destruct (JSON_parse text) as [v|]; [|reflexivity].
  intros f Hf. split; [|split].
  - apply spread_has. now apply default_has_fields.
  - apply spread_missing.
  - intros x H. rewrite obj_get_spread. rewrite H. reflexivity.
Qed.

(** A file that has only some of the fields. *)
Example loadConfig_partial_file :
  fst (ConfigHelper.loadConfig
         (set_configFile
            (Some (Sample.dq "{ 'language': 'java', 'opacity': 0.5 }"))
            Sample.fresh))
  = Normal
      [ (js "aiApiKey", JStr []);
        (js "aiEndpoint", JStr (js "https://api.openai.com/v1"));
        (js "aiModel", JStr (js "gpt-4o"));
        (js "language", JStr (js "java"));
        (js "opacity", JNum (Finite 5 (-1))) ].
Proof. vm_compute. reflexivity. Qed.

(** *** Opacity *)

Lemma scaled_pos (e e' : Z) : (0 < scaled 1 e e')%Z.
Proof.
  unfold scaled. rewrite Z.mul_1_l. apply Z.pow_pos_nonneg; lia.
Qed.

(** Whatever is not [NaN] ends in the range. *)
Lemma validOpacity_range (x : number) :
  is_NaN x = false ->
  Num.leb opacity_min (ConfigHelper.validOpacity x) = true
  /\ Num.leb (ConfigHelper.validOpacity x) opacity_max = true.
Proof.
  destruct x as [|[|]|m e]; [discriminate | now vm_compute | now vm_compute|].
  intros _. unfold ConfigHelper.validOpacity, Math_max, Math_min.
  cbn [is_NaN orb].
  destruct (ltb (Finite 1 (-1)) (Finite m e)) eqn:L1; cbn [is_NaN orb].
  - destruct (ltb (Finite m e) (Finite 1 0)) eqn:L2.
    + unfold opacity_min, opacity_max, Num.leb. cbn [ltb] in *.
      rewrite !negb_true_iff, !Z.ltb_ge. rewrite Z.ltb_lt in L1, L2.
      lia.
    + now vm_compute.
  - now vm_compute.
Qed.

Lemma set_configFile_settled (x : option jsstring) (s : State) :
  set_configFile x (settled s) = set_configFile x s.
Proof. unfold settled. now destruct (configFile s). Qed.

(** What [setOpacity] leaves on the disk: the loaded configuration with
    its opacity replaced by the value handed on. *)
Lemma setOpacity_persists (x : number) (s : State) :
  let newConfig :=
    obj_spread (config_of (configFile s))
      [(js "opacity", JNum (ConfigHelper.validOpacity x))] in
  exists s',
    ConfigHelper.setOpacity Sample.listeners x s = (Normal tt, s')
    /\ configFile s' = Some (JSON_stringify_2 (JObj newConfig))
    /\ obj_get (js "opacity") newConfig
       = Some (JNum (ConfigHelper.validOpacity x)).
Proof.
  intros newConfig.
  unfold ConfigHelper.setOpacity, ConfigHelper.updateConfig,
    ConfigHelper.saveConfig, Sample.listeners, ConfigHelper.call_all.
  unfold bind, try_catch, modify, ret.
  rewrite loadConfig_eq, initializeAIClients_eq.
  eexists. split; [reflexivity|]. split.
  - cbn [configFile set_aiClient]. unfold settled at 1.
    cbn [configFile set_configFile]. reflexivity.
  - unfold newConfig. rewrite obj_get_spread. simpl rev.
    cbn [obj_get]. now rewrite eqb_refl.
Qed.

(** For a number that is not [NaN] the opacity that is written lies
    between [0.1] and [1.0]. *)
Lemma setOpacity_in_range (x : number) (s : State) :
  is_NaN x = false ->
  exists s' v,
    ConfigHelper.setOpacity Sample.listeners x s = (Normal tt, s')
    /\ configFile s'
       = Some (JSON_stringify_2
                 (JObj (obj_spread (config_of (configFile s))
                          [(js "opacity", JNum v)])))
    /\ v = Math_min opacity_max (Math_max opacity_min x)
    /\ Num.leb opacity_min v = true /\ Num.leb v opacity_max = true.
Proof.
  intros N. destruct (setOpacity_persists x s) as (s' & H1 & H2 & _).
  exists s', (ConfigHelper.validOpacity x).
  split; [assumption|]. split; [assumption|]. split; [reflexivity|].
  now apply validOpacity_range.
Qed.

Lemma setOpacity_in_range_witness :
  exists s' v,
    ConfigHelper.setOpacity Sample.listeners (Finite 25 (-1)) Sample.ready
    = (Normal tt, s')
    /\ Num.leb opacity_min v = true /\ Num.leb v opacity_max = true.
Proof.
  destruct (@setOpacity_in_range (Finite 25 (-1)) Sample.ready eq_refl)
    as (s' & v & H & _ & _ & A & B).
  exists s', v. repeat split; assumption.
Defined.

(** C9.  At [NaN] the clamp of [setOpacity] gives [NaN], which is not in
    the range from [0.1] to [1.0]; the file is written with [null] for the
    opacity, and that is what [getOpacity] reads back. *)
Theorem setOpacity_NaN :
  ConfigHelper.validOpacity NaN = NaN
  /\ Num.leb opacity_min (ConfigHelper.validOpacity NaN) = false
  /\ Num.leb (ConfigHelper.validOpacity NaN) opacity_max = false
  /\ let s' := snd (ConfigHelper.setOpacity Sample.listeners NaN Sample.ready) in
     obj_get (js "opacity") (config_of (configFile s')) = Some JNull
     /\ fst (ConfigHelper.getOpacity s') = Normal JNull.
Proof. vm_compute. repeat split. Qed.

(** A number in the range and one above it. *)
Example setOpacity_half :
  let s' :=
    snd (ConfigHelper.setOpacity Sample.listeners (Finite 5 (-1)) Sample.ready) in
  fst (ConfigHelper.getOpacity s') = Normal (JNum (Finite 5 (-1))).
Proof. vm_compute. reflexivity. Qed.

Example setOpacity_above :
  let s' :=
    snd (ConfigHelper.setOpacity Sample.listeners (Finite 25 (-1)) Sample.ready) in
  fst (ConfigHelper.getOpacity s') = Normal (JNum (Finite 1 0)).
Proof. vm_compute. reflexivity. Qed.

End ConfigFacts.

(* ================================================================== *)
(** ** The screenshot pipeline *)
(* ================================================================== *)

Module PipelineFacts.
Import JS Num Json World Shape Meaning Reply ProcessingHelper StringFacts
  MethodFacts.

#[local] Opaque ConfigHelper.loadConfig getLanguage initializeAIClients
  clearExtraScreenshotQueue ensure_client.

Lemma key_absent_no_client (s : State) :
  key_absent s -> client_of (config_of (configFile s)) = None.
Proof.
  unfold key_absent, client_of. intros H.
  destruct (obj_get (js "aiApiKey") _) as [k|]; [|reflexivity].
  destruct (obj_get (js "aiEndpoint") _) as [e|]; [|reflexivity].
  now rewrite H.
Qed.

Lemma configured_key (s : State) :
  configured s -> truthy (obj_get (js "aiApiKey") (config_of (configFile s))) = true.
Proof.
  unfold configured, client_of.
  destruct (obj_get (js "aiApiKey") _) as [k|]; [|congruence].
  destruct (obj_get (js "aiEndpoint") _) as [e|]; [|congruence].
  destruct (truthy (Some k)); [reflexivity|]. simpl. congruence.
Qed.

(** C4.  When the API key is absent, [processScreenshots] sends
    [API_KEY_INVALID] to the main window and returns; nothing else is
    sent, no request goes out, and no client is left behind. *)
Theorem not_configured_reported (completion : ApiOutcome) (s : State)
    (w : Window) :
  mainWindow s = Some w -> isDestroyed w = false -> key_absent s ->
  exists s',
    processScreenshots completion s = (Normal tt, s')
    /\ trace s' = trace s ++ [Send API_KEY_INVALID]
    /\ network_calls (trace s') = network_calls (trace s)
    /\ aiClient s' = None.
Proof.
  intros W D K. unfold processScreenshots. crunch. rewrite W.
  rewrite loadConfig_eq. tidy. rewrite K. cbn [negb orb].
  rewrite initializeAIClients_eq. tidy.
  rewrite (key_absent_no_client K). crunch. rewrite D. crunch.
  eexists. split; [reflexivity|]. tidy. repeat split.
  unfold network_calls. rewrite flat_map_app. simpl. now rewrite app_nil_r.
Qed.

(** A fresh installation has no key. *)
Lemma not_configured_reported_witness :
  key_absent Sample.fresh
  /\ exists s',
       processScreenshots (Replied None) Sample.fresh = (Normal tt, s')
       /\ trace s' = trace Sample.fresh ++ [Send API_KEY_INVALID]
       /\ network_calls (trace s') = network_calls (trace Sample.fresh)
       /\ aiClient s' = None.
Proof.
  split; [reflexivity|].
  apply (@not_configured_reported (Replied None) Sample.fresh Sample.window);
    reflexivity.
Defined.

Lemma filter_none (A : Type) (f : A -> bool) (l : list A) :
  (forall x, In x l -> f x = false) -> filter f l = [].
Proof.
  induction l as [|x l IH]; simpl; intros H; [reflexivity|].
  rewrite (H x) by auto. auto.
Qed.

Lemma existsSync_files (s t : State) (p : jsstring) :
  files s = files t -> existsSync s p = existsSync t p.
Proof. unfold existsSync. now intros ->. Qed.

Lemma network_calls_sends (t : list Effect) (l : list Event) :
  network_calls (t ++ map Send l) = network_calls t.
Proof.
  unfold network_calls. rewrite flat_map_app.
  induction l; simpl in *; [now rewrite app_nil_r|assumption].
Qed.

(** C5.  When no path of the queue being processed exists on the disk
    (the primary queue in the queue view, the auxiliary one otherwise),
    [processScreenshots] sends [NO_SCREENSHOTS] and returns without a
    request: nothing is read, built or sent to the endpoint. *)
Theorem no_valid_input_reported (completion : ApiOutcome) (s : State)
    (w : Window) :
  mainWindow s = Some w -> isDestroyed w = false -> configured s ->
  (forall path, In path (active_queue s) -> existsSync s path = false) ->
  exists s',
    processScreenshots completion s = (Normal tt, s')
    /\ trace s'
       = trace s
         ++ map Send (match view s with
                      | queue => [INITIAL_START; NO_SCREENSHOTS]
                      | solutions => [NO_SCREENSHOTS]
                      end)
    /\ network_calls (trace s') = network_calls (trace s).
Proof.
  intros W D C Q. unfold active_queue in Q.
  assert (X : forall t q, files t = files s ->
                (forall path, In path q -> existsSync s path = false) ->
                filter (existsSync t) q = []).
  { intros t q Ft Hq. apply filter_none. intros p Hp.
    rewrite (existsSync_files t s p Ft). auto. }
  unfold processScreenshots. crunch. rewrite W.
  rewrite loadConfig_eq. tidy. rewrite (configured_key C). cbn [negb orb].
  destruct (aiClient s) eqn:A; cbn [negb is_some];
    [|rewrite initializeAIClients_eq; tidy;
      destruct (client_of _) eqn:E; [|now elim C]]; crunch; tidy;
    (destruct (view s); rewrite D; crunch; tidy;
     [destruct (screenshotQueue s) as [|p q] eqn:SQ
     |destruct (extraScreenshotQueue s) as [|p q] eqn:SQ];
     cbn [is_nil]; crunch; tidy;
     rewrite ?X by (tidy; auto); cbn [is_nil]; crunch; rewrite ?D; crunch;
     eexists; (split; [reflexivity|]); tidy; rewrite <- ?app_assoc;
     (split; [reflexivity|]);
     first [apply (network_calls_sends _ [_; _])
           |apply (network_calls_sends _ [_])]).
Qed.

(** A queue of two paths that are not on the disk. *)
Lemma no_valid_input_reported_witness :
  let s := set_files [] Sample.ready in
  configured s
  /\ (forall path, In path (active_queue s) -> existsSync s path = false)
  /\ exists s',
       processScreenshots (Replied None) s = (Normal tt, s')
       /\ trace s' = trace s ++ [Send INITIAL_START; Send NO_SCREENSHOTS]
       /\ network_calls (trace s') = network_calls (trace s).
Proof.
  assert (C : configured (set_files [] Sample.ready)) by (vm_compute; discriminate).
  assert (Q : forall path,
             In path (active_queue (set_files [] Sample.ready)) ->
             existsSync (set_files [] Sample.ready) path = false)
    by reflexivity.
  split; [exact C|]. split; [exact Q|].
  exact (@no_valid_input_reported (Replied None) (set_files [] Sample.ready)
           Sample.window eq_refl eq_refl C Q).
Defined.

(** C6.  [cancelOngoingRequests] aborts and forgets both controllers,
    clears the problem record and the debugged flag whether or not a
    request was in flight, and sends [NO_SCREENSHOTS] once exactly when one
    was; a second call changes nothing and sends nothing. *)
Theorem cancel_idempotent (s : State) (w : Window) :
  mainWindow s = Some w -> isDestroyed w = false ->
  exists s',
    cancelOngoingRequests s = (Normal tt, s')
    /\ currentProcessingAbortController s' = None
    /\ currentExtraProcessingAbortController s' = None
    /\ problemInfo s' = None
    /\ hasDebugged s' = false
    /\ trace s'
       = trace s ++ aborts s
         ++ (if in_flight s then [Send NO_SCREENSHOTS] else [])
    /\ cancelOngoingRequests s' = (Normal tt, s').
Proof.
  intros W D. destruct w as [destroyed initialized lang].
  cbn in D. subst destroyed.
  destruct s as [cf ds fl cl [p|] [x|] mw vw pinfo hd sq xq tr];
    cbn in W; subst mw;
    (eexists; split; [cbv -[app]; reflexivity|]);
    cbv -[app]; rewrite <- ?app_assoc, ?app_nil_r; cbn [app];
    rewrite ?app_nil_r; repeat split.
Qed.

(** A cancellation while an initial solve is in flight. *)
Lemma cancel_idempotent_witness :
  let s :=
    set_currentProcessingAbortController (Some new_AbortController)
      Sample.ready in
  exists s',
    cancelOngoingRequests s = (Normal tt, s')
    /\ currentProcessingAbortController s' = None
    /\ currentExtraProcessingAbortController s' = None
    /\ problemInfo s' = None
    /\ hasDebugged s' = false
    /\ trace s' = [Abort ProcessingController; Send NO_SCREENSHOTS]
    /\ cancelOngoingRequests s' = (Normal tt, s').
Proof.
  exact (@cancel_idempotent
           (set_currentProcessingAbortController (Some new_AbortController)
              Sample.ready)
           Sample.window eq_refl eq_refl).
Defined.

(** C7.  Without a problem record the debug helper returns the failure
    [No problem info available] and has no effect on the outside: the
    request is never built. *)
Theorem debug_needs_problem (shots : list (jsstring * jsstring))
    (completion : ApiOutcome) (s : State) :
  problemInfo s = None ->
  exists s',
    processExtraScreenshotsHelper shots completion s
    = (Normal (Failure (js "No problem info available")), s')
    /\ trace s' = trace s.
Proof.
  intros P. unfold processExtraScreenshotsHelper. crunch. rewrite P.
  rewrite getLanguage_eq, loadConfig_eq. tidy. crunch.
  eexists. split; [reflexivity|]. now tidy.
Qed.

Lemma debug_needs_problem_witness :
  problemInfo Sample.ready = None
  /\ exists s',
       processExtraScreenshotsHelper Sample.shots (Replied None) Sample.ready
       = (Normal (Failure (js "No problem info available")), s')
       /\ trace s' = trace Sample.ready.
Proof.
  split; [reflexivity|].
  exact (@debug_needs_problem Sample.shots (Replied None) Sample.ready eq_refl).
Defined.


(** A successful solve does clear a queue that had an entry. *)
Example extra_queue_after_solve_run :
  let r :=
    processScreenshotsHelper Sample.shots
      (Replied (Some Sample.reply)) Sample.ready in
  extraScreenshotQueue Sample.ready = [js "extra.png"]
  /\ success (match fst r with Normal x => x | Throw _ => Failure [] end)
     = true
  /\ extraScreenshotQueue (snd r) = []
  /\ existsSync (snd r) (js "extra.png") = false.
Proof. vm_compute. repeat split. Qed.

Lemma helper_replied (shots : list (jsstring * jsstring))
    (content : option jsstring) (s : State) (w : Window) :
  mainWindow s = Some w -> isDestroyed w = false -> configured s ->
  exists s',
    processScreenshotsHelper shots (Replied content) s
    = (Normal (Success (solutionData_of (reply_text content))), s').
Proof.
  intros W D C. unfold processScreenshotsHelper. crunch.
  rewrite loadConfig_eq, getLanguage_eq. tidy. rewrite W. crunch.
  rewrite D. crunch. rewrite ensure_client_eq. tidy.
  destruct (aiClient s) as [c|] eqn:A;
    [|destruct (client_of _) as [c|] eqn:C'; [|now elim C]];
    crunch; tidy; destruct content; crunch;
    rewrite clearExtraScreenshotQueue_eq; eexists; reflexivity.
Qed.

Lemma helper_failed (shots : list (jsstring * jsstring))
    (e : Error) (s : State) (w : Window) :
  mainWindow s = Some w -> isDestroyed w = false -> configured s ->
  exists s',
    processScreenshotsHelper shots (Failed e) s
    = (Normal (Failure (solve_error e)), s').
Proof.
  intros W D C. unfold processScreenshotsHelper. crunch.
  rewrite loadConfig_eq, getLanguage_eq. tidy. rewrite W. crunch.
  rewrite D. crunch. rewrite ensure_client_eq. tidy.
  destruct (aiClient s) as [c|] eqn:A;
    [|destruct (client_of _) as [c|] eqn:C'; [|now elim C]];
    crunch; eexists; reflexivity.
Qed.

(** C3 as amended.  An upstream failure that is not a cancellation comes
    back as a tagged failure: 401 as the invalid-key message, 429 as the
    rate-limit message, 500 as the server-error message, and every other
    status, the rest of the 5xx range included, as the upstream message (or
    the generic text when there is none). *)
Theorem upstream_errors_tagged (shots : list (jsstring * jsstring))
    (e : Error) (s : State) (w : Window) :
  mainWindow s = Some w -> isDestroyed w = false -> configured s ->
  isCancel e = false ->
  exists msg s',
    processScreenshotsHelper shots (Failed e) s = (Normal (Failure msg), s')
    /\ (response_status e = Some 401%Z ->
        msg = js "Invalid API key. Please check your settings.")
    /\ (response_status e = Some 429%Z ->
        msg = js "API rate limit exceeded or insufficient credits. Please try again later.")
    /\ (response_status e = Some 500%Z ->
        msg = js "Server error. Please try again later.")
    /\ (forall c, response_status e = Some c ->
          c <> 401%Z -> c <> 429%Z -> c <> 500%Z -> msg = fallback e)
    /\ (response_status e = None -> msg = fallback e).
Proof.
  intros W D C X. destruct (helper_failed shots e W D C) as (s' & H).
  exists (solve_error e), s'. split; [assumption|].
  unfold solve_error. rewrite X.
  repeat split.
  - now intros ->.
  - now intros ->.
  - now intros ->.
  - intros c -> H1 H2 H3.
    destruct c as [|p|p]; try reflexivity.
    repeat (destruct p as [p|p|]; try reflexivity); congruence.
  - now intros ->.
Qed.

Lemma upstream_errors_tagged_witness :
  configured Sample.ready
  /\ exists msg s',
       processScreenshotsHelper Sample.shots (Failed Sample.unavailable)
         Sample.ready
       = (Normal (Failure msg), s')
       /\ msg = js "503 Service Unavailable".
Proof.
  assert (C : configured Sample.ready) by (vm_compute; discriminate).
  split; [exact C|].
  destruct (@upstream_errors_tagged Sample.shots Sample.unavailable
              Sample.ready Sample.window eq_refl eq_refl C eq_refl)
    as (msg & s' & H & _ & _ & _ & H4 & _).
  exists msg, s'. split; [exact H|].
  apply (H4 503%Z); [reflexivity | discriminate | discriminate | discriminate].
Defined.

(** C3 as stated fails: status 503 is in the 5xx range and does not come
    back as the server-error result. *)
Lemma upstream_503_not_server_error :
  (500 <= 503 <= 599)%Z
  /\ response_status Sample.unavailable = Some 503%Z
  /\ fst (processScreenshotsHelper Sample.shots (Failed Sample.unavailable)
            Sample.ready)
     = Normal (Failure (js "503 Service Unavailable"))
  /\ fst (processScreenshotsHelper Sample.shots (Failed Sample.unavailable)
            Sample.ready)
     <> Normal (Failure (js "Server error. Please try again later.")).
Proof.
  split; [lia|]. split; [reflexivity|]. split; [vm_compute; reflexivity|].
  vm_compute. discriminate.
Qed.

Lemma code_of_fenced (text body : jsstring) :
  fenced_code text body -> code_of text = trim body.
Proof.
  intros (before & head & lang & sp & tail & after & -> & F1 & F2 & F3 & L
          & N & S & F4).
  unfold code_of.
  replace (before ++ CODE ++ head ++ FENCE ++ lang ++ sp ++ body ++ FENCE
           ++ tail ++ CODE ++ after)
    with (before ++ CODE
          ++ (head ++ FENCE ++ lang ++ sp ++ body ++ FENCE ++ tail)
          ++ CODE ++ after)
    by now rewrite <- !app_assoc.
  rewrite match_section_spec by assumption.
  rewrite match_fence_spec by assumption.
  apply trim_trimStart.
Qed.

Lemma each_tagged_strings (tag : string) (l : list jsstring) :
  each_tagged tag (Some (JArr (map JStr l))) = map (app (js tag)) l.
Proof. unfold each_tagged. rewrite map_map. reflexivity. Qed.

Lemma ToString_strings (l : list jsstring) :
  ToString (JArr (map JStr l)) = join [COMMA] l.
Proof.
  cbn [ToString]. rewrite map_map. f_equal.
  rewrite <- (map_id l) at 2. now apply map_ext.
Qed.

Lemma thoughts_of_json (text : jsstring) (q a wk e : list jsstring) :
  json_thoughts text q a wk e ->
  thoughts_of text = tagged_thoughts q a wk e.
Proof.
  intros (before & block & after & o & -> & F1 & F2 & P & Q & A & W & E).
  unfold thoughts_of. rewrite match_section_spec by assumption.
  rewrite P. unfold get. rewrite Q, A, W, E.
  rewrite !each_tagged_strings. cbn [truthy].
  unfold tagged. now rewrite ToString_strings.
Qed.

(** C1 as amended.  For a reply with a fenced block in its CODE section
    and a JSON object of four string arrays in its THOUGHTS section, the
    record the helper returns has the trimmed content of the block as its
    code, and as its thoughts the questions, approaches and edge cases each
    under its tag, with the walkthrough as one entry. *)
Theorem round_trip (shots : list (jsstring * jsstring)) (s : State)
    (w : Window) (text body : jsstring) (q a wk e : list jsstring) :
  mainWindow s = Some w -> isDestroyed w = false -> configured s ->
  fenced_code text body -> json_thoughts text q a wk e ->
  exists data,
    returned (fst (processScreenshotsHelper shots (Replied (Some text)) s))
    = Some data
    /\ code data = trim body
    /\ thoughts data = tagged_thoughts q a wk e.
Proof.
  intros W D C FC JT.
  destruct (helper_replied shots (Some text) W D C) as (s' & H).
  rewrite H. exists (solutionData_of text). split; [reflexivity|].
  unfold solutionData_of; cbn [code thoughts].
  split; [now apply code_of_fenced|].
  rewrite (thoughts_of_json JT).
  replace (0 <? List.length (tagged_thoughts q a wk e))%nat with true;
    [reflexivity|].
  symmetry. apply Nat.ltb_lt. unfold tagged_thoughts.
  rewrite !length_app. simpl. lia.
Qed.

Lemma sample_fenced_code : fenced_code Sample.reply Sample.body.
Proof.
  exists [], [LF], (js "python"), [LF], [LF],
    ([LF; LF] ++ THOUGHTS ++ Sample.thoughts_block ++ THOUGHTS ++ [LF]).
  repeat split; try reflexivity. discriminate.
Qed.

Lemma sample_json_thoughts :
  json_thoughts Sample.reply [js "q1"] [js "a1"] [js "s1"; js "s2"] [js "e1"].
Proof.
  exists (CODE ++ [LF] ++ FENCE ++ js "python" ++ [LF] ++ Sample.body
          ++ FENCE ++ [LF] ++ CODE ++ [LF; LF]),
    Sample.thoughts_block, [LF].
  eexists. split; [reflexivity|]. split; [reflexivity|].
  split; [reflexivity|]. split; [vm_compute; reflexivity|].
  repeat split.
Qed.

Lemma round_trip_witness :
  configured Sample.ready
  /\ fenced_code Sample.reply Sample.body
  /\ json_thoughts Sample.reply [js "q1"] [js "a1"] [js "s1"; js "s2"]
       [js "e1"]
  /\ exists data,
       returned (fst (processScreenshotsHelper Sample.shots
                        (Replied (Some Sample.reply)) Sample.ready))
       = Some data
       /\ code data = trim Sample.body
       /\ thoughts data
          = tagged_thoughts [js "q1"] [js "a1"] [js "s1"; js "s2"] [js "e1"].
Proof.
  assert (C : configured Sample.ready) by (vm_compute; discriminate).
  split; [exact C|]. split; [exact sample_fenced_code|].
  split; [exact sample_json_thoughts|].
  exact (@round_trip Sample.shots Sample.ready Sample.window Sample.reply
           Sample.body _ _ _ _ eq_refl eq_refl C sample_fenced_code
           sample_json_thoughts).
Defined.

(** C1 as stated fails: the reply is well formed, yet the code returned is
    not the content of the block as it stands (the indentation of its
    first line and its last line break are gone), and the thoughts are not
    the entries of the four fields (each carries a tag, and the two steps
    of the walkthrough have become one entry). *)
Lemma round_trip_not_verbatim :
  fenced_code Sample.reply Sample.body
  /\ json_thoughts Sample.reply [js "q1"] [js "a1"] [js "s1"; js "s2"]
       [js "e1"]
  /\ exists data,
       returned (fst (processScreenshotsHelper Sample.shots
                        (Replied (Some Sample.reply)) Sample.ready))
       = Some data
       /\ code data = js "def f(x):" ++ [LF] ++ js "        return x"
       /\ code data <> Sample.body
       /\ thoughts data
          = [js "[QUESTIONS TO ASK] q1"; js "[SOLUTION APPROACHES] a1";
             js "[WALKTHROUGH] s1,s2"; js "[EDGE CASES] e1"]
       /\ thoughts data
          <> [js "q1"] ++ [js "a1"] ++ [js "s1"; js "s2"] ++ [js "e1"].
Proof.
  split; [exact sample_fenced_code|]. split; [exact sample_json_thoughts|].
  eexists. split; [vm_compute; reflexivity|]. cbn [code thoughts].
  repeat split; try discriminate.
Qed.

(** C2 as amended.  A reply without a fence still gives a success; its
    code is the trimmed text of the CODE section when there is one, and
    the empty string when there is none. *)
Theorem no_fence_degrades (shots : list (jsstring * jsstring)) (s : State)
    (w : Window) (text : jsstring) :
  mainWindow s = Some w -> isDestroyed w = false -> configured s ->
  includes FENCE text = false ->
  exists data,
    returned (fst (processScreenshotsHelper shots (Replied (Some text)) s))
    = Some data
    /\ code data
       = match match_section CODE text with
         | Some section => trim section
         | None => []
         end.
Proof.
  intros W D C NF.
  destruct (helper_replied shots (Some text) W D C) as (s' & H).
  rewrite H. exists (solutionData_of text). split; [reflexivity|].
  unfold solutionData_of; cbn [code]. unfold code_of.
  destruct (match_section CODE text) as [section|] eqn:M; [|reflexivity].
  apply match_section_inv in M as (x & y & ->).
  apply includes_app_l, includes_app_r in NF.
  now rewrite match_fence_none.
Qed.

Lemma no_fence_degrades_witness :
  configured Sample.ready
  /\ includes FENCE Sample.reply_with_bare_code = false
  /\ exists data,
       returned (fst (processScreenshotsHelper Sample.shots
                        (Replied (Some Sample.reply_with_bare_code))
                        Sample.ready))
       = Some data
       /\ code data
          = match match_section CODE Sample.reply_with_bare_code with
            | Some section => trim section
            | None => []
            end.
Proof.
  assert (C : configured Sample.ready) by (vm_compute; discriminate).
  split; [exact C|]. split; [reflexivity|].
  exact (@no_fence_degrades Sample.shots Sample.ready Sample.window
           Sample.reply_with_bare_code eq_refl eq_refl C eq_refl).
Defined.

(** C2 as stated fails: two replies without a fence both give a success,
    one with the empty string as its code and one with the text of its
    CODE section, so no fixed string stands in for the missing fence. *)
Lemma no_fixed_placeholder :
  let run text :=
    option_map code
      (returned (fst (processScreenshotsHelper Sample.shots
                        (Replied (Some text)) Sample.ready))) in
  includes FENCE Sample.reply_without_code = false
  /\ includes FENCE Sample.reply_with_bare_code = false
  /\ run Sample.reply_without_code = Some []
  /\ run Sample.reply_with_bare_code = Some (js "x = 1")
  /\ ~ exists placeholder,
        run Sample.reply_without_code = Some placeholder
        /\ run Sample.reply_with_bare_code = Some placeholder.
Proof.
  assert (A : option_map code
                (returned (fst (processScreenshotsHelper Sample.shots
                                  (Replied (Some Sample.reply_without_code))
                                  Sample.ready))) = Some [])
    by (vm_compute; reflexivity).
  assert (B : option_map code
                (returned (fst (processScreenshotsHelper Sample.shots
                                  (Replied (Some Sample.reply_with_bare_code))
                                  Sample.ready))) = Some (js "x = 1"))
    by (vm_compute; reflexivity).
  cbv beta zeta. rewrite A, B.
  repeat split; try reflexivity.
  intros (p & [= <-] & H). discriminate.
Qed.

End PipelineFacts.

(* ================================================================== *)
(** ** The revision with follow-up context *)
(* ================================================================== *)

Module FollowUpFacts.
Import JS Num Json World Shape Meaning ProcessingHelper StringFacts
  MethodFacts.

#[local] Opaque ConfigHelper.loadConfig getLanguage initializeAIClients
  clearExtraScreenshotQueue ensure_client.

(** In this revision a debug or follow-up request needs a record too: with
    no problem record in the main process and no entry in the debug state,
    the helper returns a failure and has no effect on the outside. *)
Lemma follow_up_needs_record (now : Z)
    (shots : list (jsstring * jsstring)) (completion : ApiOutcome)
    (isFollowUp : bool) (s : State) :
  problemInfo s = None ->
  debugState s = None \/ debugState s = Some [] ->
  exists s',
    FollowUp.processExtraScreenshotsHelper now shots completion isFollowUp s
    = (Normal
         (Failure
            (js "No problem info available. Please process the initial problem first.")),
       s')
    /\ trace s' = trace s.
Proof.
  intros P E. unfold FollowUp.processExtraScreenshotsHelper,
    FollowUp.loadDebugState. crunch.
  rewrite getLanguage_eq, loadConfig_eq. tidy. rewrite P.
  destruct E as [-> | ->]; crunch; eexists; (split; [reflexivity|]);
    now tidy.
Qed.

Lemma follow_up_needs_record_witness :
  exists s',
    FollowUp.processExtraScreenshotsHelper 0 Sample.shots (Replied None)
      true Sample.ready
    = (Normal
         (Failure
            (js "No problem info available. Please process the initial problem first.")),
       s')
    /\ trace s' = trace Sample.ready.
Proof.
  apply (@follow_up_needs_record 0 Sample.shots (Replied None) true
           Sample.ready).
  - reflexivity.
  - left. reflexivity.
Defined.

(** The solve helper of this revision clears the auxiliary queue on every
    success as well, before it reports, and leaves it alone on every
    failure as long as the main window, if there is one, can be sent to. *)
Lemma follow_up_queue_after_solve (now : Z)
    (shots : list (jsstring * jsstring)) (completion : ApiOutcome)
    (s : State) :
  (forall w, mainWindow s = Some w -> isDestroyed w = false) ->
  match FollowUp.processScreenshotsHelper now shots completion s with
  | (Normal (Success data), s') =>
      extraScreenshotQueue s' = []
      /\ exists before,
           trace s'
           = trace s ++ before ++ map Unlink (extraScreenshotQueue s)
             ++ match mainWindow s with
                | Some _ => [Send (SOLUTION_SUCCESS data)]
                | None => []
                end
           /\ ~ In (Send (SOLUTION_SUCCESS data)) before
  | (Normal (Failure _), s') =>
      extraScreenshotQueue s' = extraScreenshotQueue s
      /\ files s' = files s
  | (Throw _, _) => False
  end.
Proof.
  intros L. unfold FollowUp.processScreenshotsHelper,
    FollowUp.saveDebugState. crunch.
  rewrite loadConfig_eq, getLanguage_eq. tidy.
  rewrite ensure_client_eq. tidy.
  (destruct (aiClient s) as [c|] eqn:C;
   [|destruct (client_of _) as [c|] eqn:C']); crunch; tidy; auto;
    destruct completion as [[content|]|e]; crunch; tidy; auto;
    rewrite clearExtraScreenshotQueue_eq;
    (destruct (mainWindow s) as [w|] eqn:W;
     [rewrite (L w eq_refl)|]); crunch; tidy;
    (split; [reflexivity|]);
    eexists [_]; rewrite <- ?app_assoc, ?app_nil_r;
    (split; [reflexivity|]);
    simpl; intros [H|[]]; discriminate.
Qed.

Lemma follow_up_queue_after_solve_witness :
  match
    FollowUp.processScreenshotsHelper 0 Sample.shots
      (Failed Sample.unavailable) Sample.ready
  with
  | (Normal (Success data), s') =>
      extraScreenshotQueue s' = []
      /\ exists before,
           trace s'
           = trace Sample.ready ++ before
             ++ map Unlink (extraScreenshotQueue Sample.ready)
             ++ match mainWindow Sample.ready with
                | Some _ => [Send (SOLUTION_SUCCESS data)]
                | None => []
                end
           /\ ~ In (Send (SOLUTION_SUCCESS data)) before
  | (Normal (Failure _), s') =>
      extraScreenshotQueue s' = extraScreenshotQueue Sample.ready
      /\ files s' = files Sample.ready
  | (Throw _, _) => False
  end.
Proof.
  apply (@follow_up_queue_after_solve 0 Sample.shots
           (Failed Sample.unavailable) Sample.ready).
  intros w [= <-]. reflexivity.
Defined.

(** A main process without a record, but with an entry on the disk: the
    request goes out with the entry as its context. *)
Example follow_up_from_disk :
  let entry :=
    {| entry_problemInfo :=
         {| problem_statement := js "Two Sum"; constraints := None;
            example_input := None; example_output := None;
            solution_stub := None; notes := None |};
       entry_code := js "pass"; timestamp := 0 |} in
  let s := set_debugState (Some [entry]) Sample.ready in
  problemInfo s = None
  /\ network_calls
       (trace (snd (FollowUp.processExtraScreenshotsHelper 1 Sample.shots
                      (Replied (Some (js "- fine"))) false s)))
     = [ {| model := JStr (js "gpt-4o");
            mode :=
              DebugInContext false
                ([LF] ++ js "### PREVIOUS SOLUTION" ++ [LF] ++ FENCE
                 ++ js "python" ++ [LF] ++ js "pass" ++ [LF] ++ FENCE
                 ++ [LF; LF] ++ js "### PROBLEM INFO" ++ [LF]
                 ++ js "Two Sum" ++ [LF]);
            language := js "python";
            image_urls := [js "data:image/png;base64,QUJD"] |} ].
Proof. vm_compute. split; reflexivity. Qed.

(** Cancelling in this revision forgets the debug state as well. *)
Lemma follow_up_cancel (s : State) (w : Window) :
  mainWindow s = Some w -> isDestroyed w = false ->
  exists s',
    FollowUp.cancelOngoingRequests s = (Normal tt, s')
    /\ currentProcessingAbortController s' = None
    /\ currentExtraProcessingAbortController s' = None
    /\ problemInfo s' = None
    /\ debugState s' = None
    /\ trace s'
       = trace s ++ aborts s
         ++ (if in_flight s then [Send NO_SCREENSHOTS] else [])
    /\ FollowUp.cancelOngoingRequests s' = (Normal tt, s').
Proof.
  intros W D. destruct w as [destroyed initialized lang].
  cbn in D. subst destroyed.
  destruct s as [cf ds fl cl [p|] [x|] mw vw pinfo hd sq xq tr];
    cbn in W; subst mw;
    (eexists; split; [cbv -[app]; reflexivity|]);
    cbv -[app]; rewrite <- ?app_assoc, ?app_nil_r; cbn [app];
    rewrite ?app_nil_r; repeat split.
Qed.

Lemma follow_up_cancel_witness :
  exists s',
    FollowUp.cancelOngoingRequests
      (set_debugState (Some [])
         (set_currentExtraProcessingAbortController
            (Some new_AbortController) Sample.ready))
    = (Normal tt, s')
    /\ currentExtraProcessingAbortController s' = None
    /\ debugState s' = None.
Proof.
  destruct (@follow_up_cancel
              (set_debugState (Some [])
                 (set_currentExtraProcessingAbortController
                    (Some new_AbortController) Sample.ready))
              Sample.window eq_refl eq_refl)
    as (s' & H & _ & X & _ & D & _).
  exists s'. repeat split; assumption.
Defined.

End FollowUpFacts.

(* ================================================================== *)
(** ** What the parsers keep of a reply *)
(* ================================================================== *)

Module ReplyFacts.
Import JS Num Json World Shape Meaning Reply ProcessingHelper StringFacts
  MethodFacts PipelineFacts.

#[local] Opaque ConfigHelper.loadConfig getLanguage initializeAIClients
  clearExtraScreenshotQueue ensure_client.

Lemma drop_while_snoc (f : char -> bool) (a : jsstring) (c : char) :
  f c = false -> drop_while f (a ++ [c]) = drop_while f a ++ [c].
Proof.
  intros H. induction a as [|x a IH]; simpl; [now rewrite H|].
  destruct (f x); [assumption|reflexivity].
Qed.

(** A trimmed string neither starts nor ends with white space. *)
Lemma trim_clean (s : jsstring) :
  head_not is_space (trim s) /\ head_not is_space (rev (trim s)).
Proof.
  unfold trim, trimEnd, trimStart. split.
  - pose proof (drop_while_head is_space s) as H.
    destruct (drop_while is_space s) as [|c t]; [exact I|].
    simpl in H. simpl rev. rewrite drop_while_snoc by assumption.
    rewrite rev_app_distr. exact H.
  - rewrite rev_involutive. apply drop_while_head.
Qed.

Lemma or_else_nonempty (a b : jsstring) : b <> [] -> or_else a b <> [].
Proof. unfold or_else. destruct a; simpl; [auto|discriminate]. Qed.

(** Whatever the reply, the record has a thought, a time and a space
    complexity, and code without white space around it. *)
Lemma solutionData_usable (text : jsstring) :
  let data := solutionData_of text in
  thoughts data <> []
  /\ time_complexity data <> [] /\ space_complexity data <> []
  /\ head_not is_space (code data) /\ head_not is_space (rev (code data)).
Proof.
  cbn [solutionData_of thoughts time_complexity space_complexity code].
  split; [|split; [|split]].
  - destruct (thoughts_of text); simpl; discriminate.
  - apply or_else_nonempty. discriminate.
  - apply or_else_nonempty. discriminate.
  - unfold code_of. destruct (match_section CODE text) as [c|];
      [|now split].
    destruct (match_fence c); apply trim_clean.
Qed.

(** A record comes back only from a reply, and it is the reading of that
    reply. *)
Lemma returned_is_parsed (shots : list (jsstring * jsstring))
    (completion : ApiOutcome) (s : State) (data : SolutionData) :
  returned (fst (processScreenshotsHelper shots completion s)) = Some data ->
  exists content,
    completion = Replied content
    /\ data = solutionData_of (reply_text content).
Proof.
  unfold processScreenshotsHelper. crunch.
  rewrite loadConfig_eq, getLanguage_eq. tidy.
  destruct (mainWindow s) as [w|] eqn:W;
    [destruct (isDestroyed w) eqn:D|]; crunch; tidy;
    try discriminate;
    rewrite ensure_client_eq; tidy;
    (destruct (aiClient s) as [c|] eqn:C;
     [|destruct (client_of _) as [c|] eqn:C']); crunch; tidy;
    try discriminate;
    destruct completion as [[content|]|e]; crunch;
    rewrite ?clearExtraScreenshotQueue_eq; cbn [fst returned];
    try discriminate; intros [= <-]; eexists; split; reflexivity.
Qed.

(** Every record the solve helper returns is usable as it stands: it has
    at least one thought and a time and a space complexity that are not
    empty, and its code has no white space at either end. *)
Theorem solve_record_usable (shots : list (jsstring * jsstring))
    (completion : ApiOutcome) (s : State) (data : SolutionData) :
  returned (fst (processScreenshotsHelper shots completion s)) = Some data ->
  thoughts data <> []
  /\ time_complexity data <> [] /\ space_complexity data <> []
  /\ head_not is_space (code data) /\ head_not is_space (rev (code data)).
Proof.
  intros H. apply returned_is_parsed in H as (content & _ & ->).
  apply solutionData_usable.
Qed.

Lemma solve_record_usable_witness :
  exists data,
    returned (fst (processScreenshotsHelper Sample.shots
                     (Replied (Some Sample.reply_without_code)) Sample.ready))
    = Some data
    /\ thoughts data <> []
    /\ time_complexity data <> [] /\ space_complexity data <> []
    /\ head_not is_space (code data)
    /\ head_not is_space (rev (code data)).
Proof.
  eexists. split; [vm_compute; reflexivity|].
  apply (@solve_record_usable Sample.shots
           (Replied (Some Sample.reply_without_code)) Sample.ready).
  vm_compute. reflexivity.
Defined.

Lemma match_section_none (d text : jsstring) :
  includes d text = false -> match_section d text = None.
Proof. apply search_lit_none. Qed.

(** The record read from a reply that has none of the three delimiters:
    no code, the stock thought and the two linear complexities. *)
Theorem reply_without_sections (text : jsstring) :
  includes CODE text = false -> includes THOUGHTS text = false ->
  includes COMPLEXITY text = false ->
  solutionData_of text
  = {| code := [];
       thoughts :=
         [js "Solution approach based on efficiency and readability"];
       time_complexity := js "O(n) - Linear time complexity";
       space_complexity := js "O(n) - Linear space complexity" |}.
Proof.
  intros C T X. unfold solutionData_of, code_of, thoughts_of, complexity_of.
  now rewrite !match_section_none by assumption.
Qed.

Lemma reply_without_sections_witness :
  includes CODE Sample.reply_without_code = false
  /\ includes THOUGHTS Sample.reply_without_code = false
  /\ includes COMPLEXITY Sample.reply_without_code = false
  /\ solutionData_of Sample.reply_without_code
     = {| code := [];
          thoughts :=
            [js "Solution approach based on efficiency and readability"];
          time_complexity := js "O(n) - Linear time complexity";
          space_complexity := js "O(n) - Linear space complexity" |}.
Proof.
  repeat (split; [reflexivity|]).
  apply reply_without_sections; reflexivity.
Defined.

(** A THOUGHTS section that is not JSON, or is the JSON [null], becomes one
    thought: the trimmed section under the approaches tag. *)
Theorem thoughts_fall_back_to_text (text before block after : jsstring) :
  text = before ++ THOUGHTS ++ block ++ THOUGHTS ++ after ->
  free THOUGHTS before = true -> free THOUGHTS block = true ->
  JSON_parse (trim block) = None \/ JSON_parse (trim block) = Some JNull ->
  thoughts (solutionData_of text)
  = [js "[SOLUTION APPROACHES] " ++ trim block].
Proof.
  intros -> F1 F2 P. cbn [solutionData_of thoughts]. unfold thoughts_of.
  rewrite match_section_spec by assumption.
  destruct P as [-> | ->]; reflexivity.
Qed.

Lemma thoughts_fall_back_to_text_witness :
  let block := [LF] ++ js "- think of a hash map" ++ [LF] in
  let text := THOUGHTS ++ block ++ THOUGHTS ++ [] in
  JSON_parse (trim block) = None
  /\ thoughts (solutionData_of text)
     = [js "[SOLUTION APPROACHES] - think of a hash map"].
Proof.
  split; [vm_compute; reflexivity|].
  exact (@thoughts_fall_back_to_text
           (THOUGHTS ++ ([LF] ++ js "- think of a hash map" ++ [LF])
            ++ THOUGHTS ++ [])
           [] ([LF] ++ js "- think of a hash map" ++ [LF]) []
           eq_refl eq_refl eq_refl (or_introl eq_refl)).
Defined.

(** *** Debug replies *)

Lemma firstn_nonempty (A : Type) (n : nat) (l : list A) :
  l <> [] -> firstn (S n) l <> [].
Proof. destruct l; [congruence|discriminate]. Qed.

(** A debug record has between one and five thoughts. *)
Lemma bullet_thoughts_bounds (default : string) (text : jsstring) :
  (1 <= List.length (bullet_thoughts default text) <= 5)%nat.
Proof.
  unfold bullet_thoughts.
  destruct (bullet_matches _ true text) as [|p l] eqn:E; [simpl; lia|].
  split.
  - assert (H : firstn 5 (map strip_bullet (p :: l)) <> [])
      by (apply firstn_nonempty; discriminate).
    destruct (firstn 5 (map strip_bullet (p :: l))); [congruence|simpl; lia].
  - apply firstn_le_length.
Qed.

Lemma match_debug_fence_none (text : jsstring) :
  includes FENCE text = false -> match_debug_fence text = None.
Proof. apply search_lit_none. Qed.

(** What the debug helper answers when it gets a reply. *)
Lemma debug_replied (shots : list (jsstring * jsstring))
    (content : option jsstring) (s : State) (w : Window)
    (info : ProblemInfo) :
  mainWindow s = Some w -> isDestroyed w = false -> configured s ->
  problemInfo s = Some info ->
  exists s',
    processExtraScreenshotsHelper shots (Replied content) s
    = (Normal (Success (debugData_of (reply_text content))), s')
    /\ network_calls (trace s')
       = network_calls (trace s)
         ++ [ {| model := model_of (config_of (configFile s));
                 mode := Debug info;
                 language := ToString (language_of s);
                 image_urls := map image_url (map snd shots) |} ].
Proof.
  intros W D C P. unfold processExtraScreenshotsHelper. crunch.
  rewrite P, getLanguage_eq, loadConfig_eq. tidy. rewrite W. crunch.
  rewrite D. crunch. rewrite ensure_client_eq. tidy.
  destruct (aiClient s) as [c|] eqn:A;
    [|destruct (client_of _) as [c|] eqn:C'; [|now elim C]];
    crunch; tidy; rewrite ?D; crunch;
    destruct content; crunch; rewrite ?D; crunch;
    (eexists; split; [reflexivity|]); tidy;
    unfold network_calls; rewrite !flat_map_app; simpl;
    now rewrite ?app_nil_r.
Qed.

(** For a reply without a fence the debug helper puts the line
    [// Debug mode - see analysis below] in place of code, and whatever the
    reply it returns between one and five thoughts and the two fixed
    complexity texts. *)
Theorem debug_record_degrades (shots : list (jsstring * jsstring))
    (text : jsstring) (s : State) (w : Window) (info : ProblemInfo) :
  mainWindow s = Some w -> isDestroyed w = false -> configured s ->
  problemInfo s = Some info ->
  exists data,
    fst (processExtraScreenshotsHelper shots (Replied (Some text)) s)
    = Normal (Success data)
    /\ (includes FENCE text = false ->
        debug_code data = js "// Debug mode - see analysis below")
    /\ (1 <= List.length (debug_thoughts data) <= 5)%nat
    /\ debug_time_complexity data = js "N/A - Debug mode"
    /\ debug_space_complexity data = js "N/A - Debug mode".
Proof.
  intros W D C P.
  destruct (debug_replied shots (Some text) W D C P) as (s' & H & _).
  rewrite H. eexists. split; [reflexivity|].
  cbn [debugData_of debug_code debug_thoughts debug_time_complexity
       debug_space_complexity reply_text].
  split; [|split; [apply bullet_thoughts_bounds|split; reflexivity]].
  intros F. now rewrite match_debug_fence_none.
Qed.

Lemma debug_record_degrades_witness :
  exists data,
    fst (processExtraScreenshotsHelper Sample.shots
           (Replied (Some Sample.reply_without_code)) Sample.debugging)
    = Normal (Success data)
    /\ (1 <= List.length (debug_thoughts data) <= 5)%nat.
Proof.
  destruct (@debug_record_degrades Sample.shots Sample.reply_without_code
              Sample.debugging Sample.window Sample.two_sum)
    as (data & H & _ & T & _).
  - reflexivity.
  - reflexivity.
  - vm_compute. discriminate.
  - reflexivity.
  - exists data. split; assumption.
Defined.

End ReplyFacts.

(* ================================================================== *)
(** ** Whole runs of processScreenshots *)
(* ================================================================== *)

Module RunFacts.
Import JS Num Json World Shape Meaning Reply ProcessingHelper StringFacts
  MethodFacts PipelineFacts.
#[local] Opaque ConfigHelper.loadConfig getLanguage initializeAIClients
  clearExtraScreenshotQueue ensure_client.

Lemma filter_existsSync (t s : State) (q : list jsstring) :
  files t = files s -> filter (existsSync t) q = filter (existsSync s) q.
Proof.
  intros F. apply filter_ext. intros p. now apply existsSync_files.
Qed.

Lemma load_screenshots_files (t s : State) (q : list jsstring) :
  files t = files s -> load_screenshots t q = load_screenshots s q.
Proof.
  intros F. unfold load_screenshots, readScreenshot. now rewrite F.
Qed.

Lemma language_of_ext (t s : State) :
  configFile t = configFile s -> mainWindow t = mainWindow s ->
  language_of t = language_of s.
Proof. unfold language_of. now intros -> ->. Qed.

Ltac run := repeat (progress (crunch; tidy)).

(** The steps every run in the queue view shares, up to the call of the
    helper on the screenshots that were read. *)
Ltac enter_queue W D C V R A :=
  unfold readable in *;
  unfold processScreenshots; crunch; rewrite W;
  rewrite loadConfig_eq; tidy; rewrite (configured_key C); cbn [negb orb];
  match goal with
  | |- context [aiClient ?s] =>
      destruct (aiClient s) eqn:A; cbn [negb is_some];
      [|rewrite initializeAIClients_eq; tidy;
        destruct (client_of _) eqn:?; [|now elim C]]; crunch; tidy;
      rewrite V, D; crunch; tidy;
      (destruct (screenshotQueue s) eqn:?; [now elim R|]);
      cbn [is_nil]; crunch; tidy;
      rewrite (filter_existsSync _ s) by (tidy; reflexivity);
      (destruct (filter (existsSync s) (_ :: _)) eqn:?; [now elim R|]);
      cbn [is_nil]; crunch; tidy;
      rewrite (load_screenshots_files _ s) by (tidy; reflexivity)
  end.

Lemma solve_run (content : option jsstring) (s : State) (w : Window) :
  mainWindow s = Some w -> isDestroyed w = false -> configured s ->
  view s = queue -> readable s (screenshotQueue s) <> [] ->
  let data := solutionData_of (reply_text content) in
  exists s',
    processScreenshots (Replied content) s = (Normal tt, s')
    /\ trace s'
       = trace s
         ++ [Send INITIAL_START;
             status "Analyzing screenshots and generating solution..." 20;
             ApiCall (solve_request (readable s (screenshotQueue s)) s);
             status "Solution generated successfully" 100]
         ++ map Unlink (extraScreenshotQueue s)
         ++ [Send (SOLUTION_SUCCESS data); Send (SOLUTION_SUCCESS data)]
    /\ view s' = solutions
    /\ problemInfo s' = None
    /\ extraScreenshotQueue s' = []
    /\ currentProcessingAbortController s' = None
    /\ mainWindow s' = mainWindow s
    /\ configFile s' = configFile (settled s).
Proof.
  intros W D C V R data. enter_queue W D C V R A.
  all: (destruct (load_screenshots s (_ :: _)) eqn:L; [now elim R|]);
       cbn [is_nil]; crunch; tidy.
  all: unfold processScreenshotsHelper; crunch.
  all: rewrite loadConfig_eq, getLanguage_eq; run; rewrite W; run;
       rewrite D; run.
  all: rewrite ensure_client_eq; run; rewrite ?A; run.
  all: destruct content; run; rewrite clearExtraScreenshotQueue_eq; run;
       rewrite ?D; run.
  all: eexists; (split; [reflexivity|]); run.
  all: rewrite (language_of_ext _ (settled s)) by reflexivity; tidy.
  all: unfold status, solve_request, data; cbn [reply_text].
  all: rewrite <- !app_assoc; repeat split; congruence.
Qed.

(** processScreenshots, queue view, the model replies: the window is told
    the start, the progress and the solution; the solution is sent twice,
    once by the helper and once by its caller; the extra queue is emptied
    and the view becomes [solutions]. *)
Theorem solve_end_to_end (content : option jsstring) (s : State)
    (w : Window) :
  mainWindow s = Some w -> isDestroyed w = false -> configured s ->
  view s = queue -> readable s (screenshotQueue s) <> [] ->
  let data := solutionData_of (reply_text content) in
  exists s',
    processScreenshots (Replied content) s = (Normal tt, s')
    /\ trace s'
       = trace s
         ++ [Send INITIAL_START;
             status "Analyzing screenshots and generating solution..." 20;
             ApiCall (solve_request (readable s (screenshotQueue s)) s);
             status "Solution generated successfully" 100]
         ++ map Unlink (extraScreenshotQueue s)
         ++ [Send (SOLUTION_SUCCESS data); Send (SOLUTION_SUCCESS data)]
    /\ view s' = solutions
    /\ problemInfo s' = None
    /\ extraScreenshotQueue s' = []
    /\ currentProcessingAbortController s' = None.
Proof.
  intros W D C V R data.
  destruct (solve_run content W D C V R) as (s' & H & T & V' & P & X & A & _).
  exists s'. repeat split; assumption.
Qed.

Lemma solve_end_to_end_witness :
  exists s',
    processScreenshots (Replied (Some Sample.reply)) Sample.ready
    = (Normal tt, s')
    /\ view s' = solutions /\ extraScreenshotQueue s' = [].
Proof.
  destruct (@solve_end_to_end (Some Sample.reply) Sample.ready Sample.window)
    as (s' & H & _ & V & _ & X & _).
  - reflexivity.
  - reflexivity.
  - vm_compute. discriminate.
  - reflexivity.
  - vm_compute. discriminate.
  - exists s'. repeat split; assumption.
Defined.

(** processScreenshots, queue view, the request fails: the message of the
    helper is passed on once, as API_KEY_INVALID when it mentions "API Key"
    or "OpenAI"; the view stays [queue], and neither the problem record
    nor the extra queue nor the files change. *)
Theorem solve_failure_end_to_end (e : Error) (s : State) (w : Window) :
  mainWindow s = Some w -> isDestroyed w = false -> configured s ->
  view s = queue -> readable s (screenshotQueue s) <> [] ->
  exists s',
    processScreenshots (Failed e) s = (Normal tt, s')
    /\ trace s'
       = trace s
         ++ [Send INITIAL_START;
             status "Analyzing screenshots and generating solution..." 20;
             ApiCall (solve_request (readable s (screenshotQueue s)) s);
             Send (failure_event (solve_error e))]
    /\ view s' = queue
    /\ problemInfo s' = problemInfo s
    /\ extraScreenshotQueue s' = extraScreenshotQueue s
    /\ files s' = files s
    /\ currentProcessingAbortController s' = None.
Proof.
  intros W D C V R. enter_queue W D C V R A.
  all: (destruct (load_screenshots s (_ :: _)) eqn:L; [now elim R|]);
       cbn [is_nil]; crunch; tidy.
  all: unfold processScreenshotsHelper; crunch.
  all: rewrite loadConfig_eq, getLanguage_eq; run; rewrite W; run;
       rewrite D; run.
  all: rewrite ensure_client_eq; run; rewrite ?A; run.
  all: unfold failure_event.
  all: destruct (includes (js "API Key") (solve_error e)
                 || includes (js "OpenAI") (solve_error e)); run;
       rewrite ?D; run.
  all: eexists; (split; [reflexivity|]); run.
  all: rewrite (language_of_ext _ (settled s)) by reflexivity; tidy.
  all: unfold status, solve_request.
  all: rewrite <- !app_assoc; repeat split.
Qed.

Lemma solve_failure_end_to_end_witness :
  exists s',
    processScreenshots (Failed Sample.unavailable) Sample.ready
    = (Normal tt, s')
    /\ view s' = queue.
Proof.
  destruct (@solve_failure_end_to_end Sample.unavailable Sample.ready
              Sample.window)
    as (s' & H & _ & V & _).
  - reflexivity.
  - reflexivity.
  - vm_compute. discriminate.
  - reflexivity.
  - vm_compute. discriminate.
  - exists s'. split; assumption.
Defined.

(** processScreenshots, queue view, screenshots exist but none can be
    read: no request goes out, and the window gets the error twice, first
    the thrown object and then its message. *)
Theorem unreadable_screenshots (completion : ApiOutcome) (s : State)
    (w : Window) :
  mainWindow s = Some w -> isDestroyed w = false -> configured s ->
  view s = queue ->
  filter (existsSync s) (screenshotQueue s) <> [] ->
  readable s (screenshotQueue s) = [] ->
  exists s',
    processScreenshots completion s = (Normal tt, s')
    /\ trace s'
       = trace s
         ++ [Send INITIAL_START;
             Send (INITIAL_SOLUTION_ERROR
                     (Thrown (new_Error (js "Failed to load screenshot data"))));
             Send (INITIAL_SOLUTION_ERROR
                     (Text (js "Failed to load screenshot data")))]
    /\ view s' = queue
    /\ currentProcessingAbortController s' = None.
Proof.
  intros W D C V X R. enter_queue W D C V X A.
  all: rewrite R; cbn [is_nil]; run; rewrite ?D; run;
       cbn [isCancel new_Error message or_else nonempty js]; run;
       rewrite ?D; run.
  all: eexists; (split; [reflexivity|]); run.
  all: rewrite <- !app_assoc; repeat split.
Qed.

Lemma unreadable_screenshots_witness :
  exists s',
    processScreenshots (Replied None) Sample.damaged = (Normal tt, s')
    /\ view s' = queue.
Proof.
  destruct (@unreadable_screenshots (Replied None) Sample.damaged
              Sample.window)
    as (s' & H & _ & V & _).
  - reflexivity.
  - reflexivity.
  - vm_compute. discriminate.
  - reflexivity.
  - vm_compute. discriminate.
  - reflexivity.
  - exists s'. split; assumption.
Defined.

(** The steps every run in the solutions view shares, up to the call of
    the helper. *)
Ltac enter_solutions W D C V X R A :=
  unfold debug_shots in *;
  unfold processScreenshots; crunch; rewrite W;
  rewrite loadConfig_eq; tidy; rewrite (configured_key C); cbn [negb orb];
  match goal with
  | |- context [aiClient ?s] =>
      destruct (aiClient s) eqn:A; cbn [negb is_some];
      [|rewrite initializeAIClients_eq; tidy;
        destruct (client_of _) eqn:?; [|now elim C]]; crunch; tidy;
      rewrite V; crunch; tidy;
      (destruct (extraScreenshotQueue s) eqn:?; [now elim X|]);
      cbn [is_nil]; crunch; tidy;
      rewrite (filter_existsSync _ s) by (tidy; reflexivity);
      (destruct (filter (existsSync s) (_ :: _)) eqn:?; [now elim X|]);
      cbn [is_nil]; crunch; tidy; rewrite D; run;
      rewrite (load_screenshots_files _ s) by (tidy; reflexivity);
      (destruct (load_screenshots s (_ ++ _)) eqn:?; [now elim R|]);
      cbn [is_nil]; crunch; tidy
  end.

(** processScreenshots, solutions view, a problem record is kept and the
    model replies: the window is told the start, three progress steps and
    the debug record; the request carries the screenshots of both queues;
    the debugged flag is set, and the view, the record and the queues are
    as before. *)
Theorem debug_end_to_end (content : option jsstring) (info : ProblemInfo)
    (s : State) (w : Window) :
  mainWindow s = Some w -> isDestroyed w = false -> configured s ->
  view s = solutions ->
  filter (existsSync s) (extraScreenshotQueue s) <> [] ->
  debug_shots s <> [] ->
  problemInfo s = Some info ->
  exists s',
    processScreenshots (Replied content) s = (Normal tt, s')
    /\ trace s'
       = trace s
         ++ [Send DEBUG_START;
             status "Processing debug screenshots..." 30;
             status "Analyzing code and generating debug feedback..." 60;
             ApiCall (debug_request info s);
             status "Debug analysis complete" 100;
             Send (DEBUG_SUCCESS (debugData_of (reply_text content)))]
    /\ hasDebugged s' = true
    /\ view s' = solutions
    /\ problemInfo s' = Some info
    /\ screenshotQueue s' = screenshotQueue s
    /\ extraScreenshotQueue s' = extraScreenshotQueue s
    /\ currentExtraProcessingAbortController s' = None.
Proof.
  intros W D C V X R P. enter_solutions W D C V X R A.
  all: unfold processExtraScreenshotsHelper; crunch; tidy; rewrite P.
  all: rewrite getLanguage_eq; run; rewrite loadConfig_eq; run;
       rewrite W; run; rewrite D; run.
  all: rewrite ensure_client_eq; run; rewrite ?A; run; rewrite ?D; run.
  all: destruct content; run; rewrite ?D; run.
  all: eexists; (split; [reflexivity|]); run.
  all: rewrite ?(language_of_ext _ (settled s)) by reflexivity; tidy.
  all: unfold status, debug_request, debug_shots; cbn [reply_text].
  all: repeat match goal with
              | H : ?x = _ :: _ |- context [?x] => rewrite H
              end.
  all: rewrite <- !app_assoc; repeat split; congruence.
Qed.

Lemma debug_end_to_end_witness :
  exists s',
    processScreenshots (Replied (Some Sample.reply)) Sample.debugging
    = (Normal tt, s')
    /\ hasDebugged s' = true.
Proof.
  destruct (@debug_end_to_end (Some Sample.reply) Sample.two_sum
              Sample.debugging Sample.window)
    as (s' & H & _ & B & _).
  - reflexivity.
  - reflexivity.
  - vm_compute. discriminate.
  - reflexivity.
  - vm_compute. discriminate.
  - vm_compute. discriminate.
  - reflexivity.
  - exists s'. split; assumption.
Defined.

Lemma debug_without_record_run (completion : ApiOutcome) (s : State)
    (w : Window) :
  mainWindow s = Some w -> isDestroyed w = false -> configured s ->
  view s = solutions ->
  filter (existsSync s) (extraScreenshotQueue s) <> [] ->
  debug_shots s <> [] ->
  problemInfo s = None ->
  exists s',
    processScreenshots completion s = (Normal tt, s')
    /\ trace s'
       = trace s
         ++ [Send DEBUG_START;
             Send (DEBUG_ERROR (js "No problem info available"))]
    /\ hasDebugged s' = hasDebugged s
    /\ currentExtraProcessingAbortController s' = None.
Proof.
  intros W D C V X R P. enter_solutions W D C V X R A.
  all: unfold processExtraScreenshotsHelper; crunch; tidy; rewrite P.
  all: rewrite getLanguage_eq; run; rewrite loadConfig_eq; run;
       rewrite ?D; run.
  all: eexists; (split; [reflexivity|]); run.
  all: rewrite <- !app_assoc; repeat split.
Qed.

(** A solve followed by a debug run, as this revision has them: the solve
    always stores a null problem record, so whatever is captured next, the
    debug run reports [No problem info available] and sends no request. *)
Theorem debug_after_solve (content : option jsstring)
    (completion : ApiOutcome) (s s1 s2 : State) (w : Window) :
  mainWindow s = Some w -> isDestroyed w = false -> configured s ->
  view s = queue -> readable s (screenshotQueue s) <> [] ->
  processScreenshots (Replied content) s = (Normal tt, s1) ->
  mainWindow s2 = mainWindow s1 -> configFile s2 = configFile s1 ->
  view s2 = view s1 -> problemInfo s2 = problemInfo s1 ->
  filter (existsSync s2) (extraScreenshotQueue s2) <> [] ->
  debug_shots s2 <> [] ->
  exists s3,
    processScreenshots completion s2 = (Normal tt, s3)
    /\ trace s3
       = trace s2
         ++ [Send DEBUG_START;
             Send (DEBUG_ERROR (js "No problem info available"))]
    /\ hasDebugged s3 = hasDebugged s2.
Proof.
  intros W D C V R H W2 F2 V2 P2 X2 R2.
  destruct (solve_run content W D C V R)
    as (s' & H' & _ & V' & P' & _ & _ & W' & F').
  rewrite H in H'. injection H' as <-.
  assert (C2 : configured s2).
  { unfold configured. now rewrite F2, F', config_of_settled. }
  destruct (@debug_without_record_run completion s2 w)
    as (s3 & H3 & T3 & B3 & _); try congruence.
  exists s3. repeat split; assumption.
Qed.

Lemma debug_after_solve_witness :
  exists s3,
    processScreenshots (Replied None) Sample.next_capture = (Normal tt, s3)
    /\ trace s3
       = trace Sample.next_capture
         ++ [Send DEBUG_START;
             Send (DEBUG_ERROR (js "No problem info available"))]
    /\ hasDebugged s3 = hasDebugged Sample.next_capture.
Proof.
  apply (@debug_after_solve (Some Sample.reply) (Replied None) Sample.ready
           Sample.after_solve Sample.next_capture Sample.window).
  - reflexivity.
  - reflexivity.
  - vm_compute. discriminate.
  - reflexivity.
  - vm_compute. discriminate.
  - vm_compute. reflexivity.
  - vm_compute. reflexivity.
  - vm_compute. reflexivity.
  - vm_compute. reflexivity.
  - vm_compute. reflexivity.
  - vm_compute. discriminate.
  - vm_compute. discriminate.
Defined.

Lemma network_calls_app (a b : list Effect) :
  network_calls (a ++ b) = network_calls a ++ network_calls b.
Proof. apply flat_map_app. Qed.

Lemma network_calls_unlinks (q : list jsstring) :
  network_calls (map Unlink q) = [].
Proof. induction q; [reflexivity|assumption]. Qed.

Ltac calls :=
  rewrite ?network_calls_app, ?network_calls_unlinks;
  cbn [network_calls flat_map app]; rewrite ?app_nil_r;
  first
    [ exists []; rewrite app_nil_r;
      split; [reflexivity|split; [cbn; lia|constructor]]
    | eexists; split; [reflexivity|]; split; [cbn; lia|];
      repeat constructor; cbn [image_urls map]; discriminate ].

Ltac settle :=
  cbn [snd fst]; run; repeat split; try reflexivity; try assumption;
  try calls.

Lemma helper_quiet (p : jsstring * jsstring) (shots : list (jsstring * jsstring))
    (completion : ApiOutcome) (s : State) :
  quiet s (snd (processScreenshotsHelper (p :: shots) completion s)).
Proof.
  unfold quiet, processScreenshotsHelper. crunch.
  rewrite loadConfig_eq, getLanguage_eq. run.
  destruct (mainWindow s) as [w|] eqn:W; run;
    [destruct (isDestroyed w) eqn:D; run|].
  all: rewrite ?ensure_client_eq; run.
  all: try (destruct (aiClient s) eqn:A; run;
            [|destruct (client_of _) eqn:E; run]).
  all: try (destruct completion as [[content|]|err]; run).
  all: rewrite ?clearExtraScreenshotQueue_eq; run; rewrite ?D; run.
  all: settle.
Qed.

Lemma extra_helper_quiet (p : jsstring * jsstring)
    (shots : list (jsstring * jsstring)) (completion : ApiOutcome)
    (s : State) :
  quiet s (snd (processExtraScreenshotsHelper (p :: shots) completion s)).
Proof.
  unfold quiet, processExtraScreenshotsHelper. crunch.
  rewrite getLanguage_eq. run. rewrite loadConfig_eq. run.
  destruct (problemInfo s) as [info|] eqn:P; run.
  all: try (destruct (mainWindow s) as [w|] eqn:W; run;
            [destruct (isDestroyed w) eqn:D; run|]).
  all: rewrite ?ensure_client_eq; run.
  all: try (destruct (aiClient s) eqn:A; run;
            [|destruct (client_of _) eqn:E; run]).
  all: rewrite ?D; run.
  all: try (destruct completion as [[content|]|err]; run).
  all: rewrite ?D; run.
  all: settle.
Qed.

Ltac norm_calls :=
  rewrite ?network_calls_app, ?network_calls_unlinks;
  cbn [network_calls flat_map app]; rewrite ?app_nil_r.

Ltac ctrl :=
  first [left; reflexivity | right; reflexivity
        | right; congruence | left; congruence].

Ltac net :=
  first
    [ calls
    | match goal with
      | Q : network_calls _ = _ ++ ?l |- _ =>
          exists l; rewrite Q; repeat split; assumption
      end ].

Ltac close :=
  unfold contained; cbn [snd fst]; run; norm_calls;
  split; [ctrl|split; [ctrl|net]].

Ltac call_helper :=
  match goal with
  | |- context [processScreenshotsHelper (?p :: ?l) ?c ?t] =>
      generalize (helper_quiet p l c t);
      destruct (processScreenshotsHelper (p :: l) c t) as [r u]
  | |- context [processExtraScreenshotsHelper (?p :: ?l) ?c ?t] =>
      generalize (extra_helper_quiet p l c t);
      destruct (processExtraScreenshotsHelper (p :: l) c t) as [r u]
  end;
  unfold quiet; cbn [snd]; run; norm_calls;
  intros (Q1 & Q2 & Q3 & calls & Q4 & Q5 & Q6).

(** Whatever the state and however the request ends, a run of
    processScreenshots leaves no abort controller behind that was not
    there before, and it sends at most one request, with at least one
    image in it. *)
Theorem run_contained (completion : ApiOutcome) (s : State) :
  let s' := snd (processScreenshots completion s) in
  (currentProcessingAbortController s' = None
   \/ currentProcessingAbortController s'
      = currentProcessingAbortController s)
  /\ (currentExtraProcessingAbortController s' = None
      \/ currentExtraProcessingAbortController s'
         = currentExtraProcessingAbortController s)
  /\ exists l,
       network_calls (trace s') = network_calls (trace s) ++ l
       /\ (List.length l <= 1)%nat
       /\ Forall (fun r => image_urls r <> []) l.
Proof.
  cbv zeta. change (contained s (snd (processScreenshots completion s))).
  unfold processScreenshots. crunch.
  destruct (mainWindow s) as [w|] eqn:W; [|close].
  rewrite loadConfig_eq. tidy.
  destruct (isDestroyed w) eqn:D.
  all: destruct (negb (truthy (obj_get (js "aiApiKey")
                                 (config_of (configFile s)))))
         eqn:K; cbn [orb].
  all: destruct (aiClient s) eqn:A; cbn [negb is_some orb].
  all: rewrite ?initializeAIClients_eq; run.
  all: try (destruct (client_of _) eqn:E; run).
  all: rewrite ?D; run.
  all: try (destruct (view s) eqn:V; run; rewrite ?D; run).
  all: try match goal with
           | |- context [is_nil (screenshotQueue ?x)] =>
               destruct (screenshotQueue x) eqn:SQ
           | |- context [is_nil (extraScreenshotQueue ?x)] =>
               destruct (extraScreenshotQueue x) eqn:XQ
           end; cbn [is_nil]; run; rewrite ?D; run.
  all: try match goal with
           | |- context [is_nil (filter ?f ?q)] => destruct (filter f q) eqn:F
           end; cbn [is_nil]; run; rewrite ?D; run.
  all: try match goal with
           | |- context [is_nil (load_screenshots ?t ?q)] =>
               destruct (load_screenshots t q) eqn:L
           end; cbn [is_nil]; run; rewrite ?D; run.
  all: cbn [isCancel new_Error message]; run; rewrite ?D; run.
  all: try close.
  all: call_helper; destruct r as [[data|err]|e]; run; rewrite ?D; run.
  all: repeat (match goal with
               | |- context [if ?b then _ else _] => destruct b eqn:?
               end; run; rewrite ?D; run).
  all: close.
Qed.

End RunFacts.

(* ================================================================== *)
(** ** ConfigHelper.ts: the key, the language, repeated loads *)
(* ================================================================== *)

Module KeyFacts.
Import JS Num Json World Shape Meaning ProcessingHelper StringFacts
  MethodFacts ConfigFacts PipelineFacts ReplyFacts.
#[local] Opaque ConfigHelper.loadConfig getLanguage initializeAIClients
  clearExtraScreenshotQueue ensure_client.

(** loadConfig leaves a configuration file behind, and a second call
    answers the same configuration and changes nothing. *)
Theorem loadConfig_twice (s : State) :
  exists c s',
    ConfigHelper.loadConfig s = (Normal c, s')
    /\ configFile s' <> None
    /\ ConfigHelper.loadConfig s' = (Normal c, s').
Proof.
  exists (config_of (configFile s)), (settled s).
  rewrite !loadConfig_eq, settled_idem, config_of_settled.
  repeat split. unfold settled.
  destruct (configFile s) eqn:E; [now rewrite E|discriminate].
Qed.

(** initializeAIClients never throws, and running it again changes
    nothing; it leaves no client exactly when the key or the endpoint of
    the configuration is falsy. *)
Theorem initializeAIClients_twice (s : State) :
  exists s',
    initializeAIClients s = (Normal tt, s')
    /\ initializeAIClients s' = (Normal tt, s')
    /\ (aiClient s' = None
        <-> truthy (obj_get (js "aiApiKey") (config_of (configFile s)))
            && truthy (obj_get (js "aiEndpoint") (config_of (configFile s)))
            = false).
Proof.
  rewrite initializeAIClients_eq. eexists. split; [reflexivity|].
  rewrite initializeAIClients_eq. tidy. rewrite ?config_of_settled.
  split.
  - reflexivity.
  - unfold client_of.
    destruct (obj_get (js "aiApiKey") _) as [k|] eqn:K;
      [|now cbn].
    destruct (obj_get (js "aiEndpoint") _) as [e|] eqn:E;
      [|split; [intros _; apply andb_false_r|reflexivity]].
    destruct (truthy (Some k) && truthy (Some e)); split; congruence.
Qed.

(** *** The key *)

Lemma trim_idem (s : jsstring) : trim (trim s) = trim s.
Proof.
  unfold trim at 1. unfold trimStart, trimEnd.
  destruct (trim_clean s) as [H1 H2].
  assert (A : drop_while is_space (trim s) = trim s).
  { destruct (trim s) as [|c t]; [reflexivity|]. simpl in *. now rewrite H1. }
  rewrite A.
  assert (B : drop_while is_space (rev (trim s)) = rev (trim s)).
  { destruct (rev (trim s)) as [|c t]; [reflexivity|]. simpl in *.
    now rewrite H2. }
  rewrite B. apply rev_involutive.
Qed.

(** isValidApiKeyFormat looks at the trimmed key only; a key it accepts
    has, once trimmed, the prefix [sk-] and then at least 32 characters,
    all of them letters or digits. *)
Theorem isValidApiKeyFormat_shape (apiKey : jsstring) :
  ConfigHelper.isValidApiKeyFormat (trim apiKey)
  = ConfigHelper.isValidApiKeyFormat apiKey
  /\ (ConfigHelper.isValidApiKeyFormat apiKey = true ->
      exists rest,
        trim apiKey = js "sk-" ++ rest
        /\ (32 <= List.length rest)%nat
        /\ forallb ConfigHelper.is_alnum rest = true).
Proof.
  unfold ConfigHelper.isValidApiKeyFormat. cbv zeta. rewrite trim_idem.
  split; [reflexivity|].
  intros H. apply andb_prop in H as [H L]. apply andb_prop in H as [P F].
  exists (skipn 3 (trim apiKey)). repeat split.
  - change (js "sk-") with [115; 107; 45]%N in *.
    destruct (trim apiKey) as [|a [|b [|c t]]]; cbn [starts_with] in P;
      rewrite ?andb_false_r in P; try discriminate.
    apply andb_prop in P as [A P]. apply andb_prop in P as [B P].
    apply andb_prop in P as [C _]. apply N.eqb_eq in A, B, C.
    now subst.
  - now apply Nat.leb_le.
  - assumption.
Qed.

Lemma drop_while_app_head (f : char -> bool) (a b : jsstring) (c : char) :
  f c = false -> drop_while f (a ++ c :: b) = drop_while f a ++ c :: b.
Proof.
  intros H. induction a as [|x a IH]; simpl; [now rewrite H|].
  destruct (f x); [assumption|reflexivity].
Qed.

Lemma trim_between (c d : char) (p t : jsstring) :
  is_space c = false -> is_space d = false ->
  trim (c :: p ++ d :: t)
  = c :: p ++ d :: rev (drop_while is_space (rev t)).
Proof.
  intros C D. unfold trim, trimStart, trimEnd. cbn [drop_while].
  rewrite C. change (c :: p ++ d :: t) with ((c :: p) ++ d :: t).
  rewrite rev_app_distr. cbn [rev]. rewrite <- (app_assoc (rev t)).
  cbn [app]. rewrite drop_while_app_head by assumption.
  rewrite rev_app_distr. cbn [rev]. rewrite rev_app_distr, rev_involutive.
  cbn [rev app]. rewrite <- !app_assoc. reflexivity.
Qed.

(** The keys that begin with [sk-proj-] are all rejected: a hyphen is not
    among the characters the expression lets follow the prefix. *)
Theorem project_keys_rejected (tail : jsstring) :
  ConfigHelper.isValidApiKeyFormat (js "sk-proj-" ++ tail) = false.
Proof.
  unfold ConfigHelper.isValidApiKeyFormat. cbv zeta.
  change (js "sk-proj-" ++ tail)
    with (115 :: [107; 45; 112; 114; 111; 106] ++ 45 :: tail)%N.
  rewrite trim_between by reflexivity. reflexivity.
Qed.

(** *** hasApiKey *)

(** hasApiKey answers [true] only for a string with something besides
    white space in it, [false] for a falsy value or a blank string, and
    throws for any other value. *)
Theorem hasApiKey_cases (s : State) :
  let key := obj_get (js "aiApiKey") (config_of (configFile s)) in
  match fst (ConfigHelper.hasApiKey s) with
  | Normal true => exists k, key = Some (JStr k) /\ trim k <> []
  | Normal false =>
      truthy key = false \/ exists k, key = Some (JStr k) /\ trim k = []
  | Throw _ => truthy key = true /\ forall k, key <> Some (JStr k)
  end.
Proof.
  cbv zeta. unfold ConfigHelper.hasApiKey, bind. rewrite loadConfig_eq.
  destruct (obj_get (js "aiApiKey") _) as [[| b | x | k | l | o]|];
    cbn [truthy]; unfold ret, throw; cbn [fst].
  - now left.
  - destruct b; cbn [fst]; [split; [reflexivity|discriminate]|now left].
  - destruct (Num.truthy x); cbn [fst];
      [split; [reflexivity|discriminate]|now left].
  - destruct k as [|c k]; cbn [nonempty andb]; [now left|].
    destruct (trim (c :: k)) as [|c' k'] eqn:T; cbn.
    + right. now exists (c :: k).
    + exists (c :: k). split; [reflexivity|]. rewrite T. discriminate.
  - split; [reflexivity|discriminate].
  - split; [reflexivity|discriminate].
  - now left.
Qed.

(** A key of white space only: hasApiKey says there is none, yet the
    client is built with it as soon as there is an endpoint. *)
Theorem blank_key_builds_client (s : State) (key : jsstring) :
  obj_get (js "aiApiKey") (config_of (configFile s)) = Some (JStr key) ->
  key <> [] -> trim key = [] ->
  truthy (obj_get (js "aiEndpoint") (config_of (configFile s))) = true ->
  fst (ConfigHelper.hasApiKey s) = Normal false
  /\ exists s',
       initializeAIClients s = (Normal tt, s') /\ aiClient s' <> None.
Proof.
  intros K N T E. split.
  - unfold ConfigHelper.hasApiKey, bind. rewrite loadConfig_eq, K.
    destruct key; [congruence|]. rewrite T. reflexivity.
  - rewrite initializeAIClients_eq. eexists. split; [reflexivity|].
    tidy. unfold client_of. rewrite K.
    destruct (obj_get (js "aiEndpoint") _) as [e|]; [|discriminate].
    rewrite E. destruct key; [congruence|]. discriminate.
Qed.

Lemma blank_key_builds_client_witness :
  fst (ConfigHelper.hasApiKey
         (set_configFile (Some (Sample.dq "{ 'aiApiKey': '  ' }"))
            Sample.fresh))
  = Normal false.
Proof.
  apply (@blank_key_builds_client
           (set_configFile (Some (Sample.dq "{ 'aiApiKey': '  ' }"))
              Sample.fresh)
           (js "  ")).
  - vm_compute. reflexivity.
  - discriminate.
  - vm_compute. reflexivity.
  - vm_compute. reflexivity.
Defined.

(** *** getLanguage *)

(** ConfigHelper.getLanguage never answers a falsy language, and where the
    file stores a truthy one the method of ProcessingHelper answers the
    same. *)
Theorem config_language (s : State) :
  exists l,
    ConfigHelper.getLanguage s = (Normal l, settled s)
    /\ truthy (Some l) = true
    /\ (truthy (obj_get (js "language") (config_of (configFile s))) = true ->
        getLanguage s = (Normal l, settled s)).
Proof.
  unfold ConfigHelper.getLanguage, bind, ret. rewrite loadConfig_eq.
  rewrite getLanguage_eq. unfold language_of.
  destruct (obj_get (js "language") _) as [l|].
  - destruct (truthy (Some l)) eqn:T.
    + exists l. repeat split. assumption.
    + eexists. split; [reflexivity|]. split; [reflexivity|discriminate].
  - eexists. split; [reflexivity|]. split; [reflexivity|discriminate].
Qed.

End KeyFacts.

(* ================================================================== *)
(** ** The revision with follow-up context: what is stored *)
(* ================================================================== *)

Module StateFacts.
Import JS Num Json World Shape Meaning ProcessingHelper StringFacts
  MethodFacts PipelineFacts ReplyFacts RunFacts.
#[local] Opaque ConfigHelper.loadConfig getLanguage initializeAIClients
  clearExtraScreenshotQueue ensure_client.

(** *** The problem statement *)

Lemma search_inv (A : Type) (m : jsstring -> option A) (s : jsstring) (r : A) :
  search m s = Some r -> exists t, m t = Some r.
Proof.
  induction s as [|c s IH]; simpl.
  - destruct (m []) eqn:E; [intros [= <-]; eauto|discriminate].
  - destruct (m (c :: s)) eqn:E; [intros [= <-]; eauto|assumption].
Qed.

Lemma greedy_star_inv (A : Type) (cls : char -> bool)
    (k : jsstring -> option A) (s : jsstring) (r : A) :
  greedy_star cls k s = Some r -> exists t, k t = Some r.
Proof.
  induction s as [|c s IH]; simpl; [eauto|].
  destruct (cls c); [|eauto].
  destruct (greedy_star cls k s) eqn:E; [intros [= <-]; eauto|eauto].
Qed.

Lemma trim_sub (s : jsstring) :
  exists a b, s = a ++ trim s ++ b.
Proof.
  assert (D : forall f t, exists a, t = a ++ drop_while f t).
  { intros f t. induction t as [|c t [a IH]]; [now exists []|]. simpl.
    destruct (f c); [exists (c :: a); simpl; congruence|now exists []]. }
  unfold trim, trimEnd, trimStart.
  destruct (D is_space s) as [a Ha].
  destruct (D is_space (rev (drop_while is_space s))) as [b Hb].
  exists a, (rev b). rewrite <- rev_app_distr, <- Hb, rev_involutive.
  exact Ha.
Qed.

Lemma take_while_all_true (f : char -> bool) (s : jsstring) :
  forallb f (take_while f s) = true.
Proof.
  induction s as [|c s IH]; [reflexivity|]. simpl.
  destruct (f c) eqn:E; [simpl; now rewrite E|reflexivity].
Qed.

Lemma forallb_firstn (f : char -> bool) (n : nat) (s : jsstring) :
  forallb f s = true -> forallb f (firstn n s) = true.
Proof.
  revert n. induction s as [|c s IH]; intros [|n]; simpl; auto.
  intros H. apply andb_prop in H as [-> H]. simpl. auto.
Qed.

(** What the expression captures: up to 500 characters of one line. *)
Lemma extracted_line (responseText statement : jsstring) :
  FollowUp.extractProblemStatement responseText = Some statement ->
  exists m,
    statement = trim m
    /\ (List.length m <= 500)%nat /\ forallb not_LF m = true.
Proof.
  unfold FollowUp.extractProblemStatement.
  destruct (search _ responseText) as [m|] eqn:S; [|discriminate].
  intros [= <-]. exists m. split; [reflexivity|].
  apply search_inv in S as [t S]. unfold lit_ci in S.
  destruct (starts_with_ci _ t); [|discriminate].
  unfold greedy_plus in S.
  destruct (skipn _ t) as [|c u]; [discriminate|].
  destruct (FollowUp.is_colon_or_space c); [|discriminate].
  apply greedy_star_inv in S as [v S]. cbv zeta in S.
  destruct (20 <=? _)%nat; [|discriminate].
  assert (M : m = firstn 500 (take_while not_LF v)) by congruence.
  rewrite M. split; [apply firstn_le_length|].
  apply forallb_firstn, take_while_all_true.
Qed.

(** What extractProblemStatement finds is at most 500 characters of one
    line, without white space at either end. *)
Theorem extractProblemStatement_bounds (responseText statement : jsstring) :
  FollowUp.extractProblemStatement responseText = Some statement ->
  (List.length statement <= 500)%nat
  /\ forallb not_LF statement = true
  /\ head_not is_space statement
  /\ head_not is_space (rev statement).
Proof.
  intros H. apply extracted_line in H as (m & -> & L & F).
  destruct (trim_sub m) as (a & b & E).
  rewrite E in L, F. rewrite !length_app in L.
  rewrite !forallb_app in F.
  apply andb_prop in F as [_ F]. apply andb_prop in F as [F _].
  split; [lia|]. split; [assumption|]. apply trim_clean.
Qed.

Lemma extractProblemStatement_bounds_witness :
  (List.length (js "Given an array of integers, find two that sum to k.")
   <= 500)%nat.
Proof.
  apply (@extractProblemStatement_bounds
           (js "The problem: Given an array of integers, find two that sum to k.  "
            ++ [LF] ++ js "More text")
           (js "Given an array of integers, find two that sum to k.")).
  vm_compute. reflexivity.
Defined.

Lemma stored_statement_bounds (text : jsstring) :
  stored_statement text <> []
  /\ (List.length (stored_statement text) <= 500)%nat.
Proof.
  unfold stored_statement. split; [apply or_else_nonempty; discriminate|].
  destruct (FollowUp.extractProblemStatement text) as [st|] eqn:E.
  - apply extracted_line in E as (m & -> & L & _).
    unfold or_else. destruct (nonempty (trim m)); [|vm_compute; lia].
    destruct (trim_sub m) as (a & b & E). rewrite E in L.
    rewrite !length_app in L. lia.
  - vm_compute. lia.
Qed.

Lemma solve_persists_run (now : Z) (shots : list (jsstring * jsstring))
    (content : option jsstring) (s : State) :
  configured s ->
  (forall w, mainWindow s = Some w -> isDestroyed w = false) ->
  let data := FollowUp.solutionData_of (reply_text content) in
  let info :=
    {| problem_statement := stored_statement (reply_text content);
       constraints := None; example_input := None; example_output := None;
       solution_stub := None; notes := None |} in
  exists s',
    FollowUp.processScreenshotsHelper now shots (Replied content) s
    = (Normal (Success data), s')
    /\ debugState s'
       = Some [ {| entry_problemInfo := info; entry_code := code data;
                   timestamp := now |} ]
    /\ problemInfo s' = Some info
    /\ configFile s' = configFile (settled s)
    /\ mainWindow s' = mainWindow s
    /\ network_calls (trace s')
       = network_calls (trace s)
         ++ [ {| model := model_of (config_of (configFile s));
                 mode := InitialSolve;
                 language := ToString (language_of s);
                 image_urls := map image_url (map snd shots) |} ].
Proof.
  intros C L data info. unfold FollowUp.processScreenshotsHelper,
    FollowUp.saveDebugState. crunch.
  rewrite loadConfig_eq, getLanguage_eq. tidy.
  rewrite ensure_client_eq. tidy.
  (destruct (aiClient s) as [c|] eqn:A;
   [|destruct (client_of _) as [c|] eqn:C'; [|now elim C]]); run;
    destruct content as [text|]; run;
    rewrite clearExtraScreenshotQueue_eq; run;
    (destruct (mainWindow s) as [w|] eqn:W;
     [rewrite (L w eq_refl)|]); run;
    (eexists; split; [reflexivity|]); run;
    rewrite ?network_calls_app, ?network_calls_unlinks;
    cbn [network_calls flat_map app]; rewrite ?app_nil_r;
    repeat split; assumption.
Qed.

(** A solve of this revision that gets a reply stores exactly one entry in
    the debug state, replacing what was there, and the same record in the
    main process; its statement is not empty and has at most 500
    characters, and its code is the code that is reported. *)
Theorem solve_persists (now : Z) (shots : list (jsstring * jsstring))
    (content : option jsstring) (s : State) :
  configured s ->
  (forall w, mainWindow s = Some w -> isDestroyed w = false) ->
  exists s' data entry,
    FollowUp.processScreenshotsHelper now shots (Replied content) s
    = (Normal (Success data), s')
    /\ debugState s' = Some [entry]
    /\ problemInfo s' = Some (entry_problemInfo entry)
    /\ entry_code entry = code data
    /\ timestamp entry = now
    /\ problem_statement (entry_problemInfo entry) <> []
    /\ (List.length (problem_statement (entry_problemInfo entry)) <= 500)%nat
    /\ fst (FollowUp.hasPreviousSolution s') = Normal true.
Proof.
  intros C L.
  destruct (solve_persists_run now shots content C L)
    as (s' & H & D & P & _).
  eexists s', _, _. split; [exact H|]. split; [exact D|].
  split; [exact P|]. cbn [entry_code timestamp entry_problemInfo
                          problem_statement].
  destruct (stored_statement_bounds (reply_text content)) as [N B].
  repeat split; try assumption.
  unfold FollowUp.hasPreviousSolution, FollowUp.loadDebugState, bind, gets,
    ret. cbn [fst]. now rewrite D.
Qed.

Lemma solve_persists_witness :
  exists s' data entry,
    FollowUp.processScreenshotsHelper 7 Sample.shots
      (Replied (Some Sample.reply)) Sample.ready
    = (Normal (Success data), s')
    /\ debugState s' = Some [entry].
Proof.
  destruct (@solve_persists 7 Sample.shots (Some Sample.reply) Sample.ready)
    as (s' & data & entry & H & D & _).
  - vm_compute. discriminate.
  - intros w [= <-]. reflexivity.
  - exists s', data, entry. split; assumption.
Defined.

(** A solve followed by a debug or follow-up request, as this revision
    has them: the record the solve stored is found, and the request goes
    out with the new screenshots. *)
Theorem follow_up_after_solve (now now' : Z)
    (shots shots' : list (jsstring * jsstring)) (content : option jsstring)
    (completion : ApiOutcome) (isFollowUp : bool) (s : State) :
  configured s ->
  (forall w, mainWindow s = Some w -> isDestroyed w = false) ->
  exists s1 data,
    FollowUp.processScreenshotsHelper now shots (Replied content) s
    = (Normal (Success data), s1)
    /\ exists request,
         network_calls
           (trace (snd (FollowUp.processExtraScreenshotsHelper now' shots'
                          completion isFollowUp s1)))
         = network_calls (trace s1) ++ [request]
         /\ image_urls request = map image_url (map snd shots').
Proof.
  intros C L.
  destruct (solve_persists_run now shots content C L)
    as (s1 & H & D & P & F & W & _).
  eexists s1, _. split; [exact H|].
  assert (C1 : configured s1).
  { unfold configured. now rewrite F, config_of_settled. }
  unfold FollowUp.processExtraScreenshotsHelper, FollowUp.loadDebugState,
    FollowUp.appendDebugState, when.
  crunch. rewrite D. rewrite getLanguage_eq. run. rewrite loadConfig_eq. run.
  cbn [last]. rewrite ensure_client_eq. run.
  (destruct (aiClient s1) as [c|] eqn:A;
   [|destruct (client_of _) as [c|] eqn:C'; [|now elim C1]]); run;
    destruct completion as [[text|]|e]; run;
    try (destruct (isFollowUp && _); run);
    cbn [snd]; run;
    rewrite ?network_calls_app; cbn [network_calls flat_map app];
    rewrite ?app_nil_r; eexists; split; reflexivity.
Qed.

Lemma follow_up_after_solve_witness :
  exists s1 data,
    FollowUp.processScreenshotsHelper 7 Sample.shots
      (Replied (Some Sample.reply)) Sample.ready
    = (Normal (Success data), s1)
    /\ exists request,
         network_calls
           (trace (snd (FollowUp.processExtraScreenshotsHelper 8 Sample.shots
                          (Replied None) true s1)))
         = network_calls (trace s1) ++ [request]
         /\ image_urls request = map image_url (map snd Sample.shots).
Proof.
  apply (@follow_up_after_solve 7 8 Sample.shots Sample.shots
           (Some Sample.reply) (Replied None) true Sample.ready).
  - vm_compute. discriminate.
  - intros w [= <-]. reflexivity.
Defined.

(** Whatever the state and the completion, a debug request leaves the
    debug state as it is, and a follow-up request leaves it as it is or
    adds one entry at its end, with code that is not empty and the time of
    the request. *)
Theorem follow_up_appends (now : Z) (shots : list (jsstring * jsstring))
    (completion : ApiOutcome) (isFollowUp : bool) (s : State) :
  let s' :=
    snd (FollowUp.processExtraScreenshotsHelper now shots completion
           isFollowUp s) in
  debugState s' = debugState s
  \/ (isFollowUp = true
      /\ exists entry,
           entry_code entry <> [] /\ timestamp entry = now
           /\ debugState s'
              = Some (match debugState s with
                      | Some entries => entries ++ [entry]
                      | None => [entry]
                      end)).
Proof.
  cbv zeta.
  unfold FollowUp.processExtraScreenshotsHelper, FollowUp.loadDebugState,
    FollowUp.appendDebugState, when.
  crunch. rewrite getLanguage_eq. run. rewrite loadConfig_eq. run.
  match goal with
  | |- context [match ?x with Some _ => _ | None => _ end ?t] =>
      destruct x as [info|] eqn:I
  end; run; [|left; cbn [snd]; run; reflexivity].
  rewrite ensure_client_eq. run.
  (destruct (aiClient s) as [c|] eqn:A;
   [|destruct (client_of _) as [c|] eqn:C']); run;
    try (left; cbn [snd]; run; reflexivity);
    destruct completion as [[text|]|e]; run;
    try (left; cbn [snd]; run; reflexivity).
  all: destruct isFollowUp; cbn [andb]; run;
       try (left; cbn [snd]; run; reflexivity).
  all: match goal with
       | |- context [nonempty ?x] => destruct x as [|c0 x0] eqn:X
       end; cbn [nonempty]; run; try (left; cbn [snd]; run; reflexivity).
  all: right; split; [reflexivity|];
       exists {| entry_problemInfo := info; entry_code := c0 :: x0;
                 timestamp := now |};
       cbn [snd]; run; cbn [entry_code timestamp];
       split; [discriminate|split; reflexivity].
Qed.

End StateFacts.

(* ================================================================== *)
(** ** The renderer *)
(* ================================================================== *)

Module RendererFacts.
Import JS.

(** With pages, both moves keep a valid index valid and change it by at
    most one. *)
Theorem navigate_in_range (length : Z) (direction : LocalPages.Direction)
    (i : Z) :
  (0 <= i < length)%Z ->
  (0 <= LocalPages.navigate length direction i < length)%Z
  /\ (Z.abs (LocalPages.navigate length direction i - i) <= 1)%Z.
Proof. intros H. destruct direction; unfold LocalPages.navigate; lia. Qed.

Lemma navigate_in_range_witness :
  (0 <= LocalPages.navigate 3 LocalPages.next 2 < 3)%Z.
Proof. apply (@navigate_in_range 3 LocalPages.next 2). lia. Defined.

(** Without pages, which is how the listener is first registered, a move
    to the next page leaves a negative index, whatever it was. *)
Theorem navigate_without_pages (i : Z) :
  (LocalPages.navigate 0 LocalPages.next i < 0)%Z
  /\ (0 <= LocalPages.navigate 0 LocalPages.prev i)%Z.
Proof. unfold LocalPages.navigate. lia. Qed.

Lemma is_word_toUpperCase (c : char) :
  is_word (LocalPages.toUpperCase c) = is_word c.
Proof.
  unfold LocalPages.toUpperCase.
  destruct (is_lower c) eqn:L; [|reflexivity].
  unfold is_word, is_alpha. rewrite L, orb_true_r. cbn [orb].
  unfold is_lower in L. apply andb_prop in L as [A B].
  apply N.leb_le in A, B.
  assert (U : is_upper (c - 32)%N = true).
  { unfold is_upper. apply andb_true_intro. split; apply N.leb_le; lia. }
  now rewrite U.
Qed.

Lemma toUpperCase_idem (c : char) :
  LocalPages.toUpperCase (LocalPages.toUpperCase c) = LocalPages.toUpperCase c.
Proof.
  unfold LocalPages.toUpperCase.
  destruct (is_lower c) eqn:L; [|now rewrite L].
  assert (E : is_lower (c - 32)%N = false).
  { unfold is_lower in *. apply andb_prop in L as [A B].
    apply N.leb_le in A, B. apply andb_false_iff. left.
    apply N.leb_gt. lia. }
  now rewrite E.
Qed.

Lemma capitalize_length (b : bool) (s : jsstring) :
  List.length (LocalPages.capitalize b s) = List.length s.
Proof. revert b. induction s; intros b; simpl; auto. Qed.

Lemma capitalize_idem (b : bool) (s : jsstring) :
  LocalPages.capitalize b (LocalPages.capitalize b s)
  = LocalPages.capitalize b s.
Proof.
  revert b. induction s as [|c s IH]; intros b; [reflexivity|].
  cbn [LocalPages.capitalize].
  destruct (b && is_word c) eqn:E.
  - rewrite is_word_toUpperCase, E, toUpperCase_idem, IH. reflexivity.
  - rewrite E, IH. reflexivity.
Qed.

Lemma capitalize_keeps (x : char) (b : bool) (s : jsstring) :
  is_word x = false ->
  In x (LocalPages.capitalize b s) -> In x s.
Proof.
  intros X. revert b. induction s as [|c s IH]; intros b; [auto|].
  cbn [LocalPages.capitalize In]. intros [H|H]; [|right; eauto].
  destruct (b && is_word c); [|now left].
  rewrite <- H, is_word_toUpperCase in X.
  left. unfold LocalPages.toUpperCase in H.
  destruct (is_lower c) eqn:L; [|assumption].
  unfold is_word, is_alpha in X. rewrite L in X.
  now rewrite orb_true_r in X.
Qed.

(** The title has the length of the name and no hyphen, and formatting it
    again changes nothing. *)
Theorem title_shape (name : jsstring) :
  List.length (LocalPages.title name) = List.length name
  /\ ~ In LocalPages.HYPHEN (LocalPages.title name)
  /\ LocalPages.title (LocalPages.title name) = LocalPages.title name.
Proof.
  unfold LocalPages.title.
  set (h := fun c : char =>
              if (c =? LocalPages.HYPHEN)%N then LocalPages.SPACE else c).
  assert (N : forall s, ~ In LocalPages.HYPHEN (map h s)).
  { intros s H. apply in_map_iff in H as (c & H & _). unfold h in H.
    destruct (c =? LocalPages.HYPHEN)%N eqn:E; [discriminate|].
    apply N.eqb_neq in E. congruence. }
  assert (K : forall b s, ~ In LocalPages.HYPHEN (LocalPages.capitalize b (map h s))).
  { intros b s H. apply capitalize_keeps in H; [|reflexivity]. now apply N in H. }
  split; [now rewrite capitalize_length, length_map|]. split; [apply K|].
  assert (I : forall s, ~ In LocalPages.HYPHEN s -> map h s = s).
  { induction s as [|c s IH]; [reflexivity|]. intros H. simpl.
    rewrite IH by (intros H'; apply H; now right).
    unfold h. destruct (c =? LocalPages.HYPHEN)%N eqn:E; [|reflexivity].
    apply N.eqb_eq in E. elim H. now left. }
  rewrite I by apply K. apply capitalize_idem.
Qed.

(** The mask is empty for a key of fewer than ten characters; otherwise it
    has eleven and shows the first four and the last four of the key. *)
Theorem maskApiKey_shape (key : jsstring) :
  if (List.length key <? 10)%nat then SettingsDialog.maskApiKey key = []
  else
    List.length (SettingsDialog.maskApiKey key) = 11%nat
    /\ firstn 4 (SettingsDialog.maskApiKey key) = firstn 4 key
    /\ skipn 7 (SettingsDialog.maskApiKey key)
       = skipn (List.length key - 4) key.
Proof.
  unfold SettingsDialog.maskApiKey.
  destruct (List.length key <? 10)%nat eqn:L.
  - now rewrite orb_true_r.
  - apply Nat.ltb_ge in L.
    destruct key as [|a [|b [|c [|d key]]]]; simpl in L; try lia.
    cbn [nonempty negb orb]. 
    change (js "...") with [46; 46; 46]%N.
    cbn [firstn app]. split; [|split; reflexivity].
    cbn [List.length]. rewrite length_skipn. cbn [List.length]. lia.
Qed.

End RendererFacts.
